(** * Registration workflow and notification fan-out of the attendance back end

    A shallow embedding of
      - [app/repositories/employe_repository.py] (verification-code store,
        pending-registration store, expiry sweep),
      - [app/services/registration_service.py] (the registration steps),
      - [app/services/entreprise_service.py], [app/services/poste_service.py]
        (the two synchronous collaborators of [complete_registration]),
      - [app/websocket/websocket.py] (the per-company connection registry),
      - [app/services/employe_service.py] and
        [app/controllers/noftication_envoyer.py] (the two publishers of
        notifications),
      - [app/services/empreinte_service.py],
        [app/controllers/empreintes_controller.py] and
        [app/controllers/employer_controller.py] (fingerprint validation),
    followed by the properties of the specification stated over it.

    Conventions.
      - A [datetime] is a [Z]: microseconds since the epoch, UTC.  Every
        call of [datetime.utcnow()] is an explicit argument of the function
        that makes it, in call order.
      - A table with a unique column that every query filters on is a
        [gmap] keyed by that column; the other tables are lists of rows.
      - A text column written with [json.dumps] and read with [json.loads]
        holds the dictionary itself.
      - A Python exception is a value of [exn]; a function that may raise
        returns a [result].  A repository method that raises rolls its
        session back, so it leaves the tables as it found them. *)

From Stdlib Require Import ZArith String Ascii List Bool Lia.
From stdpp Require Import gmap strings list fin_maps.

Local Open Scope string_scope.

(* ===================================================================== *)
(** ** Python values, exceptions and the session monad                    *)
(* ===================================================================== *)

Module Python.

(** [str.lower()] on the ASCII range; other bytes are left alone. *)
Definition lower_ascii (c : ascii) : ascii :=
  let n := nat_of_ascii c in
  if (65 <=? n)%nat && (n <=? 90)%nat then ascii_of_nat (n + 32) else c.

Fixpoint lower (s : string) : string :=
  match s with
  | EmptyString => EmptyString
  | String c r => String (lower_ascii c) (lower r)
  end.

(** Truth value of a [str]: the empty string is falsy. *)
Definition str_truthy (s : string) : bool :=
  match s with EmptyString => false | String _ _ => true end.

(** Truth value of an [Optional[str]]. *)
Definition opt_str_truthy (o : option string) : bool :=
  match o with Some s => str_truthy s | None => false end.

(** The exceptions the modelled code raises or meets. *)
Inductive exn : Type :=
| HTTPException (status_code : Z) (detail : string)
| ValueError (msg : string)
| TypeError (msg : string)
| AttributeError (msg : string)
| ValidationError (model : string)
| RuntimeError (msg : string).

(** [fastapi.status] *)
Definition HTTP_400_BAD_REQUEST : Z := 400.
Definition HTTP_403_FORBIDDEN : Z := 403.
Definition HTTP_404_NOT_FOUND : Z := 404.
Definition HTTP_409_CONFLICT : Z := 409.
Definition HTTP_429_TOO_MANY_REQUESTS : Z := 429.
Definition HTTP_500_INTERNAL_SERVER_ERROR : Z := 500.

Inductive result (A : Type) : Type :=
| Return (a : A)
| Raise (e : exn).
Arguments Return {A} a.
Arguments Raise {A} e.

(** A computation over a mutable store [S] that may raise. *)
Definition M (S A : Type) : Type := S -> result A * S.

Definition ret {S A} (a : A) : M S A := fun s => (Return a, s).
Definition raise {S A} (e : exn) : M S A := fun s => (Raise e, s).
Definition bind {S A B} (m : M S A) (k : A -> M S B) : M S B :=
  fun s =>
    match m s with
    | (Return a, s') => k a s'
    | (Raise e, s') => (Raise e, s')
    end.
Definition get {S} : M S S := fun s => (Return s, s).
Definition modify {S} (f : S -> S) : M S unit := fun s => (Return tt, f s).

(** [try: m  except HTTPException: raise  except Exception as e: h e] *)
Definition try_except_reraising_http {S A}
    (m : M S A) (h : exn -> M S A) : M S A :=
  fun s =>
    match m s with
    | (Return a, s') => (Return a, s')
    | (Raise (HTTPException c d), s') => (Raise (HTTPException c d), s')
    | (Raise e, s') => h e s'
    end.

(** Runs [f] over a list from left to right; the first exception ends the
    run. *)
Fixpoint mapM {A B} (f : A -> result B) (l : list A) : result (list B) :=
  match l with
  | [] => Return []
  | x :: r =>
      match f x with
      | Raise e => Raise e
      | Return y =>
          match mapM f r with
          | Raise e => Raise e
          | Return ys => Return (y :: ys)
          end
      end
  end.

(** [timedelta] values, in microseconds. *)
Definition minutes (n : Z) : Z := (n * 60 * 1000000)%Z.
Definition days (n : Z) : Z := (n * 86400 * 1000000)%Z.

End Python.
Import Python.

Declare Scope py_scope.
Delimit Scope py_scope with py.
Notation "'let*' x ':=' m 'in' k" := (bind m (fun x => k))
  (at level 10, x binder, m at level 100, k at level 200) : py_scope.
Local Open Scope py_scope.

(* ===================================================================== *)
(** ** [app/models/models.py]: the rows                                   *)
(* ===================================================================== *)

Module Models.

(** [uuid.UUID]; [uuid4()] draws the next value of the session's supply. *)
Definition UUID : Type := positive.

(** A value of a flat JSON object: a string or [null]. *)
Inductive jval : Type :=
| JNone
| JStr (s : string).

#[global] Instance jval_eq_dec : EqDecision jval.
Proof. solve_decision. Defined.

(** A stored JSON object ([personal_info_json], [company_info_json]). *)
Abbreviation dict := (gmap string jval).

(** [d.get(k)] *)
Definition dict_get (d : dict) (k : string) : jval :=
  match d !! k with Some v => v | None => JNone end.

(** Truth value of a [dict]: the empty dictionary is falsy. *)
Definition dict_truthy (d : dict) : bool := negb (bool_decide (d = ∅)).

Definition opt_dict_truthy (o : option dict) : bool :=
  match o with Some d => dict_truthy d | None => false end.

Definition jval_is (v : jval) (s : string) : bool :=
  bool_decide (v = JStr s).

Record EmployeDB : Type := {
  emp_idEmploye : UUID;
  emp_email : string;
  emp_employeeId : string;
  emp_role : string;
  emp_idEntreprise : UUID;
}.

Record GroupeDB : Type := {
  grp_idGroupe : UUID;
  grp_nom : string;
  grp_idEntreprise : UUID;
}.

Record EntrepriseDB : Type := {
  ent_idEntreprise : UUID;
  ent_nom : string;
  ent_adresse : option string;
  ent_contact_email : option string;
}.

Record PosteDB : Type := {
  pst_idPoste : UUID;
  pst_nom : string;
  pst_description : option string;
  pst_idEntreprise : UUID;
}.

(** [pending_registration]; [user_email] is the unique key of the table. *)
Record PendingRegistrationDB : Type := {
  pr_personal_info_json : option dict;
  pr_company_info_json : option dict;
  pr_role_assigned : option string;
  pr_expires_at : Z;
}.

(** [verification_code]; [identifier] is the unique key of the table. *)
Record VerificationCodeDB : Type := {
  vc_code : string;
  vc_expires_at : Z;
}.

(** The database behind a [Session]. *)
Record Session : Type := {
  employe : list EmployeDB;
  groupe : list GroupeDB;
  entreprise : list EntrepriseDB;
  poste : list PosteDB;
  pending_registration : gmap string PendingRegistrationDB;
  verification_code : gmap string VerificationCodeDB;
  uuid_supply : UUID;
}.

Definition with_pending (f : gmap string PendingRegistrationDB ->
                             gmap string PendingRegistrationDB)
    (db : Session) : Session :=
  {| employe := employe db; groupe := groupe db;
     entreprise := entreprise db; poste := poste db;
     pending_registration := f (pending_registration db);
     verification_code := verification_code db;
     uuid_supply := uuid_supply db |}.

Definition with_codes (f : gmap string VerificationCodeDB ->
                           gmap string VerificationCodeDB)
    (db : Session) : Session :=
  {| employe := employe db; groupe := groupe db;
     entreprise := entreprise db; poste := poste db;
     pending_registration := pending_registration db;
     verification_code := f (verification_code db);
     uuid_supply := uuid_supply db |}.

Definition add_entreprise (e : EntrepriseDB) (db : Session) : Session :=
  {| employe := employe db; groupe := groupe db;
     entreprise := (entreprise db ++ [e])%list; poste := poste db;
     pending_registration := pending_registration db;
     verification_code := verification_code db;
     uuid_supply := Pos.succ (uuid_supply db) |}.

Definition add_poste (p : PosteDB) (db : Session) : Session :=
  {| employe := employe db; groupe := groupe db;
     entreprise := entreprise db; poste := (poste db ++ [p])%list;
     pending_registration := pending_registration db;
     verification_code := verification_code db;
     uuid_supply := Pos.succ (uuid_supply db) |}.

End Models.
Import Models.

(* ===================================================================== *)
(** ** [app/repositories/employe_repository.py]                            *)
(* ===================================================================== *)

Module EmployeRepository.

Definition get_employe_by_email (email : string)
  : M Session (option EmployeDB) :=
  let* db := get in
  ret (find (fun e => String.eqb (emp_email e) (lower email)) (employe db)).

Definition get_employe_by_employee_id (employee_id : string)
  : M Session (option EmployeDB) :=
  let* db := get in
  ret (find (fun e => String.eqb (emp_employeeId e) employee_id) (employe db)).

Definition get_groupe_by_id (id_groupe : UUID) : M Session (option GroupeDB) :=
  let* db := get in
  ret (find (fun g => Pos.eqb (grp_idGroupe g) id_groupe) (groupe db)).

(** The new row takes the column default of [role_assigned]. *)
Definition add_pending_registration (user_email : string)
    (personal_info : dict) (expires_at : Z) : M Session unit :=
  let* db := get in
  match pending_registration db !! lower user_email with
  | Some existing =>
      modify (with_pending (insert (lower user_email)
        {| pr_personal_info_json := Some personal_info;
           pr_company_info_json := pr_company_info_json existing;
           pr_role_assigned := pr_role_assigned existing;
           pr_expires_at := expires_at |}))
  | None =>
      modify (with_pending (insert (lower user_email)
        {| pr_personal_info_json := Some personal_info;
           pr_company_info_json := None;
           pr_role_assigned := Some "employee";
           pr_expires_at := expires_at |}))
  end.

(** What [get_pending_registration] hands back: the row as a dictionary
    with the four keys always present. *)
Definition get_pending_registration (now : Z) (user_email : string)
  : M Session (option PendingRegistrationDB) :=
  let* db := get in
  match pending_registration db !! lower user_email with
  | Some pending =>
      if (now <? pr_expires_at pending)%Z then ret (Some pending)
      else ret None
  | None => ret None
  end.

Inductive pending_key : Type :=
| key_personal_info (value : dict)
| key_company_info (value : dict)
| key_role_assigned (value : string).

Definition update_pending_registration (user_email : string)
    (kv : pending_key) : M Session unit :=
  let* db := get in
  match pending_registration db !! lower user_email with
  | None =>
      raise (ValueError "Aucune registration en attente")
  | Some pending =>
      let pending' :=
        match kv with
        | key_personal_info value =>
            {| pr_personal_info_json := Some value;
               pr_company_info_json := pr_company_info_json pending;
               pr_role_assigned := pr_role_assigned pending;
               pr_expires_at := pr_expires_at pending |}
        | key_company_info value =>
            {| pr_personal_info_json := pr_personal_info_json pending;
               pr_company_info_json := Some value;
               pr_role_assigned := pr_role_assigned pending;
               pr_expires_at := pr_expires_at pending |}
        | key_role_assigned value =>
            {| pr_personal_info_json := pr_personal_info_json pending;
               pr_company_info_json := pr_company_info_json pending;
               pr_role_assigned := Some value;
               pr_expires_at := pr_expires_at pending |}
        end in
      modify (with_pending (insert (lower user_email) pending'))
  end.

Definition delete_pending_registration (user_email : string)
  : M Session unit :=
  modify (with_pending (delete (lower user_email))).

Definition set_verification_code (now : Z) (email : string) (code : string)
    (expires_in_minutes : Z) : M Session unit :=
  let expires_at := (now + minutes expires_in_minutes)%Z in
  let identifier := lower email in
  modify (with_codes (insert identifier
    {| vc_code := code; vc_expires_at := expires_at |})).

Definition get_verification_code (now : Z) (email : string)
  : M Session (option string) :=
  let* db := get in
  match verification_code db !! lower email with
  | Some code_entry =>
      if (now <? vc_expires_at code_entry)%Z then ret (Some (vc_code code_entry))
      else ret None
  | None => ret None
  end.

Definition delete_verification_code (email : string) : M Session unit :=
  modify (with_codes (delete (lower email))).

Definition cleanup_expired_entries (now : Z) : M Session unit :=
  let* _ := modify (with_pending
    (filter (fun kv => ¬ (pr_expires_at kv.2 < now)%Z))) in
  modify (with_codes
    (filter (fun kv => ¬ (vc_expires_at kv.2 < now)%Z))).

End EmployeRepository.
Import EmployeRepository.

(* ===================================================================== *)
(** ** [app/schemas/schemas.py]: the request and response models          *)
(* ===================================================================== *)

Module Schemas.

Record PersonalInfo : Type := {
  pi_userEmail : string;
  pi_lastName : string;
  pi_firstName : string;
  pi_position : option string;
  pi_employeeId : string;
  pi_phoneNumber : option string;
  pi_password : option string;
}.

Record UserVerification : Type := {
  uv_email : string;
  uv_code : string;
}.

Record CompanyInfo : Type := {
  ci_companyName : string;
  ci_companyContactEmail : string;
  ci_adresse : option string;
}.

Record CompanyVerification : Type := {
  cv_userEmail : string;
  cv_companyCode : string;
}.

Record FinalRegistrationData : Type := {
  fr_lastName : string;
  fr_firstName : string;
  fr_employeeId : string;
  fr_userEmail : string;
  fr_position : option string;
  fr_phoneNumber : option string;
  fr_password : option string;
  fr_companyName : string;
  fr_companyContactEmail : string;
  fr_idGroupe : option UUID;
  fr_adresse : option string;
}.

Record MessageResponse : Type := {
  message : string;
  expires_at : option Z;
}.

Record EmployeCreate : Type := {
  ec_nom : string;
  ec_prenom : string;
  ec_employeeId : string;
  ec_email : string;
  ec_idPoste : option UUID;
  ec_phone_number : option string;
  ec_motDePasse : option string;
  ec_role : string;
  ec_idEntreprise : option UUID;
  ec_idGroupe : option UUID;
}.

Record EmployeResponse : Type := {
  er_idEmploye : UUID;
  er_email : string;
  er_employeeId : string;
  er_role : string;
  er_message : option string;
  er_expires_at : option Z;
}.

Definition opt_jval (o : option string) : jval :=
  match o with Some s => JStr s | None => JNone end.

(** [PersonalInfo.model_dump()] *)
Definition PersonalInfo_model_dump (p : PersonalInfo) : dict :=
  <["userEmail" := JStr (pi_userEmail p)]>
  (<["lastName" := JStr (pi_lastName p)]>
  (<["firstName" := JStr (pi_firstName p)]>
  (<["position" := opt_jval (pi_position p)]>
  (<["employeeId" := JStr (pi_employeeId p)]>
  (<["phoneNumber" := opt_jval (pi_phoneNumber p)]>
  (<["password" := opt_jval (pi_password p)]> ∅)))))).

(** [CompanyInfo.model_dump()] *)
Definition CompanyInfo_model_dump (c : CompanyInfo) : dict :=
  <["companyName" := JStr (ci_companyName c)]>
  (<["companyContactEmail" := JStr (ci_companyContactEmail c)]>
  (<["adresse" := opt_jval (ci_adresse c)]> ∅)).

(** What [complete_registration] passes to [EmployeResponse.model_validate]:
    a row of [employe], or the coroutine object that calling an
    [async def] without [await] yields. *)
Inductive PyObject : Type :=
| employe_row (e : EmployeDB)
| coroutine (qualname : string).

(** [EmployeResponse.model_validate(obj)] with [from_attributes = True]:
    a coroutine object carries none of the required fields. *)
Definition EmployeResponse_model_validate (obj : PyObject)
  : result EmployeResponse :=
  match obj with
  | employe_row e =>
      Return {| er_idEmploye := emp_idEmploye e; er_email := emp_email e;
                er_employeeId := emp_employeeId e; er_role := emp_role e;
                er_message := None; er_expires_at := None |}
  | coroutine _ => Raise (ValidationError "EmployeResponse")
  end.

End Schemas.
Import Schemas.

(* ===================================================================== *)
(** ** [app/services/entreprise_service.py], [app/services/poste_service.py] *)
(* ===================================================================== *)

Module EntrepriseService.

Definition create_entreprise (nom : string) (adresse : option string)
    (contact_email : option string) (current_user_role : string)
  : M Session EntrepriseDB :=
  if negb (String.eqb current_user_role "admin") then
    raise (HTTPException HTTP_403_FORBIDDEN
             "Seul un admin peut créer une entreprise.")
  else
    let* db := get in
    match find (fun e => String.eqb (ent_nom e) nom) (entreprise db) with
    | Some _ =>
        raise (HTTPException HTTP_409_CONFLICT
                 ("Entreprise avec le nom « " +:+ nom +:+ " » existe déjà."))
    | None =>
        let db_entreprise :=
          {| ent_idEntreprise := uuid_supply db;
             ent_nom := nom;
             ent_adresse := adresse;
             ent_contact_email :=
               if opt_str_truthy contact_email
               then lower <$> contact_email else None |} in
        let* _ := modify (add_entreprise db_entreprise) in
        ret db_entreprise
    end.

End EntrepriseService.

Module PosteService.

Definition create_poste (nom : string) (description : option string)
    (idEntreprise : UUID) (current_user_role : string)
  : M Session PosteDB :=
  if negb (String.eqb current_user_role "admin"
           || String.eqb current_user_role "super-admin") then
    raise (HTTPException HTTP_403_FORBIDDEN "Non autorisé à créer un poste.")
  else
    let* db := get in
    match find (fun p => String.eqb (pst_nom p) nom
                         && Pos.eqb (pst_idEntreprise p) idEntreprise)
               (poste db) with
    | Some _ =>
        raise (HTTPException HTTP_409_CONFLICT
                 "Un poste avec ce nom existe déjà dans l'entreprise.")
    | None =>
        let db_poste :=
          {| pst_idPoste := uuid_supply db; pst_nom := nom;
             pst_description := description;
             pst_idEntreprise := idEntreprise |} in
        let* _ := modify (add_poste db_poste) in
        ret db_poste
    end.

End PosteService.

(* ===================================================================== *)
(** ** [app/services/registration_service.py]                              *)
(* ===================================================================== *)

Module RegistrationService.

(** [str(e)] of a caught exception. *)
Definition exn_str (e : exn) : string :=
  match e with
  | HTTPException _ d => d
  | ValueError m | TypeError m | AttributeError m | RuntimeError m => m
  | ValidationError m => "validation error for " +:+ m
  end.

(** [app/utils/email_sender.py]: [send_email] turns every SMTP failure
    into a [ValueError]; whether the relay accepts the message is an
    input of the run. *)
Definition send_email (smtp_accepts : bool) (receiver_email : string)
  : M Session unit :=
  if smtp_accepts then ret tt
  else raise (ValueError ("Échec de l'envoi de l'e-mail de vérification à "
                          +:+ receiver_email))%string.

(** [info and info.get("status") == s] on the value handed back under
    ["personal_info_json"]. *)
Definition status_is (info : option dict) (s : string) : bool :=
  match info with
  | Some d => dict_truthy d && jval_is (dict_get d "status") s
  | None => false
  end.

(** 1) Personal information: [now_check] is the clock read of
    [get_verification_code], [now_expiry] the read of line 53 and
    [now_store] the read of [set_verification_code]; [token] is the value
    of [secrets.token_hex(3)]. *)
Definition process_personal_info (now_check now_expiry now_store : Z)
    (token : string) (smtp_accepts : bool) (personal_info : PersonalInfo)
  : M Session MessageResponse :=
  try_except_reraising_http
    (let* by_email := get_employe_by_email (pi_userEmail personal_info) in
     if bool_decide (is_Some by_email) then
       raise (HTTPException HTTP_400_BAD_REQUEST "L'email est déjà enregistré")
     else
     let* by_code := get_employe_by_employee_id (pi_employeeId personal_info) in
     if bool_decide (is_Some by_code) then
       raise (HTTPException HTTP_400_BAD_REQUEST
                "L'ID d'employé est déjà enregistré")
     else
     let* existing_code :=
       get_verification_code now_check (pi_userEmail personal_info) in
     if opt_str_truthy existing_code then
       raise (HTTPException HTTP_429_TOO_MANY_REQUESTS
                "Un code a déjà été envoyé, veuillez patienter")
     else
     let verification_code := token in
     let expires_at := (now_expiry + minutes 4)%Z in
     let* _ := set_verification_code now_store (pi_userEmail personal_info)
                 verification_code 4 in
     let* _ := add_pending_registration (pi_userEmail personal_info)
                 (PersonalInfo_model_dump personal_info) expires_at in
     let* _ := send_email smtp_accepts (pi_userEmail personal_info) in
     ret {| message := "Code envoyé à " +:+ pi_userEmail personal_info;
            expires_at := Some expires_at |})
    (fun e =>
       raise (HTTPException HTTP_500_INTERNAL_SERVER_ERROR
                ("Erreur serveur : " +:+ exn_str e))).

(** 2) Verification of the user's code: [now_code] and [now_pending] are
    the clock reads of the two repository reads. *)
Definition verify_user_email (now_code now_pending : Z)
    (verification_data : UserVerification) : M Session MessageResponse :=
  let* stored_code := get_verification_code now_code (uv_email verification_data) in
  if negb (opt_str_truthy stored_code) then
    raise (HTTPException HTTP_400_BAD_REQUEST "Code introuvable ou expiré")
  else if negb (bool_decide (stored_code = Some (uv_code verification_data))) then
    raise (HTTPException HTTP_400_BAD_REQUEST "Code incorrect")
  else
  let* pending := get_pending_registration now_pending (uv_email verification_data) in
  match pending with
  | None => raise (HTTPException HTTP_400_BAD_REQUEST "Inscription introuvable")
  | Some pending =>
      let* _ := delete_verification_code (uv_email verification_data) in
      let current_info : dict :=
        match pr_personal_info_json pending with
        | Some personal_info_raw =>
            if dict_truthy personal_info_raw then personal_info_raw else ∅
        | None => ∅
        end in
      let current_info := <["status" := JStr "email_verified"]> current_info in
      let* _ := update_pending_registration (uv_email verification_data)
                  (key_personal_info current_info) in
      ret {| message :=
               "Email vérifié, veuillez fournir les informations de l'entreprise.";
             expires_at := Some (pr_expires_at pending) |}
  end.

(** 3) Company information. *)
Definition process_company_info (now_pending now_check now_expiry now_store : Z)
    (token : string) (smtp_accepts : bool)
    (company_info : CompanyInfo) (user_email : string)
  : M Session MessageResponse :=
  let* pending := get_pending_registration now_pending user_email in
  match pending with
  | None => raise (HTTPException HTTP_400_BAD_REQUEST "Inscription introuvable")
  | Some pending =>
      if negb (status_is (pr_personal_info_json pending) "email_verified") then
        raise (HTTPException HTTP_400_BAD_REQUEST "Email non vérifié")
      else
      let* existing_code :=
        get_verification_code now_check (ci_companyContactEmail company_info) in
      if opt_str_truthy existing_code then
        raise (HTTPException HTTP_429_TOO_MANY_REQUESTS
                 "Un code pour l'entreprise a déjà été envoyé, veuillez patienter")
      else
      let* _ := update_pending_registration user_email
                  (key_company_info (CompanyInfo_model_dump company_info)) in
      let verification_code := token in
      let expires_at := (now_expiry + minutes 4)%Z in
      let* _ := set_verification_code now_store
                  (ci_companyContactEmail company_info) verification_code 4 in
      fun db =>
        match send_email smtp_accepts (ci_companyContactEmail company_info) db with
        | (Return _, db') =>
            (Return {| message :=
                         "Code envoyé à " +:+ ci_companyContactEmail company_info;
                       expires_at := Some expires_at |}, db')
        | (Raise e, db') =>
            (Raise (HTTPException HTTP_500_INTERNAL_SERVER_ERROR
                      ("Erreur envoi mail: " +:+ exn_str e)), db')
        end
  end.

(** 4) Verification of the company's code.  Python's
    [company_info_raw.get("companyContactEmail")] may be [None]; the
    repository then fails on [None.lower()]. *)
Definition verify_company_email (now_pending now_code : Z)
    (verification_data : CompanyVerification) : M Session MessageResponse :=
  let* pending := get_pending_registration now_pending (cv_userEmail verification_data) in
  match pending with
  | None => raise (HTTPException HTTP_400_BAD_REQUEST "Infos entreprise manquantes")
  | Some pending =>
      let company_email : jval :=
        match pr_company_info_json pending with
        | Some company_info_raw =>
            if dict_truthy company_info_raw
            then dict_get company_info_raw "companyContactEmail" else JNone
        | None => JNone
        end in
      match company_email with
      | JNone =>
          raise (AttributeError "'NoneType' object has no attribute 'lower'")
      | JStr company_email =>
          let* stored_code := get_verification_code now_code company_email in
          if negb (opt_str_truthy stored_code) then
            raise (HTTPException HTTP_400_BAD_REQUEST "Code introuvable ou expiré")
          else if negb (bool_decide
                          (stored_code = Some (cv_companyCode verification_data))) then
            raise (HTTPException HTTP_400_BAD_REQUEST "Code incorrect")
          else
          let* _ := delete_verification_code company_email in
          let* _ := update_pending_registration (cv_userEmail verification_data)
                      (key_role_assigned "admin") in
          ret {| message := "Entreprise vérifiée, veuillez finaliser inscription.";
                 expires_at := Some (pr_expires_at pending) |}
      end
  end.

(** 5) Completion.  [now_pending] is the clock read of
    [get_pending_registration], [now_done] the read of line 244.

    Two calls of the source do not do what they read like:
    [self.poste_service.get_poste_by_name_and_company] names a method that
    [PosteService] does not have (it is a method of [PosteRepository]), so
    evaluating it raises [AttributeError]; and
    [self.employe_service.create_employe(...)] is an [async def] called
    without [await], so it yields a coroutine object and its body never
    runs. *)
Definition complete_registration (now_pending now_done : Z)
    (registration_data : FinalRegistrationData) : M Session EmployeResponse :=
  let* pending := get_pending_registration now_pending (fr_userEmail registration_data) in
  match pending with
  | None =>
      raise (HTTPException HTTP_400_BAD_REQUEST "Inscription expirée ou introuvable")
  | Some pending =>
      if negb (status_is (pr_personal_info_json pending) "email_verified") then
        raise (HTTPException HTTP_400_BAD_REQUEST "Email non vérifié")
      else
      let is_admin := bool_decide (pr_role_assigned pending = Some "admin") in
      let* poste_id :=
        (if opt_str_truthy (fr_position registration_data) then
           if is_admin then ret (@None UUID)
           else
             match fr_idGroupe registration_data with
             | Some id_groupe =>
                 let* groupe := get_groupe_by_id id_groupe in
                 match groupe with
                 | None =>
                     raise (HTTPException HTTP_404_NOT_FOUND "Groupe introuvable")
                 | Some groupe =>
                     (* [idEntreprise_for_poste] is a UUID, hence truthy *)
                     raise (AttributeError
                       "'PosteService' object has no attribute 'get_poste_by_name_and_company'")
                 end
             | None =>
                 raise (HTTPException HTTP_400_BAD_REQUEST
                          "Groupe requis pour récupérer entreprise")
             end
         else ret None) in
      let* placement :=
        (if is_admin then
           if negb (str_truthy (fr_companyName registration_data))
              || negb (str_truthy (fr_companyContactEmail registration_data)) then
             raise (HTTPException HTTP_400_BAD_REQUEST
                      "Infos entreprise requises pour admin")
           else
             let* entreprise :=
               EntrepriseService.create_entreprise
                 (fr_companyName registration_data)
                 (fr_adresse registration_data)
                 (Some (lower (fr_companyContactEmail registration_data)))
                 "admin" in
             let* id_poste :=
               (if opt_str_truthy (fr_position registration_data)
                   && bool_decide (poste_id = None) then
                  match fr_position registration_data with
                  | Some position =>
                      let* poste_obj :=
                        PosteService.create_poste position None
                          (ent_idEntreprise entreprise) "admin" in
                      ret (Some (pst_idPoste poste_obj))
                  | None => ret poste_id
                  end
                else ret poste_id) in
             ret (ent_idEntreprise entreprise, @None UUID, id_poste)
         else
           match fr_idGroupe registration_data with
           | None =>
               raise (HTTPException HTTP_400_BAD_REQUEST
                        "Groupe requis pour employés non admin")
           | Some id_groupe =>
               let* groupe := get_groupe_by_id id_groupe in
               match groupe with
               | None =>
                   raise (HTTPException HTTP_404_NOT_FOUND "Groupe introuvable")
               | Some groupe =>
                   ret (grp_idEntreprise groupe, Some (grp_idGroupe groupe), poste_id)
               end
           end) in
      let '(id_entreprise, id_groupe, id_poste) := placement in
      (* [EmployeCreate] built from [employe_dict]: [role] must be a [str] *)
      let* employe_create_obj :=
        match pr_role_assigned pending with
        | None => raise (ValidationError "EmployeCreate")
        | Some role =>
            ret {| ec_nom := fr_lastName registration_data;
                   ec_prenom := fr_firstName registration_data;
                   ec_employeeId := fr_employeeId registration_data;
                   ec_email := fr_userEmail registration_data;
                   ec_idPoste := id_poste;
                   ec_phone_number := fr_phoneNumber registration_data;
                   ec_motDePasse :=
                     if opt_str_truthy (fr_password registration_data)
                     then fr_password registration_data else None;
                   ec_role := role;
                   ec_idEntreprise := Some id_entreprise;
                   ec_idGroupe := id_groupe |}
        end in
      let employe := coroutine "EmployeService.create_employe" in
      let* _ := delete_pending_registration (fr_userEmail registration_data) in
      let* _ := add_pending_registration (fr_userEmail registration_data)
                  (<["status" := JStr "pending_fingerprint_validation"]> ∅)
                  (now_done + days 1)%Z in
      let* response := (fun db => (EmployeResponse_model_validate employe, db)) in
      ret {| er_idEmploye := er_idEmploye response;
             er_email := er_email response;
             er_employeeId := er_employeeId response;
             er_role := er_role response;
             er_message :=
               Some "Inscription terminée, veuillez enregistrer votre empreinte digitale.";
             er_expires_at := Some (pr_expires_at pending) |}
  end.

(** [pending.get("personal_info_json", {}).get("status")]: the key is
    always present, so the default is never used and a [None] value makes
    the second [get] fail. *)
Definition status_or_fail (info : option dict) : M Session jval :=
  match info with
  | Some d => ret (dict_get d "status")
  | None => raise (AttributeError "'NoneType' object has no attribute 'get'")
  end.

Definition complete_fingerprint_validation (now : Z) (user_email : string)
  : M Session unit :=
  let* pending := get_pending_registration now user_email in
  match pending with
  | None => raise (HTTPException HTTP_400_BAD_REQUEST "Inscription introuvable")
  | Some pending =>
      let* status := status_or_fail (pr_personal_info_json pending) in
      if negb (jval_is status "pending_fingerprint_validation") then
        raise (HTTPException HTTP_400_BAD_REQUEST
                 "Validation empreinte en attente absente")
      else delete_pending_registration user_email
  end.

(** The dictionary [get_pending_state] returns. *)
Record PendingState : Type := {
  ps_step : string;
  ps_user_email : string;
  ps_personal_info : option dict;
  ps_company_info : option dict;
  ps_role : option string;
  ps_expires_at : option Z;
}.

Definition get_pending_state (now : Z) (user_email : string)
  : M Session PendingState :=
  let* pending := get_pending_registration now user_email in
  match pending with
  | None => raise (HTTPException HTTP_400_BAD_REQUEST "Aucune inscription en cours")
  | Some pending =>
      let step := "personal_info" in
      let step :=
        if status_is (pr_personal_info_json pending) "email_verified"
        then "company_info" else step in
      let step :=
        if opt_dict_truthy (pr_company_info_json pending)
        then "verify_company" else step in
      let step :=
        if bool_decide (pr_role_assigned pending = Some "admin")
        then "final" else step in
      let* status := status_or_fail (pr_personal_info_json pending) in
      let step :=
        if jval_is status "pending_fingerprint_validation"
        then "fingerprint_validation" else step in
      ret {| ps_step := step;
             ps_user_email := user_email;
             ps_personal_info := pr_personal_info_json pending;
             ps_company_info := pr_company_info_json pending;
             ps_role := pr_role_assigned pending;
             ps_expires_at := Some (pr_expires_at pending) |}
  end.

End RegistrationService.
Import RegistrationService.

(* ===================================================================== *)
(** ** [app/websocket/websocket.py]                                        *)
(* ===================================================================== *)

Module Websocket.

Set Warnings "-register-all".

(** The Python values a notification payload is made of.  [PyOther] is
    any object that is neither JSON-native nor a [UUID] (a [datetime], a
    [Decimal], ...); dictionary keys are strings. *)
Inductive pyobj : Type :=
| PyNone
| PyBool (b : bool)
| PyInt (z : Z)
| PyFloat (repr : string)
| PyStr (s : string)
| PyList (items : list pyobj)
| PyDict (items : list (string * pyobj))
| PyUUID (canonical : string)
| PyOther (type_name : string).

(** The text [json.dumps] produces, as its syntax tree. *)
Inductive json : Type :=
| Jnull
| Jbool (b : bool)
| Jint (z : Z)
| Jfloat (repr : string)
| Jstring (s : string)
| Jarray (items : list json)
| Jobject (items : list (string * json)).

(** The name [type(obj)] prints. *)
Definition type_name (obj : pyobj) : string :=
  match obj with
  | PyNone => "NoneType"
  | PyBool _ => "bool"
  | PyInt _ => "int"
  | PyFloat _ => "float"
  | PyStr _ => "str"
  | PyList _ => "list"
  | PyDict _ => "dict"
  | PyUUID _ => "UUID"
  | PyOther name => name
  end.

Definition _json_default (obj : pyobj) : result string :=
  match obj with
  | PyUUID canonical => Return canonical
  | _ => Raise (TypeError ("Type " +:+ type_name obj +:+ " not serializable"))
  end.

(** [json.dumps(obj, default=_json_default)] *)
Fixpoint json_dumps (obj : pyobj) : result json :=
  match obj with
  | PyNone => Return Jnull
  | PyBool b => Return (Jbool b)
  | PyInt z => Return (Jint z)
  | PyFloat r => Return (Jfloat r)
  | PyStr s => Return (Jstring s)
  | PyList items =>
      match mapM json_dumps items with
      | Raise e => Raise e
      | Return js => Return (Jarray js)
      end
  | PyDict items =>
      match mapM (fun kv =>
                    match kv with
                    | (k, x) =>
                        match json_dumps x with
                        | Raise e => Raise e
                        | Return jx => Return (k, jx)
                        end
                    end) items with
      | Raise e => Raise e
      | Return js => Return (Jobject js)
      end
  | PyUUID _ | PyOther _ =>
      match _json_default obj with
      | Raise e => Raise e
      | Return s => Return (Jstring s)
      end
  end.

(** Some value inside [obj] is neither JSON-native nor a [UUID]. *)
Fixpoint has_foreign_value (obj : pyobj) : bool :=
  match obj with
  | PyList items => existsb has_foreign_value items
  | PyDict items =>
      existsb (fun kv => match kv with (_, x) => has_foreign_value x end) items
  | PyOther _ => true
  | _ => false
  end.

(** A connection handle: the identity of a [WebSocket] object. *)
Definition WebSocket : Type := nat.

(** The manager's dictionary, and beside it the log of the [send_text]
    calls made on the connections. *)
Record NotificationManager : Type := {
  active_connections : gmap string (list WebSocket);
  send_text_calls : list (WebSocket * json);
}.

Definition with_connections
    (f : gmap string (list WebSocket) -> gmap string (list WebSocket))
    (self : NotificationManager) : NotificationManager :=
  {| active_connections := f (active_connections self);
     send_text_calls := send_text_calls self |}.

(** [l.remove(x)]: drops the first occurrence. *)
Fixpoint list_remove (x : WebSocket) (l : list WebSocket) : list WebSocket :=
  match l with
  | [] => []
  | y :: r => if Nat.eqb x y then r else y :: list_remove x r
  end.

(** [accepts] tells whether [await websocket.accept()] returns; when it
    raises, the exception leaves [connect] before the registry is touched. *)
Definition connect (accepts : bool) (company_id : string) (websocket : WebSocket)
  : M NotificationManager unit :=
  if negb accepts then raise (RuntimeError "websocket.accept")
  else
    let* self := get in
    let* _ :=
      (match active_connections self !! company_id with
       | None => modify (with_connections (insert company_id []))
       | Some _ => ret tt
       end) in
    modify (with_connections (fun ac =>
      match ac !! company_id with
      | Some l => <[company_id := (l ++ [websocket])%list]> ac
      | None => ac
      end)).

Definition disconnect (company_id : string) (websocket : WebSocket)
  : M NotificationManager unit :=
  let* self := get in
  match active_connections self !! company_id with
  | Some l =>
      if bool_decide (websocket ∈ l) then
        let l' := list_remove websocket l in
        let* _ := modify (with_connections (insert company_id l')) in
        match l' with
        | [] => modify (with_connections (delete company_id))
        | _ :: _ => ret tt
        end
      else ret tt
  | None => ret tt
  end.

(** [await ws.send_text(text)]: [delivers ws] tells whether the
    connection takes the frame (a connection is alive or dead for the whole
    of one pass); the call is logged either way. *)
Definition send_text (delivers : WebSocket -> bool) (ws : WebSocket) (text : json)
  : M NotificationManager unit :=
  fun self =>
    (if delivers ws then Return tt else Raise (RuntimeError "send_text"),
     {| active_connections := active_connections self;
        send_text_calls := (send_text_calls self ++ [(ws, text)])%list |}).

(** The body of the [try] of one iteration. *)
Definition deliver (delivers : WebSocket -> bool) (event : string) (data : pyobj)
    (ws : WebSocket) : M NotificationManager unit :=
  let payload := PyDict [("event", PyStr event); ("data", data)] in
  let* text := (fun self => (json_dumps payload, self)) in
  send_text delivers ws text.

(** [for ws in snapshot: try: ... except Exception: disconnected.append(ws)] *)
Fixpoint broadcast (delivers : WebSocket -> bool) (event : string) (data : pyobj)
    (snapshot disconnected : list WebSocket)
  : M NotificationManager (list WebSocket) :=
  match snapshot with
  | [] => ret disconnected
  | ws :: rest =>
      fun self =>
        match deliver delivers event data ws self with
        | (Return _, self') =>
            broadcast delivers event data rest disconnected self'
        | (Raise _, self') =>
            broadcast delivers event data rest (disconnected ++ [ws])%list self'
        end
  end.

(** [for ws in disconnected: self.disconnect(company_id, ws)] *)
Fixpoint disconnect_all (company_id : string) (disconnected : list WebSocket)
  : M NotificationManager unit :=
  match disconnected with
  | [] => ret tt
  | ws :: rest =>
      let* _ := disconnect company_id ws in
      disconnect_all company_id rest
  end.

Definition send_to_company (delivers : WebSocket -> bool)
    (company_id : string) (event : string) (data : pyobj)
  : M NotificationManager unit :=
  let* self := get in
  match active_connections self !! company_id with
  | Some subscribers =>
      let* disconnected := broadcast delivers event data subscribers [] in
      disconnect_all company_id disconnected
  | None => ret tt
  end.

(** A call made on the manager, and a run of such calls.  An exception
    that leaves a call does not undo what the call did to the manager. *)
Inductive call : Type :=
| call_connect (accepts : bool) (company_id : string) (websocket : WebSocket)
| call_disconnect (company_id : string) (websocket : WebSocket)
| call_send_to_company (delivers : WebSocket -> bool)
    (company_id : string) (event : string) (data : pyobj).

Definition step (c : call) (self : NotificationManager) : NotificationManager :=
  match c with
  | call_connect accepts company_id websocket =>
      snd (connect accepts company_id websocket self)
  | call_disconnect company_id websocket =>
      snd (disconnect company_id websocket self)
  | call_send_to_company delivers company_id event data =>
      snd (send_to_company delivers company_id event data self)
  end.

Definition run (calls : list call) (self : NotificationManager)
  : NotificationManager :=
  fold_left (fun s c => step c s) calls self.

(** [NotificationManager()] *)
Definition __init__ : NotificationManager :=
  {| active_connections := ∅; send_text_calls := [] |}.

End Websocket.
Import Websocket.

(* ===================================================================== *)
(** ** The vocabulary of the specification                                *)
(* ===================================================================== *)

Module Spec.

(** The error taxonomy of the specification (section 7).  Each kind is
    the HTTP status of the same name in [fastapi.status]. *)
Inductive error_kind : Type :=
| Conflict | RateLimited | NotFound | BadRequest | Unauthorized | ServerError.

Definition status_of_kind (k : error_kind) : Z :=
  match k with
  | Conflict => HTTP_409_CONFLICT
  | RateLimited => HTTP_429_TOO_MANY_REQUESTS
  | NotFound => HTTP_404_NOT_FOUND
  | BadRequest => HTTP_400_BAD_REQUEST
  | Unauthorized => 401
  | ServerError => HTTP_500_INTERNAL_SERVER_ERROR
  end.

(** The call raised an [HTTPException] of kind [k]. *)
Definition fails_with {A} (r : result A) (k : error_kind) : Prop :=
  match r with
  | Raise (HTTPException status_code _) => status_code = status_of_kind k
  | _ => False
  end.

(** The status tag of a stored record. *)
Definition status_tag (p : PendingRegistrationDB) : jval :=
  match pr_personal_info_json p with
  | Some d => dict_get d "status"
  | None => JNone
  end.

(** The step label of [get_pending_state], written as the priority list
    of the specification (section 4.3): the first rule that applies wins.
    A [company_info] is present when the record holds a non-empty one. *)
Definition step_by_priority (p : PendingRegistrationDB) : string :=
  if jval_is (status_tag p) "pending_fingerprint_validation"
  then "fingerprint_validation"
  else if bool_decide (pr_role_assigned p = Some "admin") then "final"
  else if opt_dict_truthy (pr_company_info_json p) then "verify_company"
  else if jval_is (status_tag p) "email_verified" then "company_info"
  else "personal_info".

(** Each connection handle is in at most one company's list, and at most
    once in it. *)
Definition each_handle_once (ac : gmap string (list WebSocket)) : Prop :=
  (∀ c l, ac !! c = Some l → NoDup l) ∧
  (∀ c1 c2 l1 l2 ws,
      ac !! c1 = Some l1 → ac !! c2 = Some l2 →
      ws ∈ l1 → ws ∈ l2 → c1 = c2).

(** The handle is in no company's list. *)
Definition unregistered (ws : WebSocket) (ac : gmap string (list WebSocket))
  : Prop :=
  map_Forall (fun _ l => ws ∉ l) ac.

(** Every [connect] of the run whose handshake goes through is made with
    a handle that is registered nowhere at that moment. *)
Fixpoint connects_fresh_handles (calls : list call) (self : NotificationManager)
  : Prop :=
  match calls with
  | [] => True
  | c :: rest =>
      match c with
      | call_connect true _ websocket =>
          unregistered websocket (active_connections self)
      | _ => True
      end ∧ connects_fresh_handles rest (step c self)
  end.

(** The email and the employee code are those of no row of [employe]. *)
Definition no_durable_duplicate (db : Session) (info : PersonalInfo) : Prop :=
  ∀ e, In e (employe db) →
       emp_email e ≠ lower (pi_userEmail info)
       ∧ emp_employeeId e ≠ pi_employeeId info.

End Spec.
Import Spec.

(* ===================================================================== *)
(** ** What the calls do, in closed form                                  *)
(* ===================================================================== *)

Module Effects.

(** The row [add_pending_registration] leaves for the email. *)
Definition upserted (existing : option PendingRegistrationDB)
    (personal_info : dict) (expires_at : Z) : PendingRegistrationDB :=
  {| pr_personal_info_json := Some personal_info;
     pr_company_info_json :=
       match existing with Some p => pr_company_info_json p | None => None end;
     pr_role_assigned :=
       match existing with
       | Some p => pr_role_assigned p
       | None => Some "employee"
       end;
     pr_expires_at := expires_at |}.

(** What one [disconnect] does to the dictionary. *)
Definition disconnect_map (company_id : string) (websocket : WebSocket)
    (ac : gmap string (list WebSocket)) : gmap string (list WebSocket) :=
  match ac !! company_id with
  | Some l =>
      if bool_decide (websocket ∈ l) then
        match list_remove websocket l with
        | [] => delete company_id ac
        | l' => <[company_id := l']> ac
        end
      else ac
  | None => ac
  end.

(** What one [connect] whose handshake goes through does to it. *)
Definition connect_map (company_id : string) (websocket : WebSocket)
    (ac : gmap string (list WebSocket)) : gmap string (list WebSocket) :=
  <[company_id := (default [] (ac !! company_id) ++ [websocket])%list]> ac.

(** The event as [send_to_company] wraps it. *)
Definition payload (event : string) (data : pyobj) : pyobj :=
  PyDict [("event", PyStr event); ("data", data)].

(** The attempt on [ws] goes through: the payload serialises and the
    connection takes the frame. *)
Definition delivered (delivers : WebSocket → bool) (event : string)
    (data : pyobj) (ws : WebSocket) : bool :=
  match json_dumps (payload event data) with
  | Return _ => delivers ws
  | Raise _ => false
  end.

(** The [send_text] calls of one pass over [snapshot]. *)
Definition frames (event : string) (data : pyobj) (snapshot : list WebSocket)
  : list (WebSocket * json) :=
  match json_dumps (payload event data) with
  | Return text => map (fun ws => (ws, text)) snapshot
  | Raise _ => []
  end.

(** Every list of [ac'] is a sublist of the list [ac] holds at the same key. *)
Definition shrinks (ac' ac : gmap string (list WebSocket)) : Prop :=
  ∀ c l', ac' !! c = Some l' → ∃ l, ac !! c = Some l ∧ l' `sublist_of` l.

End Effects.
Import Effects.

(* ===================================================================== *)
(** ** Sessions, requests and runs used as examples                       *)
(* ===================================================================== *)

Module Scenarios.

(** Example rows and sessions. *)
Definition empty_session : Session :=
  {| employe := []; groupe := []; entreprise := []; poste := [];
     pending_registration := ∅; verification_code := ∅;
     uuid_supply := 1%positive |}.

Definition marker (expires_at : Z) : PendingRegistrationDB :=
  {| pr_personal_info_json :=
       Some (<["status" := JStr "pending_fingerprint_validation"]> ∅);
     pr_company_info_json := None;
     pr_role_assigned := Some "employee";
     pr_expires_at := expires_at |}.

(** One code for [a@x.com] that expires at 100 and one pending record
    that expires at 200. *)
Definition one_code_session : Session :=
  {| employe := []; groupe := []; entreprise := []; poste := [];
     pending_registration := {[ "a@x.com" := marker 200 ]};
     verification_code :=
       {[ "a@x.com" := {| vc_code := "a1b2c3"; vc_expires_at := 100 |} ]};
     uuid_supply := 1%positive |}.

(** A session with a live code for [a@x.com] and no pending record. *)
Definition code_only_session : Session :=
  with_pending (fun _ => ∅) one_code_session.

(** An employee [E1] with the email [a@x.com] is already on record. *)
Definition taken_session : Session :=
  {| employe := [ {| emp_idEmploye := 7%positive; emp_email := "a@x.com";
                     emp_employeeId := "E1"; emp_role := "employee";
                     emp_idEntreprise := 3%positive |} ];
     groupe := []; entreprise := []; poste := [];
     pending_registration := ∅; verification_code := ∅;
     uuid_supply := 8%positive |}.

Definition info_a : PersonalInfo :=
  {| pi_userEmail := "A@x.com"; pi_lastName := "Rakoto"; pi_firstName := "Aina";
     pi_position := Some "Dev"; pi_employeeId := "E1";
     pi_phoneNumber := None; pi_password := None |}.

(** The session a first, successful submission of [info_a] leaves when its
    three clock reads are 0. *)
Definition submitted_session : Session :=
  snd (process_personal_info 0 0 0 "a1b2c3" true info_a empty_session).

(** A record that went through the two verifications: its status is
    [email_verified], its company information is stored and its role is
    [admin]. *)
Definition verified_admin : PendingRegistrationDB :=
  {| pr_personal_info_json := Some (<["status" := JStr "email_verified"]> ∅);
     pr_company_info_json := Some (<["companyName" := JStr "Acme"]> ∅);
     pr_role_assigned := Some "admin";
     pr_expires_at := 500 |}.

Definition admin_session : Session :=
  with_pending (fun _ => {[ "a@x.com" := verified_admin ]}) empty_session.

(** The registration of a company creator, run from an empty database:
    personal information at 0, the user's code one minute later, the
    company information and the company's code in the third minute. *)
Definition acme : CompanyInfo :=
  {| ci_companyName := "Acme"; ci_companyContactEmail := "b@x.com";
     ci_adresse := None |}.

Definition email_verified_session : Session :=
  snd (verify_user_email 60000000 60000000
         {| uv_email := "a@x.com"; uv_code := "a1b2c3" |} submitted_session).

Definition company_submitted_session : Session :=
  snd (process_company_info 120000000 120000000 120000000 120000000 "beef" true
         acme "a@x.com" email_verified_session).

Definition company_verified_session : Session :=
  snd (verify_company_email 150000000 150000000
         {| cv_userEmail := "a@x.com"; cv_companyCode := "beef" |}
         company_submitted_session).

Definition acme_registration : FinalRegistrationData :=
  {| fr_lastName := "Rakoto"; fr_firstName := "Aina"; fr_employeeId := "E1";
     fr_userEmail := "a@x.com"; fr_position := Some "Dev";
     fr_phoneNumber := None; fr_password := None;
     fr_companyName := "Acme"; fr_companyContactEmail := "b@x.com";
     fr_idGroupe := None; fr_adresse := None |}.

(** A manager with two connections on channel [c] and one on [d]. *)
Definition three_connections : NotificationManager :=
  run [call_connect true "c" 1; call_connect true "c" 2; call_connect true "d" 3]
      __init__.

Definition notification : pyobj :=
  PyDict [("id", PyUUID "6b1f"); ("message", PyStr "pending"); ("created_at", PyNone)].

Definition stamped_notification : pyobj :=
  PyDict [("id", PyUUID "6b1f"); ("created_at", PyOther "datetime")].

(** Two connections on [c], one on [d], a refused handshake, the
    disconnection of handle 1, a broadcast on [d] that loses handle 3, and
    handle 1 connected again, now under [d]. *)
Definition session_of_calls : list call :=
  [call_connect true "c" 1; call_connect true "c" 2; call_connect true "d" 3;
   call_connect false "d" 1; call_disconnect "c" 1;
   call_send_to_company (fun ws => negb (Nat.eqb ws 3)) "d" "notification" notification;
   call_connect true "d" 1].

End Scenarios.
Import Scenarios.

(* ===================================================================== *)
(** ** app/schemas/schemas.py: [Notification]; the two global managers     *)
(* ===================================================================== *)

Module Notifications.

(** A UUID field holds the canonical text [str] gives for it; of a
    [datetime] only its presence matters to the code below. *)
Record Notification : Type := {
  ntf_id : string;
  ntf_idEmploye : string;
  ntf_employeeName : option string;
  ntf_department : option string;
  ntf_message : option string;
  ntf_idEntreprise : option string;
  ntf_created_at : option Z;
}.

Definition opt_pyobj {A} (f : A -> pyobj) (o : option A) : pyobj :=
  match o with Some x => f x | None => PyNone end.

(** [notif.model_dump()]: UUIDs and datetimes stay Python objects. *)
Definition Notification_model_dump (n : Notification) : list (string * pyobj) :=
  [("id", PyUUID (ntf_id n));
   ("idEmploye", PyUUID (ntf_idEmploye n));
   ("employeeName", opt_pyobj PyStr (ntf_employeeName n));
   ("department", opt_pyobj PyStr (ntf_department n));
   ("message", opt_pyobj PyStr (ntf_message n));
   ("idEntreprise", opt_pyobj PyUUID (ntf_idEntreprise n));
   ("created_at", opt_pyobj (fun _ => PyOther "datetime") (ntf_created_at n))].

(** [data[key] = value] on a dictionary kept in insertion order. *)
Definition dict_setitem (key : string) (value : pyobj)
    (items : list (string * pyobj)) : list (string * pyobj) :=
  if existsb (fun kv => String.eqb (fst kv) key) items
  then map (fun kv => if String.eqb (fst kv) key then (fst kv, value) else kv)
           items
  else (items ++ [(key, value)])%list.

(** [web_notification_manager] and [desktop_notification_manager]. *)
Record Managers : Type := {
  web_notification_manager : NotificationManager;
  desktop_notification_manager : NotificationManager;
}.

Definition on_web {A} (m : M NotificationManager A) : M Managers A :=
  fun ms =>
    let (r, web) := m (web_notification_manager ms) in
    (r, {| web_notification_manager := web;
           desktop_notification_manager := desktop_notification_manager ms |}).

Definition on_desktop {A} (m : M NotificationManager A) : M Managers A :=
  fun ms =>
    let (r, desktop) := m (desktop_notification_manager ms) in
    (r, {| web_notification_manager := web_notification_manager ms;
           desktop_notification_manager := desktop |}).

End Notifications.
Import Notifications.

(* ===================================================================== *)
(** ** app/services/employe_service.py: [send_notification]                *)
(* ===================================================================== *)

Module EmployeService.

(** [try: body  except Exception as e: logger.error(...)] *)
Definition try_except_logging {S} (body : M S unit) : M S unit :=
  fun s =>
    match body s with
    | (Return a, s') => (Return a, s')
    | (Raise _, s') => (Return tt, s')
    end.

(** [str(data.get("idEntreprise") or "").lower()]: a UUID is truthy. *)
Definition company_id_of (notif : Notification) : string :=
  lower (match ntf_idEntreprise notif with Some u => u | None => "" end).

Definition send_notification (delivers_web delivers_desktop : WebSocket -> bool)
    (notif : Notification) (event_type : string) : M Managers unit :=
  try_except_logging
    (let data := PyDict (Notification_model_dump notif) in
     let company_id := company_id_of notif in
     if negb (str_truthy company_id) then ret tt
     else
       let* _ := on_web (send_to_company delivers_web company_id event_type data) in
       on_desktop (send_to_company delivers_desktop company_id event_type data)).

End EmployeService.

(* ===================================================================== *)
(** ** app/controllers/noftication_envoyer.py: [POST /notify]              *)
(* ===================================================================== *)

Module NotificationController.

(** [str(notification.idEntreprise).lower()]: [str(None)] is ["None"]. *)
Definition company_id_of (notification : Notification) : string :=
  lower (match ntf_idEntreprise notification with Some u => u | None => "None" end).

(** [now_iso] is [datetime.now(timezone.utc).isoformat()]. *)
Definition send_notification (now_iso : string)
    (delivers_web delivers_desktop : WebSocket -> bool)
    (notification : Notification) : M Managers (list (string * string)) :=
  fun ms =>
    match
      (let data := Notification_model_dump notification in
       let data := dict_setitem "created_at" (PyStr now_iso) data in
       let company_id := company_id_of notification in
       let* _ := on_web (send_to_company delivers_web company_id
                           "notification" (PyDict data)) in
       let* _ := on_desktop (send_to_company delivers_desktop company_id
                               "notification" (PyDict data)) in
       ret [("message", "Notification envoyée")]) ms
    with
    | (Return r, ms') => (Return r, ms')
    | (Raise _, ms') =>
        (Raise (HTTPException HTTP_500_INTERNAL_SERVER_ERROR
                  "Erreur d'envoi de la notification"), ms')
    end.

End NotificationController.

(* ===================================================================== *)
(** ** Fingerprint validation: [EmpreinteService.validate_fingerprint] and
       the two [/validate-fingerprint] endpoints                           *)
(* ===================================================================== *)

Module Fingerprint.

Record FingerprintScanRequest : Type := {
  fsr_idEmploye : UUID;
  fsr_donneesBiometriques : string;
}.

(** [EmployeRepository.get_employe_by_id]. *)
Definition get_employe_by_id (id_employe : UUID) : M Session (option EmployeDB) :=
  let* db := get in
  ret (find (fun e => Pos.eqb (emp_idEmploye e) id_employe) (employe db)).

(** A value of the dictionary [get_pending_registration] returns. *)
Inductive pending_value : Type :=
| pv_info (info : option dict)
| pv_role (role : option string)
| pv_expires_at (expires_at : Z).

(** [pending.get(key)] on that dictionary, whose keys are
    [personal_info_json], [company_info_json], [role_assigned] and
    [expires_at]. *)
Definition pending_get (pending : PendingRegistrationDB) (key : string)
  : option pending_value :=
  if String.eqb key "personal_info_json"
  then Some (pv_info (pr_personal_info_json pending))
  else if String.eqb key "company_info_json"
  then Some (pv_info (pr_company_info_json pending))
  else if String.eqb key "role_assigned"
  then Some (pv_role (pr_role_assigned pending))
  else if String.eqb key "expires_at"
  then Some (pv_expires_at (pr_expires_at pending))
  else None.

(** [pending.get(key, {}).get("status")]: the default applies only to a
    missing key; a value that is not a dictionary has no [get]. *)
Definition get_status (pending : PendingRegistrationDB) (key : string)
  : M Session jval :=
  match pending_get pending key with
  | None => ret (dict_get ∅ "status")
  | Some (pv_info (Some d)) => ret (dict_get d "status")
  | Some (pv_info None) | Some (pv_role None) =>
      raise (AttributeError "'NoneType' object has no attribute 'get'")
  | Some (pv_role (Some _)) =>
      raise (AttributeError "'str' object has no attribute 'get'")
  | Some (pv_expires_at _) =>
      raise (AttributeError "'datetime.datetime' object has no attribute 'get'")
  end.

(** [EmpreinteCreate(donneesBiometriques=...)]: the required field
    [idEmploye] is not given. *)
Definition EmpreinteCreate_without_idEmploye {A} : M Session A :=
  raise (ValidationError "EmpreinteCreate").

(** [app/services/empreinte_service.py]. *)
Definition validate_fingerprint (now : Z) (scan_request : FingerprintScanRequest)
  : M Session MessageResponse :=
  let* employe := get_employe_by_id (fsr_idEmploye scan_request) in
  match employe with
  | None => raise (HTTPException HTTP_404_NOT_FOUND "Employé non trouvé")
  | Some employe =>
      let* pending := get_pending_registration now (emp_email employe) in
      let* waiting :=
        (match pending with
         | None => ret false
         | Some pending =>
             let* status := get_status pending "personal_info" in
             ret (jval_is status "pending_fingerprint_validation")
         end) in
      if negb waiting then
        raise (HTTPException HTTP_400_BAD_REQUEST
                 "Aucune validation d'empreinte digitale en attente pour cet employé.")
      else EmpreinteCreate_without_idEmploye
  end.

(** [app/controllers/empreintes_controller.py]. *)
Definition empreintes_validate_fingerprint_endpoint (now : Z)
    (scan_request : FingerprintScanRequest) : M Session MessageResponse :=
  try_except_reraising_http
    (let* employe := get_employe_by_id (fsr_idEmploye scan_request) in
     match employe with
     | None => raise (HTTPException HTTP_404_NOT_FOUND "Employé non trouvé")
     | Some employe =>
         let* pending := get_pending_registration now (emp_email employe) in
         let* waiting :=
           (match pending with
            | None => ret false
            | Some pending =>
                let* status := get_status pending "personal_info" in
                ret (jval_is status "pending_fingerprint_validation")
            end) in
         if negb waiting then
           raise (HTTPException HTTP_400_BAD_REQUEST
                    "Aucune validation d'empreinte digitale en attente pour cet employé.")
         else EmpreinteCreate_without_idEmploye
     end)
    (fun e =>
       raise (HTTPException HTTP_500_INTERNAL_SERVER_ERROR
                ("Erreur lors de la validation de l'empreinte: " +:+ exn_str e))).

(** [app/controllers/employer_controller.py].  The call of the coroutine
    function [complete_fingerprint_validation] is not awaited: it builds a
    coroutine object and runs nothing of its body. *)
Definition employer_validate_fingerprint_endpoint (now_service now : Z)
    (scan_request : FingerprintScanRequest) : M Session MessageResponse :=
  try_except_reraising_http
    (let* empreinte_response := validate_fingerprint now_service scan_request in
     let* employe := get_employe_by_id (fsr_idEmploye scan_request) in
     match employe with
     | None => raise (HTTPException HTTP_404_NOT_FOUND "Employé non trouvé")
     | Some employe =>
         let _ := coroutine "RegistrationService.complete_fingerprint_validation" in
         ret {| message :=
                  "Empreinte digitale validée et inscription finalisée avec succès.";
                expires_at := None |}
     end)
    (fun e =>
       raise (HTTPException HTTP_500_INTERNAL_SERVER_ERROR
                ("Erreur lors de la validation de l'empreinte: " +:+ exn_str e))).

End Fingerprint.

(* ===================================================================== *)
(** ** What single calls write, and what the registry maintains           *)
(* ===================================================================== *)

Module Footprints.

(** The row as [update_pending_registration] rewrites it. *)
Definition set_field (kv : pending_key) (p : PendingRegistrationDB)
  : PendingRegistrationDB :=
  match kv with
  | key_personal_info value =>
      {| pr_personal_info_json := Some value;
         pr_company_info_json := pr_company_info_json p;
         pr_role_assigned := pr_role_assigned p;
         pr_expires_at := pr_expires_at p |}
  | key_company_info value =>
      {| pr_personal_info_json := pr_personal_info_json p;
         pr_company_info_json := Some value;
         pr_role_assigned := pr_role_assigned p;
         pr_expires_at := pr_expires_at p |}
  | key_role_assigned value =>
      {| pr_personal_info_json := pr_personal_info_json p;
         pr_company_info_json := pr_company_info_json p;
         pr_role_assigned := Some value;
         pr_expires_at := pr_expires_at p |}
  end.

(** The personal information as [verify_user_email] rewrites it. *)
Definition verified_info (p : PendingRegistrationDB) : dict :=
  <["status" := JStr "email_verified"]>
    (match pr_personal_info_json p with
     | Some d => if dict_truthy d then d else ∅
     | None => ∅
     end).


(** No company is registered with an empty list. *)
Definition no_empty_channel (ac : gmap string (list WebSocket)) : Prop :=
  ∀ c l, ac !! c = Some l → l ≠ [].

(** The exception with which fingerprint validation answers a scan. *)
Definition refusal (db : Session)
    (scan_request : Fingerprint.FingerprintScanRequest) : exn :=
  match find (fun e => Pos.eqb (emp_idEmploye e)
                         (Fingerprint.fsr_idEmploye scan_request))
             (employe db) with
  | None => HTTPException HTTP_404_NOT_FOUND "Employé non trouvé"
  | Some _ =>
      HTTPException HTTP_400_BAD_REQUEST
        "Aucune validation d'empreinte digitale en attente pour cet employé."
  end.

End Footprints.
Import Footprints.

(* ===================================================================== *)
(** ** Notifications and scans used as examples                           *)
(* ===================================================================== *)

Module Examples.

(** A notification for company [c], as [create_employe] builds it, and
    the same one carrying a creation date. *)
Definition hired : Notification :=
  {| ntf_id := "6b1f"; ntf_idEmploye := "77aa";
     ntf_employeeName := Some "Ada Lovelace"; ntf_department := Some "Dev";
     ntf_message := Some "En attente de validation d'empreinte digitale.";
     ntf_idEntreprise := Some "c"; ntf_created_at := None |}.

Definition hired_dated : Notification :=
  {| ntf_id := "6b1f"; ntf_idEmploye := "77aa";
     ntf_employeeName := Some "Ada Lovelace"; ntf_department := Some "Dev";
     ntf_message := Some "En attente de validation d'empreinte digitale.";
     ntf_idEntreprise := Some "c"; ntf_created_at := Some 10%Z |}.

Definition orphan : Notification :=
  {| ntf_id := "6b1f"; ntf_idEmploye := "77aa";
     ntf_employeeName := None; ntf_department := None; ntf_message := None;
     ntf_idEntreprise := None; ntf_created_at := Some 10%Z |}.

(** Browsers 1 and 2 of company [c] and 3 of [d]; desktop client 9 of [c]. *)
Definition two_managers : Managers :=
  {| web_notification_manager := three_connections;
     desktop_notification_manager := run [call_connect true "c" 9] __init__ |}.

(** An employee whose registration waits for the fingerprint. *)
Definition ada : EmployeDB :=
  {| emp_idEmploye := 5%positive; emp_email := "ada@x.com";
     emp_employeeId := "E5"; emp_role := "employe";
     emp_idEntreprise := 1%positive |}.

Definition awaiting_fingerprint : Session :=
  snd (add_pending_registration "ada@x.com"
         (<["status" := JStr "pending_fingerprint_validation"]> ∅) 1000%Z
         {| employe := [ada]; groupe := []; entreprise := []; poste := [];
            pending_registration := ∅; verification_code := ∅;
            uuid_supply := 6%positive |}).

Definition scan_of_ada : Fingerprint.FingerprintScanRequest :=
  {| Fingerprint.fsr_idEmploye := 5%positive;
     Fingerprint.fsr_donneesBiometriques := "ridges" |}.

End Examples.
Import Examples.

(* ===================================================================== *)
(** * Properties                                                          *)
(* ===================================================================== *)

(** Unfolds the monad so that a call becomes a pair of a result and a
    session. *)
Ltac py_unfold :=
  unfold bind, ret, raise, get, modify, try_except_reraising_http in *.

Ltac py_simpl := py_unfold; cbn [fst snd] in *.

(* --------------------------------------------------------------------- *)
(** ** The two stores of [EmployeRepository]                               *)
(* --------------------------------------------------------------------- *)

Module RepositoryFacts.

Section VerificationCodeStore.

Variables (db : Session) (now : Z) (email : string).

Lemma get_verification_code_eq :
  get_verification_code now email db =
  (Return match verification_code db !! lower email with
          | Some entry =>
              if (now <? vc_expires_at entry)%Z then Some (vc_code entry)
              else None
          | None => None
          end, db).
Proof.
  unfold get_verification_code. py_simpl.
  destruct (verification_code db !! lower email) as [entry|]; [|reflexivity].
  destruct (now <? vc_expires_at entry)%Z; reflexivity.
Qed.

Lemma get_verification_code_unexpired entry :
  verification_code db !! lower email = Some entry →
  (now < vc_expires_at entry)%Z →
  get_verification_code now email db = (Return (Some (vc_code entry)), db).
Proof.
  intros Hl Hlt. rewrite get_verification_code_eq, Hl.
  apply Z.ltb_lt in Hlt. rewrite Hlt. reflexivity.
Qed.

Lemma get_verification_code_expired :
  (∀ entry, verification_code db !! lower email = Some entry →
            ¬ (now < vc_expires_at entry)%Z) →
  get_verification_code now email db = (Return None, db).
Proof.
  intros Hexp. rewrite get_verification_code_eq.
  destruct (verification_code db !! lower email) as [entry|] eqn:Hl;
    [|reflexivity].
  specialize (Hexp entry eq_refl).
  destruct (now <? vc_expires_at entry)%Z eqn:Hlt; [|reflexivity].
  apply Z.ltb_lt in Hlt. contradiction.
Qed.

End VerificationCodeStore.

Section PendingStore.

Variables (db : Session) (now : Z) (email : string).

Lemma get_pending_registration_eq :
  get_pending_registration now email db =
  (Return match pending_registration db !! lower email with
          | Some pending =>
              if (now <? pr_expires_at pending)%Z then Some pending else None
          | None => None
          end, db).
Proof.
  unfold get_pending_registration. py_simpl.
  destruct (pending_registration db !! lower email) as [pending|];
    [|reflexivity].
  destruct (now <? pr_expires_at pending)%Z; reflexivity.
Qed.

Lemma get_pending_registration_read_only :
  snd (get_pending_registration now email db) = db.
Proof. rewrite get_pending_registration_eq. reflexivity. Qed.

End PendingStore.

(** What the sweep leaves in each table. *)
Lemma cleanup_expired_entries_eq (db : Session) (now : Z) :
  cleanup_expired_entries now db =
  (Return tt,
   with_codes (filter (fun kv => ¬ (vc_expires_at kv.2 < now)%Z))
     (with_pending (filter (fun kv => ¬ (pr_expires_at kv.2 < now)%Z)) db)).
Proof. reflexivity. Qed.

Lemma cleanup_keeps_code (db : Session) (now : Z) (identifier : string) :
  verification_code (snd (cleanup_expired_entries now db)) !! identifier =
  match verification_code db !! identifier with
  | Some entry =>
      if (vc_expires_at entry <? now)%Z then None else Some entry
  | None => None
  end.
Proof.
  rewrite cleanup_expired_entries_eq.
  cbn [snd with_codes with_pending verification_code].
  destruct (verification_code db !! identifier) as [entry|] eqn:Hl.
  - destruct (vc_expires_at entry <? now)%Z eqn:Hlt.
    + apply Z.ltb_lt in Hlt. apply map_lookup_filter_None. right.
      intros x Hx. rewrite Hl in Hx. inversion Hx; subst. cbn. tauto.
    + apply Z.ltb_ge in Hlt. apply map_lookup_filter_Some. split; [exact Hl|].
      cbn. lia.
  - apply map_lookup_filter_None. left. exact Hl.
Qed.

Lemma cleanup_keeps_pending (db : Session) (now : Z) (user_email : string) :
  pending_registration (snd (cleanup_expired_entries now db)) !! user_email =
  match pending_registration db !! user_email with
  | Some pending =>
      if (pr_expires_at pending <? now)%Z then None else Some pending
  | None => None
  end.
Proof.
  rewrite cleanup_expired_entries_eq.
  cbn [snd with_codes with_pending pending_registration].
  destruct (pending_registration db !! user_email) as [pending|] eqn:Hl.
  - destruct (pr_expires_at pending <? now)%Z eqn:Hlt.
    + apply Z.ltb_lt in Hlt. apply map_lookup_filter_None. right.
      intros x Hx. rewrite Hl in Hx. inversion Hx; subst. cbn. tauto.
    + apply Z.ltb_ge in Hlt. apply map_lookup_filter_Some. split; [exact Hl|].
      cbn. lia.
  - apply map_lookup_filter_None. left. exact Hl.
Qed.

(** C6.  For every identifier, [get_verification_code] returns the stored
    code if and only if the current time is strictly before the entry's
    [expires_at]; otherwise it answers exactly as it does when there is no
    entry; and the read leaves the session, hence the stored entry, as it
    was. *)
Theorem get_verification_code_iff_unexpired (db : Session) (now : Z)
    (email : string) :
  snd (get_verification_code now email db) = db
  ∧ (∀ code,
        fst (get_verification_code now email db) = Return (Some code) ↔
        ∃ entry, verification_code db !! lower email = Some entry
                 ∧ vc_code entry = code ∧ (now < vc_expires_at entry)%Z)
  ∧ ((∀ entry, verification_code db !! lower email = Some entry →
               ¬ (now < vc_expires_at entry)%Z) →
     get_verification_code now email db = (Return None, db)
     ∧ fst (get_verification_code now email db) =
       fst (get_verification_code now email
              (with_codes (delete (lower email)) db))).
Proof.
  split; [|split].
  - rewrite get_verification_code_eq. reflexivity.
  - intros code. rewrite get_verification_code_eq. cbn [fst]. split.
    + destruct (verification_code db !! lower email) as [entry|] eqn:Hl;
        [|discriminate].
      destruct (now <? vc_expires_at entry)%Z eqn:Hlt; [|discriminate].
      intros [= <-]. exists entry. apply Z.ltb_lt in Hlt. auto.
    + intros (entry & Hl & <- & Hlt). rewrite Hl.
      apply Z.ltb_lt in Hlt. rewrite Hlt. reflexivity.
  - intros Hexp. split.
    + apply get_verification_code_expired. exact Hexp.
    + rewrite (get_verification_code_expired _ _ _ Hexp).
      rewrite get_verification_code_eq.
      cbn [fst with_codes verification_code].
      rewrite lookup_delete_eq. reflexivity.
Qed.

Lemma get_verification_code_iff_unexpired_witness :
  (∀ entry, verification_code one_code_session !! lower "A@x.com" = Some entry →
            ¬ (100 < vc_expires_at entry)%Z)
  ∧ get_verification_code 100 "A@x.com" one_code_session
    = (Return None, one_code_session).
Proof.
  assert (H : ∀ entry,
             verification_code one_code_session !! lower "A@x.com" = Some entry →
             ¬ (100 < vc_expires_at entry)%Z).
  { intros entry Hl. vm_compute in Hl. inversion Hl; subst. cbn. lia. }
  split; [exact H|].
  exact (proj1 (proj2 (proj2
           (get_verification_code_iff_unexpired one_code_session 100 "A@x.com")) H)).
Defined.

(** C7, at the boundary.  A verification code and a pending record whose
    [expires_at] equals the time of the sweep are expired for the two read
    paths and yet survive the sweep, which deletes on [expires_at < now]. *)
Theorem cleanup_expired_entries_keeps_boundary_entries :
  let db := one_code_session in
  let code_at_boundary := snd (cleanup_expired_entries 100 db) in
  let pending_at_boundary := snd (cleanup_expired_entries 200 db) in
  fst (get_verification_code 100 "a@x.com" db) = Return None
  ∧ verification_code code_at_boundary !! "a@x.com"
    = Some {| vc_code := "a1b2c3"; vc_expires_at := 100 |}
  ∧ fst (get_pending_registration 200 "a@x.com" db) = Return None
  ∧ pending_registration pending_at_boundary !! "a@x.com" = Some (marker 200)
  ∧ verification_code (snd (cleanup_expired_entries 101 db)) !! "a@x.com" = None
  ∧ pending_registration (snd (cleanup_expired_entries 201 db)) !! "a@x.com"
    = None.
Proof.
  cbn zeta. rewrite !cleanup_keeps_code, !cleanup_keeps_pending.
  repeat split; vm_compute; reflexivity.
Qed.

End RepositoryFacts.

(* --------------------------------------------------------------------- *)
(** ** The registration steps                                              *)
(* --------------------------------------------------------------------- *)

Module RegistrationFacts.

Import RepositoryFacts.

Lemma find_by_email_None (db : Session) (email : string) :
  (∀ e, In e (employe db) → emp_email e ≠ lower email) →
  find (fun e => String.eqb (emp_email e) (lower email)) (employe db) = None.
Proof.
  intros H. destruct (find _ _) as [e|] eqn:Hf; [|reflexivity].
  apply find_some in Hf as [Hin Heq]. apply String.eqb_eq in Heq.
  exfalso. exact (H e Hin Heq).
Qed.

Lemma find_by_employee_id_None (db : Session) (employee_id : string) :
  (∀ e, In e (employe db) → emp_employeeId e ≠ employee_id) →
  find (fun e => String.eqb (emp_employeeId e) employee_id) (employe db) = None.
Proof.
  intros H. destruct (find _ _) as [e|] eqn:Hf; [|reflexivity].
  apply find_some in Hf as [Hin Heq]. apply String.eqb_eq in Heq.
  exfalso. exact (H e Hin Heq).
Qed.

Lemma find_is_Some {A} (f : A → bool) (l : list A) (x : A) :
  In x l → f x = true → is_Some (find f l).
Proof.
  intros Hin Hf. destruct (find f l) eqn:E; [eauto|].
  rewrite (find_none _ _ E x Hin) in Hf. discriminate.
Qed.

Section VerifyUserEmail.

Variables (db : Session) (now_code now_pending : Z)
          (verification_data : UserVerification)
          (entry : VerificationCodeDB).

Hypothesis stored :
  verification_code db !! lower (uv_email verification_data) = Some entry.
Hypothesis unexpired : (now_code < vc_expires_at entry)%Z.

Lemma verify_user_email_wrong_code :
  vc_code entry ≠ uv_code verification_data →
  ∃ detail,
    verify_user_email now_code now_pending verification_data db
    = (Raise (HTTPException HTTP_400_BAD_REQUEST detail), db).
Proof.
  intros Hne. unfold verify_user_email, bind at 1.
  rewrite (get_verification_code_unexpired _ _ _ _ stored unexpired).
  destruct (opt_str_truthy (Some (vc_code entry))); cbn [negb].
  - rewrite bool_decide_eq_false_2 by congruence. cbn [negb].
    eexists. reflexivity.
  - eexists. reflexivity.
Qed.

Lemma verify_user_email_without_pending :
  vc_code entry = uv_code verification_data →
  fst (get_pending_registration now_pending (uv_email verification_data) db)
  = Return None →
  ∃ detail,
    verify_user_email now_code now_pending verification_data db
    = (Raise (HTTPException HTTP_400_BAD_REQUEST detail), db).
Proof.
  intros Heq Hnone. unfold verify_user_email, bind at 1.
  rewrite (get_verification_code_unexpired _ _ _ _ stored unexpired).
  destruct (opt_str_truthy (Some (vc_code entry))); cbn [negb].
  - rewrite bool_decide_eq_true_2 by congruence. cbn [negb].
    unfold bind at 1.
    pose proof (get_pending_registration_read_only db now_pending
                  (uv_email verification_data)) as Hro.
    destruct (get_pending_registration now_pending
                (uv_email verification_data) db) as [r db'].
    cbn [fst snd] in *. subst. eexists. reflexivity.
  - eexists. reflexivity.
Qed.

End VerifyUserEmail.

(** C5.  For every email holding a non-expired verification code and a
    pending registration, [verify_user_email] with a code different from
    the stored one fails with BadRequest and changes nothing: the session
    after the call is the session before it, so the stored code and the
    pending record, status included, are the ones found. *)
Theorem verify_user_email_wrong_code_is_atomic
    (db : Session) (now_code now_pending : Z)
    (verification_data : UserVerification)
    (entry : VerificationCodeDB) (pending : PendingRegistrationDB) :
  verification_code db !! lower (uv_email verification_data) = Some entry →
  (now_code < vc_expires_at entry)%Z →
  pending_registration db !! lower (uv_email verification_data) = Some pending →
  vc_code entry ≠ uv_code verification_data →
  let r := verify_user_email now_code now_pending verification_data db in
  fails_with (fst r) BadRequest
  ∧ snd r = db
  ∧ verification_code (snd r) !! lower (uv_email verification_data) = Some entry
  ∧ pending_registration (snd r) !! lower (uv_email verification_data)
    = Some pending.
Proof.
  intros Hcode Hlt Hpending Hne r. subst r.
  destruct (verify_user_email_wrong_code db now_code now_pending
              verification_data entry Hcode Hlt Hne) as [detail ->].
  cbn [fst snd]. repeat split; [exact Hcode | exact Hpending].
Qed.

Lemma verify_user_email_wrong_code_is_atomic_witness :
  let vd := {| uv_email := "A@x.com"; uv_code := "000000" |} in
  fails_with (fst (verify_user_email 10 10 vd one_code_session)) BadRequest
  ∧ snd (verify_user_email 10 10 vd one_code_session) = one_code_session.
Proof.
  intros vd.
  pose proof (verify_user_email_wrong_code_is_atomic one_code_session 10 10 vd
                {| vc_code := "a1b2c3"; vc_expires_at := 100 |} (marker 200)
                ltac:(vm_compute; reflexivity) ltac:(cbn; lia)
                ltac:(vm_compute; reflexivity) ltac:(cbn; discriminate)) as H.
  cbn zeta in H. exact (conj (proj1 H) (proj1 (proj2 H))).
Defined.

(** C9.  [verify_user_email] called with the stored code for an email that
    has a non-expired code but no pending registration (none stored, or
    an expired one) fails with BadRequest and does not delete the code:
    the session is unchanged, and the code is still returned by
    [get_verification_code] at every moment before its expiry. *)
Theorem verify_user_email_without_pending_keeps_code
    (db : Session) (now_code now_pending : Z)
    (verification_data : UserVerification) (entry : VerificationCodeDB) :
  verification_code db !! lower (uv_email verification_data) = Some entry →
  (now_code < vc_expires_at entry)%Z →
  vc_code entry = uv_code verification_data →
  fst (get_pending_registration now_pending (uv_email verification_data) db)
  = Return None →
  let r := verify_user_email now_code now_pending verification_data db in
  fails_with (fst r) BadRequest
  ∧ snd r = db
  ∧ ∀ later, (later < vc_expires_at entry)%Z →
      fst (get_verification_code later (uv_email verification_data) (snd r))
      = Return (Some (uv_code verification_data)).
Proof.
  intros Hcode Hlt Heq Hnone r. subst r.
  destruct (verify_user_email_without_pending db now_code now_pending
              verification_data entry Hcode Hlt Heq Hnone) as [detail ->].
  cbn [fst snd]. repeat split.
  intros later Hlater.
  rewrite (get_verification_code_unexpired _ _ _ _ Hcode Hlater).
  cbn [fst]. congruence.
Qed.

Lemma verify_user_email_without_pending_keeps_code_witness :
  let vd := {| uv_email := "a@x.com"; uv_code := "a1b2c3" |} in
  fails_with (fst (verify_user_email 10 11 vd code_only_session)) BadRequest
  ∧ fst (get_verification_code 99 "a@x.com"
           (snd (verify_user_email 10 11 vd code_only_session)))
    = Return (Some "a1b2c3").
Proof.
  intros vd.
  pose proof (verify_user_email_without_pending_keeps_code
                code_only_session 10 11 vd
                {| vc_code := "a1b2c3"; vc_expires_at := 100 |}
                ltac:(vm_compute; reflexivity) ltac:(cbn; lia)
                ltac:(reflexivity) ltac:(vm_compute; reflexivity)) as H.
  cbn zeta in H.
  exact (conj (proj1 H) (proj2 (proj2 H) 99%Z ltac:(cbn; lia))).
Defined.

Section ProcessPersonalInfo.

Variables (db : Session) (now_check now_expiry now_store : Z)
          (token : string) (smtp_accepts : bool) (info : PersonalInfo).

Local Abbreviation outcome :=
  (process_personal_info now_check now_expiry now_store token smtp_accepts
     info db).

Lemma process_personal_info_email_taken :
  (∃ e, In e (employe db) ∧ emp_email e = lower (pi_userEmail info)) →
  outcome = (Raise (HTTPException HTTP_400_BAD_REQUEST
                      "L'email est déjà enregistré"), db).
Proof.
  intros (e & Hin & Heq).
  unfold process_personal_info, get_employe_by_email. py_simpl.
  rewrite bool_decide_eq_true_2; [reflexivity|].
  apply (find_is_Some _ _ e Hin). apply String.eqb_eq. exact Heq.
Qed.

Lemma process_personal_info_employee_id_taken :
  (∀ e, In e (employe db) → emp_email e ≠ lower (pi_userEmail info)) →
  (∃ e, In e (employe db) ∧ emp_employeeId e = pi_employeeId info) →
  outcome = (Raise (HTTPException HTTP_400_BAD_REQUEST
                      "L'ID d'employé est déjà enregistré"), db).
Proof.
  intros Hfree (e & Hin & Heq).
  unfold process_personal_info, get_employe_by_email,
    get_employe_by_employee_id. py_simpl.
  rewrite (find_by_email_None _ _ Hfree).
  rewrite bool_decide_eq_false_2 by (intros [? [=]]).
  rewrite bool_decide_eq_true_2; [reflexivity|].
  apply (find_is_Some _ _ e Hin). apply String.eqb_eq. exact Heq.
Qed.

(** Past the two uniqueness checks, the call is what follows them. *)
Lemma process_personal_info_past_duplicates :
  no_durable_duplicate db info →
  outcome =
  try_except_reraising_http
    (let* existing_code := get_verification_code now_check (pi_userEmail info) in
     if opt_str_truthy existing_code then
       raise (HTTPException HTTP_429_TOO_MANY_REQUESTS
                "Un code a déjà été envoyé, veuillez patienter")
     else
     let* _ := set_verification_code now_store (pi_userEmail info) token 4 in
     let* _ := add_pending_registration (pi_userEmail info)
                 (PersonalInfo_model_dump info) (now_expiry + minutes 4)%Z in
     let* _ := send_email smtp_accepts (pi_userEmail info) in
     ret {| message := "Code envoyé à " +:+ pi_userEmail info;
            expires_at := Some (now_expiry + minutes 4)%Z |})
    (fun e =>
       raise (HTTPException HTTP_500_INTERNAL_SERVER_ERROR
                ("Erreur serveur : " +:+ exn_str e))) db.
Proof.
  intros Hfree.
  unfold process_personal_info, try_except_reraising_http.
  unfold bind at 1. unfold get_employe_by_email. unfold bind at 1.
  unfold get at 1. unfold ret at 1.
  rewrite (find_by_email_None db (pi_userEmail info))
    by (intros e Hin; exact (proj1 (Hfree e Hin))).
  rewrite bool_decide_eq_false_2 by (intros [? [=]]).
  unfold bind at 1. unfold get_employe_by_employee_id. unfold bind at 1.
  unfold get at 1. unfold ret at 1.
  rewrite (find_by_employee_id_None db (pi_employeeId info))
    by (intros e Hin; exact (proj2 (Hfree e Hin))).
  rewrite bool_decide_eq_false_2 by (intros [? [=]]).
  reflexivity.
Qed.

Lemma process_personal_info_rate_limited (entry : VerificationCodeDB) :
  no_durable_duplicate db info →
  verification_code db !! lower (pi_userEmail info) = Some entry →
  (now_check < vc_expires_at entry)%Z →
  vc_code entry ≠ "" →
  outcome = (Raise (HTTPException HTTP_429_TOO_MANY_REQUESTS
                      "Un code a déjà été envoyé, veuillez patienter"), db).
Proof.
  intros Hfree Hl Hlt Hne.
  rewrite (process_personal_info_past_duplicates Hfree).
  unfold try_except_reraising_http, bind at 1.
  rewrite (get_verification_code_unexpired _ _ _ _ Hl Hlt).
  destruct (vc_code entry) eqn:Hc; [congruence|]. reflexivity.
Qed.

Lemma process_personal_info_succeeds_eq :
  no_durable_duplicate db info →
  (∀ entry, verification_code db !! lower (pi_userEmail info) = Some entry →
            ¬ (now_check < vc_expires_at entry)%Z) →
  smtp_accepts = true →
  outcome =
  (Return {| message := "Code envoyé à " +:+ pi_userEmail info;
             expires_at := Some (now_expiry + minutes 4)%Z |},
   with_pending
     (insert (lower (pi_userEmail info))
        (upserted (pending_registration db !! lower (pi_userEmail info))
           (PersonalInfo_model_dump info) (now_expiry + minutes 4)%Z))
     (with_codes
        (insert (lower (pi_userEmail info))
           {| vc_code := token;
              vc_expires_at := (now_store + minutes 4)%Z |}) db)).
Proof.
  intros Hfree Hexp Hsmtp.
  rewrite (process_personal_info_past_duplicates Hfree).
  unfold try_except_reraising_http, bind at 1.
  rewrite (get_verification_code_expired _ _ _ Hexp).
  cbn [opt_str_truthy].
  unfold set_verification_code, add_pending_registration, send_email.
  rewrite Hsmtp. py_simpl. cbn [pending_registration with_codes].
  destruct (pending_registration db !! lower (pi_userEmail info))
    as [existing|]; reflexivity.
Qed.

End ProcessPersonalInfo.

(** C4, as stated, fails: a submission whose email already belongs to an
    employee is refused with status 400, which is BadRequest and not
    Conflict (409). *)
Lemma process_personal_info_duplicate_is_not_conflict :
  fst (process_personal_info 0 0 0 "a1b2c3" true info_a taken_session)
  = Raise (HTTPException HTTP_400_BAD_REQUEST "L'email est déjà enregistré")
  ∧ ¬ fails_with
        (fst (process_personal_info 0 0 0 "a1b2c3" true info_a taken_session))
        Conflict.
Proof.
  assert (E : fst (process_personal_info 0 0 0 "a1b2c3" true info_a taken_session)
              = Raise (HTTPException HTTP_400_BAD_REQUEST
                         "L'email est déjà enregistré"))
    by (vm_compute; reflexivity).
  split; [exact E|]. rewrite E. cbn. discriminate.
Qed.

(** C4, amended.  [process_personal_info] fails with BadRequest (status
    400), leaving the session unchanged, when the email or the employee code
    already belongs to an employee; with no such duplicate it fails with
    RateLimited (status 429), leaving the session unchanged, when a
    non-expired and non-empty verification code is stored for the email; and with no
    duplicate it succeeds, storing the new code for four minutes, once the
    stored code has expired (or when there is none), provided the email is
    accepted for dispatch. *)
Theorem process_personal_info_guards
    (db : Session) (now_check now_expiry now_store : Z) (token : string)
    (smtp_accepts : bool) (info : PersonalInfo) :
  let outcome :=
    process_personal_info now_check now_expiry now_store token smtp_accepts
      info db in
  ((∃ e, In e (employe db)
         ∧ (emp_email e = lower (pi_userEmail info)
            ∨ emp_employeeId e = pi_employeeId info)) →
   fails_with (fst outcome) BadRequest ∧ snd outcome = db)
  ∧ (no_durable_duplicate db info →
     ∀ entry,
       verification_code db !! lower (pi_userEmail info) = Some entry →
       (now_check < vc_expires_at entry)%Z →
       vc_code entry ≠ "" →
       fails_with (fst outcome) RateLimited ∧ snd outcome = db)
  ∧ (no_durable_duplicate db info →
     (∀ entry,
        verification_code db !! lower (pi_userEmail info) = Some entry →
        ¬ (now_check < vc_expires_at entry)%Z) →
     smtp_accepts = true →
     fst outcome = Return {| message := "Code envoyé à " +:+ pi_userEmail info;
                             expires_at := Some (now_expiry + minutes 4)%Z |}
     ∧ verification_code (snd outcome) !! lower (pi_userEmail info)
       = Some {| vc_code := token; vc_expires_at := (now_store + minutes 4)%Z |}).
Proof.
  cbn zeta. split; [|split].
  - intros (e & Hin & Hor).
    destruct (find (fun e => String.eqb (emp_email e) (lower (pi_userEmail info)))
                (employe db)) as [e'|] eqn:Hfind.
    + apply find_some in Hfind as [Hin' Heq']. apply String.eqb_eq in Heq'.
      rewrite (process_personal_info_email_taken db now_check now_expiry
                 now_store token smtp_accepts info
                 (ex_intro _ e' (conj Hin' Heq'))).
      cbn. split; reflexivity.
    + assert (Hfree : ∀ x, In x (employe db) →
                           emp_email x ≠ lower (pi_userEmail info)).
      { intros x Hx Heq. pose proof (find_none _ _ Hfind x Hx) as Hf.
        cbn beta in Hf. apply String.eqb_neq in Hf. contradiction. }
      destruct Hor as [Hemail|Hcode]; [exfalso; exact (Hfree e Hin Hemail)|].
      rewrite (process_personal_info_employee_id_taken db now_check now_expiry
                 now_store token smtp_accepts info Hfree
                 (ex_intro _ e (conj Hin Hcode))).
      cbn. split; reflexivity.
  - intros Hfree entry Hl Hlt Hne.
    rewrite (process_personal_info_rate_limited db now_check now_expiry
               now_store token smtp_accepts info entry Hfree Hl Hlt Hne).
    cbn. split; reflexivity.
  - intros Hfree Hexp Hsmtp.
    rewrite (process_personal_info_succeeds_eq db now_check now_expiry
               now_store token smtp_accepts info Hfree Hexp Hsmtp).
    cbn [fst snd with_pending with_codes verification_code].
    rewrite lookup_insert_eq. split; reflexivity.
Qed.

(** The same submission again: refused one minute later, accepted once the
    four minutes of the first code have passed. *)
Lemma process_personal_info_guards_witness :
  fails_with
    (fst (process_personal_info (minutes 1) (minutes 1) (minutes 1) "d4e5f6" true
            info_a submitted_session)) RateLimited
  ∧ fst (process_personal_info (minutes 4) (minutes 4) (minutes 4) "d4e5f6" true
            info_a submitted_session)
    = Return {| message := "Code envoyé à A@x.com";
                expires_at := Some (minutes 8) |}.
Proof.
  assert (Hfree : no_durable_duplicate submitted_session info_a).
  { intros e Hin. vm_compute in Hin. destruct Hin. }
  assert (Hl : verification_code submitted_session !! lower (pi_userEmail info_a)
               = Some {| vc_code := "a1b2c3"; vc_expires_at := minutes 4 |})
    by (vm_compute; reflexivity).
  split.
  - exact (proj1 (proj1 (proj2
      (process_personal_info_guards submitted_session (minutes 1) (minutes 1)
         (minutes 1) "d4e5f6" true info_a))
      Hfree _ Hl ltac:(vm_compute; reflexivity) ltac:(cbn; discriminate))).
  - refine (proj1 (proj2 (proj2
      (process_personal_info_guards submitted_session (minutes 4) (minutes 4)
         (minutes 4) "d4e5f6" true info_a))
      Hfree _ eq_refl)).
    intros entry He. rewrite Hl in He. inversion He; subst. cbn. lia.
Defined.

Section GetPendingState.

Variables (db : Session) (now : Z) (email : string).

Lemma status_is_tag (d : dict) (tag : string) :
  status_is (Some d) tag = jval_is (dict_get d "status") tag.
Proof.
  unfold status_is, dict_truthy.
  destruct (bool_decide (d = ∅)) eqn:Hd; cbn [negb andb]; [|reflexivity].
  apply bool_decide_eq_true_1 in Hd. subst d.
  unfold dict_get. rewrite lookup_empty. reflexivity.
Qed.

Lemma get_pending_state_read_only :
  snd (get_pending_state now email db) = db.
Proof.
  unfold get_pending_state, bind at 1.
  rewrite get_pending_registration_eq.
  destruct (pending_registration db !! lower email) as [p|]; [|reflexivity].
  destruct (now <? pr_expires_at p)%Z; [|reflexivity].
  unfold status_or_fail.
  destruct (pr_personal_info_json p); reflexivity.
Qed.

Lemma get_pending_state_absent :
  (∀ p, pending_registration db !! lower email = Some p →
        ¬ (now < pr_expires_at p)%Z) →
  get_pending_state now email db
  = (Raise (HTTPException HTTP_400_BAD_REQUEST "Aucune inscription en cours"), db).
Proof.
  intros Habs. unfold get_pending_state, bind at 1.
  rewrite get_pending_registration_eq.
  destruct (pending_registration db !! lower email) as [p|] eqn:Hl;
    [|reflexivity].
  destruct (now <? pr_expires_at p)%Z eqn:Hlt; [|reflexivity].
  apply Z.ltb_lt in Hlt. exfalso. exact (Habs p eq_refl Hlt).
Qed.

(** The chain of overriding [if]s computes the priority list. *)
Lemma get_pending_state_present (p : PendingRegistrationDB) (d : dict) :
  pending_registration db !! lower email = Some p →
  (now < pr_expires_at p)%Z →
  pr_personal_info_json p = Some d →
  get_pending_state now email db
  = (Return {| ps_step := step_by_priority p;
               ps_user_email := email;
               ps_personal_info := pr_personal_info_json p;
               ps_company_info := pr_company_info_json p;
               ps_role := pr_role_assigned p;
               ps_expires_at := Some (pr_expires_at p) |}, db).
Proof.
  intros Hl Hlt Hd. unfold get_pending_state, bind at 1.
  rewrite get_pending_registration_eq, Hl.
  apply Z.ltb_lt in Hlt. rewrite Hlt.
  unfold step_by_priority, status_tag. rewrite Hd, status_is_tag.
  unfold status_or_fail. py_simpl.
  destruct (jval_is (dict_get d "status") "pending_fingerprint_validation");
    [reflexivity|].
  destruct (bool_decide (pr_role_assigned p = Some "admin")); [reflexivity|].
  destruct (opt_dict_truthy (pr_company_info_json p)); [reflexivity|].
  destruct (jval_is (dict_get d "status") "email_verified"); reflexivity.
Qed.

End GetPendingState.

(** C2, as stated, fails: with no pending record for the email,
    [get_pending_state] raises status 400, which is BadRequest and not
    NotFound (404). *)
Lemma get_pending_state_absent_is_not_not_found :
  fst (get_pending_state 0 "a@x.com" empty_session)
  = Raise (HTTPException HTTP_400_BAD_REQUEST "Aucune inscription en cours")
  ∧ ¬ fails_with (fst (get_pending_state 0 "a@x.com" empty_session)) NotFound.
Proof.
  assert (E : fst (get_pending_state 0 "a@x.com" empty_session)
              = Raise (HTTPException HTTP_400_BAD_REQUEST
                         "Aucune inscription en cours"))
    by (vm_compute; reflexivity).
  split; [exact E|]. rewrite E. cbn. discriminate.
Qed.

(** C2, amended.  [get_pending_state] never changes the session; when no
    non-expired pending record exists for the email it fails with BadRequest
    (status 400); and for a non-expired record that holds a personal_info
    it returns the record's fields with the step label given by the
    priority list fingerprint_validation > final > verify_company >
    company_info > personal_info. *)
Theorem get_pending_state_derives_step (db : Session) (now : Z) (email : string) :
  snd (get_pending_state now email db) = db
  ∧ ((∀ p, pending_registration db !! lower email = Some p →
           ¬ (now < pr_expires_at p)%Z) →
     fails_with (fst (get_pending_state now email db)) BadRequest)
  ∧ (∀ p d,
       pending_registration db !! lower email = Some p →
       (now < pr_expires_at p)%Z →
       pr_personal_info_json p = Some d →
       fst (get_pending_state now email db)
       = Return {| ps_step := step_by_priority p;
                   ps_user_email := email;
                   ps_personal_info := pr_personal_info_json p;
                   ps_company_info := pr_company_info_json p;
                   ps_role := pr_role_assigned p;
                   ps_expires_at := Some (pr_expires_at p) |}).
Proof.
  split; [apply get_pending_state_read_only|]. split.
  - intros Habs. rewrite (get_pending_state_absent db now email Habs).
    cbn. reflexivity.
  - intros p d Hl Hlt Hd.
    rewrite (get_pending_state_present db now email p d Hl Hlt Hd).
    reflexivity.
Qed.

Lemma get_pending_state_derives_step_witness :
  fails_with (fst (get_pending_state 500 "a@x.com" admin_session)) BadRequest
  ∧ (∃ r, fst (get_pending_state 499 "a@x.com" admin_session) = Return r
          ∧ ps_step r = "final").
Proof.
  split.
  - refine (proj1 (proj2 (get_pending_state_derives_step admin_session 500
                            "a@x.com")) _).
    intros p Hl. vm_compute in Hl. inversion Hl; subst. cbn. lia.
  - eexists. split.
    + exact (proj2 (proj2 (get_pending_state_derives_step admin_session 499
                             "a@x.com"))
               verified_admin (<["status" := JStr "email_verified"]> ∅)
               ltac:(vm_compute; reflexivity) ltac:(cbn; lia) eq_refl).
    + vm_compute. reflexivity.
Defined.

(** Case analysis along the branches of a monadic computation. *)
Ltac py_branch :=
  match goal with
  | |- context [match ?x with _ => _ end] =>
      lazymatch x with
      | context [match _ with _ => _ end] => fail
      | _ => destruct x eqn:?
      end
  end.

Ltac py_run :=
  repeat (py_simpl;
          cbn [pending_registration with_pending add_entreprise add_poste
               fst snd negb orb andb] in *;
          rewrite ?lookup_delete_eq in *;
          try py_branch).

Section CompleteRegistration.

Variables (now_pending now_done : Z) (registration_data : FinalRegistrationData)
          (db : Session).

Local Abbreviation outcome :=
  (complete_registration now_pending now_done registration_data db).

(** The call never returns: the object handed to
    [EmployeResponse.model_validate] is a coroutine. *)
Lemma complete_registration_never_returns (response : EmployeResponse) :
  fst outcome ≠ Return response.
Proof.
  unfold complete_registration, get_pending_registration, get_groupe_by_id,
    EntrepriseService.create_entreprise, PosteService.create_poste,
    delete_pending_registration, add_pending_registration,
    EmployeResponse_model_validate.
  py_run; cbn; discriminate.
Qed.

(** When the call gets as far as building its response, the pending record
    of the email has been replaced by the marker, due 24 hours after
    [now_done]. *)
Lemma complete_registration_leaves_marker :
  fst outcome = Raise (ValidationError "EmployeResponse") →
  pending_registration (snd outcome) !! lower (fr_userEmail registration_data)
  = Some (marker (now_done + days 1)).
Proof.
  unfold complete_registration, get_pending_registration, get_groupe_by_id,
    EntrepriseService.create_entreprise, PosteService.create_poste,
    delete_pending_registration, add_pending_registration,
    EmployeResponse_model_validate.
  py_run; cbn; try discriminate; intros _; rewrite ?lookup_insert_eq;
    try reflexivity.
Qed.

End CompleteRegistration.

(** C1, on the code.  The pending record of [a@x.com] is in status
    [email_verified] with the role [admin]; [complete_registration] at
    180 s creates the company and the position, replaces the pending record
    by the marker due 24 hours later, so that [get_pending_state] reports
    [fingerprint_validation] -- and then raises instead of returning: the
    employee was never created, because [create_employe] is not awaited. *)
Theorem complete_registration_raises_after_replacing_pending :
  let outcome :=
    complete_registration 180000000 180000001 acme_registration
      company_verified_session in
  (∃ st, fst (get_pending_state 170000000 "a@x.com" company_verified_session)
         = Return st
         ∧ ps_step st = "final"
         ∧ option_map (fun d => dict_get d "status") (ps_personal_info st)
           = Some (JStr "email_verified"))
  ∧ fst outcome = Raise (ValidationError "EmployeResponse")
  ∧ employe (snd outcome) = []
  ∧ map ent_nom (entreprise (snd outcome)) = ["Acme"]
  ∧ map pst_nom (poste (snd outcome)) = ["Dev"]
  ∧ pending_registration (snd outcome) !! "a@x.com"
    = Some (marker (180000001 + days 1))
  ∧ (∃ st, fst (get_pending_state 190000000 "a@x.com" (snd outcome)) = Return st
           ∧ ps_step st = "fingerprint_validation"
           ∧ ps_company_info st = None
           ∧ ps_role st = Some "employee").
Proof.
  cbn zeta. split; [|split; [|split; [|split; [|split; [|split]]]]].
  - eexists. split; [vm_compute; reflexivity|].
    split; vm_compute; reflexivity.
  - vm_compute. reflexivity.
  - vm_compute. reflexivity.
  - vm_compute. reflexivity.
  - vm_compute. reflexivity.
  - vm_compute. reflexivity.
  - eexists. split; [vm_compute; reflexivity|].
    repeat split; vm_compute; reflexivity.
Qed.

End RegistrationFacts.

(* --------------------------------------------------------------------- *)
(** ** The connection registry                                             *)
(* --------------------------------------------------------------------- *)

Module FanOutFacts.

Lemma with_connections_id (self : NotificationManager) :
  with_connections (fun ac => ac) self = self.
Proof. destruct self; reflexivity. Qed.

Lemma connect_eq (company_id : string) (websocket : WebSocket)
    (self : NotificationManager) :
  connect true company_id websocket self
  = (Return tt, with_connections (connect_map company_id websocket) self).
Proof.
  unfold connect, connect_map. py_simpl. destruct self as [ac log].
  cbn [negb active_connections with_connections].
  destruct (ac !! company_id) as [l|] eqn:Hl;
    cbn [active_connections with_connections default].
  - unfold with_connections. cbn [active_connections send_text_calls].
    rewrite Hl. reflexivity.
  - unfold with_connections. cbn [active_connections send_text_calls].
    rewrite lookup_insert_eq, insert_insert_eq, Hl. reflexivity.
Qed.

Lemma connect_refused (company_id : string) (websocket : WebSocket)
    (self : NotificationManager) :
  connect false company_id websocket self
  = (Raise (RuntimeError "websocket.accept"), self).
Proof. reflexivity. Qed.

Lemma disconnect_eq (company_id : string) (websocket : WebSocket)
    (self : NotificationManager) :
  disconnect company_id websocket self
  = (Return tt, with_connections (disconnect_map company_id websocket) self).
Proof.
  unfold disconnect, disconnect_map, with_connections. py_simpl.
  destruct self as [ac log]. cbn [active_connections send_text_calls].
  destruct (ac !! company_id) as [l|]; [|reflexivity].
  destruct (bool_decide (websocket ∈ l)); [|reflexivity].
  destruct (list_remove websocket l);
    cbn [active_connections send_text_calls]; [|reflexivity].
  rewrite delete_insert_eq. reflexivity.
Qed.

Lemma disconnect_all_eq (company_id : string) (disconnected : list WebSocket) :
  ∀ self,
    disconnect_all company_id disconnected self
    = (Return tt,
       with_connections
         (fun ac => fold_left (fun ac ws => disconnect_map company_id ws ac)
                      disconnected ac) self).
Proof.
  induction disconnected as [|ws rest IH]; intros self.
  - cbn. rewrite with_connections_id. reflexivity.
  - cbn [disconnect_all fold_left]. unfold bind.
    rewrite disconnect_eq, IH. destruct self; reflexivity.
Qed.

Lemma deliver_eq (delivers : WebSocket → bool) (event : string) (data : pyobj)
    (ws : WebSocket) (self : NotificationManager) :
  deliver delivers event data ws self
  = match json_dumps (payload event data) with
    | Return text =>
        (if delivers ws then Return tt else Raise (RuntimeError "send_text"),
         {| active_connections := active_connections self;
            send_text_calls := (send_text_calls self ++ [(ws, text)])%list |})
    | Raise e => (Raise e, self)
    end.
Proof.
  unfold deliver, payload, send_text. py_simpl.
  destruct (json_dumps _); reflexivity.
Qed.

Lemma broadcast_eq (delivers : WebSocket → bool) (event : string) (data : pyobj)
    (snapshot : list WebSocket) :
  ∀ disconnected self,
    broadcast delivers event data snapshot disconnected self
    = (Return (disconnected
               ++ List.filter (fun ws => negb (delivered delivers event data ws))
                    snapshot)%list,
       {| active_connections := active_connections self;
          send_text_calls :=
            (send_text_calls self ++ frames event data snapshot)%list |}).
Proof.
  induction snapshot as [|ws rest IH]; intros disconnected self.
  - cbn. unfold frames. destruct (json_dumps _); cbn;
      rewrite !app_nil_r; destruct self; reflexivity.
  - cbn [broadcast]. rewrite deliver_eq.
    unfold delivered, frames in *.
    destruct (json_dumps (payload event data)) as [text|e] eqn:Hd.
    + destruct (delivers ws) eqn:Hw; rewrite IH; cbn [List.filter negb map
        active_connections send_text_calls]; rewrite Hw; cbn [negb];
        rewrite <- ?app_assoc; reflexivity.
    + rewrite IH. cbn [List.filter negb]. rewrite <- app_assoc. reflexivity.
Qed.

Lemma send_to_company_eq (delivers : WebSocket → bool) (company_id event : string)
    (data : pyobj) (self : NotificationManager) :
  send_to_company delivers company_id event data self
  = (Return tt,
     match active_connections self !! company_id with
     | Some subscribers =>
         {| active_connections :=
              fold_left (fun ac ws => disconnect_map company_id ws ac)
                (List.filter (fun ws => negb (delivered delivers event data ws))
                   subscribers)
                (active_connections self);
            send_text_calls :=
              (send_text_calls self ++ frames event data subscribers)%list |}
     | None => self
     end).
Proof.
  unfold send_to_company. unfold bind at 1, get at 1.
  destruct (active_connections self !! company_id) as [subscribers|];
    [|reflexivity].
  unfold bind. rewrite broadcast_eq, disconnect_all_eq. reflexivity.
Qed.

(** *** Pruning after a pass *)

Lemma list_remove_after_prefix (x : WebSocket) (p l : list WebSocket) :
  x ∉ p → list_remove x (p ++ x :: l)%list = (p ++ l)%list.
Proof.
  induction p as [|y p IH]; intros Hnotin; cbn.
  - rewrite Nat.eqb_refl. reflexivity.
  - apply not_elem_of_cons in Hnotin as [Hne Hnotin].
    destruct (Nat.eqb_spec x y) as [->|_]; [contradiction|].
    rewrite IH by assumption. reflexivity.
Qed.

Lemma filter_none_rejected (ok : WebSocket → bool) (l : list WebSocket) :
  List.filter (fun ws => negb (ok ws)) l = [] → List.filter ok l = l.
Proof.
  induction l as [|x l IH]; cbn; [reflexivity|].
  destruct (ok x); cbn; [|discriminate].
  intros H. rewrite IH by assumption. reflexivity.
Qed.

Lemma filter_none_rejected_forallb (ok : WebSocket → bool) (l : list WebSocket) :
  List.filter (fun ws => negb (ok ws)) l = [] ↔ forallb ok l = true.
Proof.
  induction l as [|x l IH]; cbn; [tauto|].
  destruct (ok x); cbn; [exact IH|]. split; discriminate.
Qed.

(** Disconnecting the rejected handles of [l], in order, from the channel
    [p ++ l], where every handle of [p] was accepted. *)
Lemma prune_rejected (c : string) (ok : WebSocket → bool)
    (ac : gmap string (list WebSocket)) (l : list WebSocket) :
  ∀ p, (∀ ws, ws ∈ p → ok ws = true) →
    fold_left (fun ac ws => disconnect_map c ws ac)
      (List.filter (fun ws => negb (ok ws)) l) (<[c := (p ++ l)%list]> ac)
    = match List.filter (fun ws => negb (ok ws)) l with
      | [] => <[c := (p ++ l)%list]> ac
      | _ :: _ =>
          match (p ++ List.filter ok l)%list with
          | [] => delete c ac
          | l' => <[c := l']> ac
          end
      end.
Proof.
  induction l as [|x l IH]; intros p Hp; [reflexivity|].
  cbn [List.filter]. destruct (ok x) eqn:Hx; cbn [negb].
  - replace (p ++ x :: l)%list with ((p ++ [x]) ++ l)%list
      by (rewrite <- app_assoc; reflexivity).
    rewrite IH.
    + destruct (List.filter _ l); [reflexivity|].
      rewrite <- app_assoc. reflexivity.
    + intros ws Hws. apply elem_of_app in Hws as [Hws|Hws]; [auto|].
      apply list_elem_of_singleton in Hws. subst. exact Hx.
  - cbn [fold_left]. unfold disconnect_map at 2.
    rewrite lookup_insert_eq.
    rewrite bool_decide_eq_true_2
      by (apply elem_of_app; right; apply elem_of_cons; left; reflexivity).
    rewrite list_remove_after_prefix
      by (intros Hin; rewrite (Hp x Hin) in Hx; discriminate).
    destruct (p ++ l)%list as [|w l0] eqn:Hpl.
    + apply app_eq_nil in Hpl as [-> ->].
      rewrite delete_insert_eq. reflexivity.
    + rewrite insert_insert_eq, <- Hpl, (IH p Hp).
      destruct (List.filter (fun ws => negb (ok ws)) l) eqn:Hrej;
        [|reflexivity].
      rewrite (filter_none_rejected ok l Hrej), Hpl. reflexivity.
Qed.

Lemma fold_disconnect_other (c c' : string) (ds : list WebSocket) :
  c' ≠ c →
  ∀ ac, fold_left (fun ac ws => disconnect_map c ws ac) ds ac !! c' = ac !! c'.
Proof.
  intros Hne. induction ds as [|ws ds IH]; intros ac; [reflexivity|].
  cbn [fold_left]. rewrite IH. unfold disconnect_map.
  destruct (ac !! c) as [l|]; [|reflexivity].
  destruct (bool_decide (ws ∈ l)); [|reflexivity].
  destruct (list_remove ws l).
  - apply lookup_delete_ne. congruence.
  - apply lookup_insert_ne. congruence.
Qed.

(** C3.  [send_to_company] always returns.  With no entry for the channel
    it changes nothing, so it creates no entry.  Otherwise it makes its
    attempts over the subscriber list as it stood at the start of the pass,
    one per subscriber and in order, whatever the earlier attempts did; when
    the pass is over, the channel holds exactly the subscribers whose
    attempt went through, and its entry is gone if none is left; the other
    channels are untouched. *)
Theorem send_to_company_never_raises (delivers : WebSocket → bool)
    (company_id event : string) (data : pyobj) (self : NotificationManager) :
  ∃ self',
    send_to_company delivers company_id event data self = (Return tt, self')
    ∧ (∀ other, other ≠ company_id →
         active_connections self' !! other = active_connections self !! other)
    ∧ (active_connections self !! company_id = None → self' = self)
    ∧ (∀ subscribers,
         active_connections self !! company_id = Some subscribers →
         send_text_calls self'
         = (send_text_calls self ++ frames event data subscribers)%list
         ∧ active_connections self' !! company_id
           = if forallb (delivered delivers event data) subscribers
             then Some subscribers
             else match List.filter (delivered delivers event data) subscribers with
                  | [] => None
                  | remaining => Some remaining
                  end).
Proof.
  rewrite send_to_company_eq. eexists. split; [reflexivity|].
  destruct (active_connections self !! company_id) as [l|] eqn:Hl.
  - cbn [active_connections send_text_calls]. split; [|split].
    + intros other Hne. apply fold_disconnect_other. exact Hne.
    + discriminate.
    + intros subscribers [= <-]. split; [reflexivity|].
      pose proof (prune_rejected company_id (delivered delivers event data)
                    (active_connections self) l []
                    ltac:(intros ws Hws; inversion Hws)) as Hp.
      cbn [app] in Hp. rewrite (insert_id _ _ _ Hl) in Hp. rewrite Hp.
      destruct (forallb (delivered delivers event data) l) eqn:Hall.
      * apply filter_none_rejected_forallb in Hall. rewrite Hall. exact Hl.
      * destruct (List.filter (fun ws => negb (delivered delivers event data ws)) l)
          eqn:Hrej.
        { apply filter_none_rejected_forallb in Hrej. congruence. }
        destruct (List.filter (delivered delivers event data) l).
        { apply lookup_delete_eq. }
        { apply lookup_insert_eq. }
  - split; [reflexivity|]. split; [reflexivity|]. discriminate.
Qed.

Lemma send_to_company_never_raises_witness :
  active_connections
    (snd (send_to_company (fun ws => negb (Nat.eqb ws 2)) "c" "EMPLOYE_CREATED"
            notification three_connections)) !! "c" = Some [1]
  ∧ snd (send_to_company (fun _ => true) "z" "EMPLOYE_CREATED" notification
           three_connections) = three_connections.
Proof.
  split.
  - destruct (send_to_company_never_raises (fun ws => negb (Nat.eqb ws 2)) "c"
                "EMPLOYE_CREATED" notification three_connections)
      as (self' & -> & _ & _ & Hsub).
    cbn [snd].
    refine (eq_trans (proj2 (Hsub [1; 2] _)) _); vm_compute; reflexivity.
  - destruct (send_to_company_never_raises (fun _ => true) "z"
                "EMPLOYE_CREATED" notification three_connections)
      as (self' & -> & _ & Hnone & _).
    cbn [snd]. apply Hnone. vm_compute. reflexivity.
Defined.

(** *** Serialisation *)

Section pyobj_induction.

Variable P : pyobj → Prop.
Hypothesis HNone : P PyNone.
Hypothesis HBool : ∀ b, P (PyBool b).
Hypothesis HInt : ∀ z, P (PyInt z).
Hypothesis HFloat : ∀ r, P (PyFloat r).
Hypothesis HStr : ∀ s, P (PyStr s).
Hypothesis HList : ∀ items, Forall P items → P (PyList items).
Hypothesis HDict : ∀ items, Forall (fun kv => P kv.2) items → P (PyDict items).
Hypothesis HUUID : ∀ u, P (PyUUID u).
Hypothesis HOther : ∀ t, P (PyOther t).

Fixpoint pyobj_induction (obj : pyobj) : P obj :=
  match obj with
  | PyNone => HNone
  | PyBool b => HBool b
  | PyInt z => HInt z
  | PyFloat r => HFloat r
  | PyStr s => HStr s
  | PyList items =>
      HList items
        ((fix all (l : list pyobj) : Forall P l :=
            match l with
            | [] => @List.Forall_nil _ P
            | x :: r => @List.Forall_cons _ P x r (pyobj_induction x) (all r)
            end) items)
  | PyDict items =>
      HDict items
        ((fix all (l : list (string * pyobj)) : Forall (fun kv => P kv.2) l :=
            match l with
            | [] => @List.Forall_nil _ _
            | kv :: r =>
                @List.Forall_cons _ (fun kv => P kv.2) kv r
                  (match kv return P kv.2 with (_, x) => pyobj_induction x end)
                  (all r)
            end) items)
  | PyUUID u => HUUID u
  | PyOther t => HOther t
  end.

End pyobj_induction.

Lemma mapM_raises_iff {A B} (f : A → result B) (bad : A → bool) (l : list A) :
  Forall (fun x => if bad x then ∃ e, f x = Raise e else ∃ y, f x = Return y) l →
  if existsb bad l then ∃ e, mapM f l = Raise e else ∃ ys, mapM f l = Return ys.
Proof.
  induction 1 as [|x l Hx _ IH]; cbn; [eauto|].
  destruct (bad x); cbn.
  - destruct Hx as [e ->]. eauto.
  - destruct Hx as [y ->]. destruct (existsb bad l).
    + destruct IH as [e ->]. eauto.
    + destruct IH as [ys ->]. eauto.
Qed.

(** [json.dumps] raises exactly on the objects that hold a foreign value. *)
Lemma json_dumps_raises_iff (obj : pyobj) :
  if has_foreign_value obj then ∃ e, json_dumps obj = Raise e
  else ∃ j, json_dumps obj = Return j.
Proof.
  induction obj as [| | | | |items IH|items IH| |] using pyobj_induction;
    cbn [json_dumps has_foreign_value _json_default]; eauto.
  - pose proof (mapM_raises_iff json_dumps has_foreign_value items IH) as H.
    destruct (existsb has_foreign_value items).
    + destruct H as [e ->]. eauto.
    + destruct H as [js ->]. eauto.
  - pose proof (mapM_raises_iff
        (fun kv => match kv with
                   | (k, x) => match json_dumps x with
                               | Raise e => Raise e
                               | Return jx => Return (k, jx)
                               end
                   end)
        (fun kv => match kv with (_, x) => has_foreign_value x end) items) as H.
    destruct (existsb _ items).
    + destruct H as [e ->]; [|eauto].
      eapply Forall_impl; [exact IH|]. intros [k x] Hx. cbn in Hx.
      destruct (has_foreign_value x).
      * destruct Hx as [e ->]. eauto.
      * destruct Hx as [j ->]. eauto.
    + destruct H as [js ->]; [|eauto].
      eapply Forall_impl; [exact IH|]. intros [k x] Hx. cbn in Hx.
      destruct (has_foreign_value x).
      * destruct Hx as [e ->]. eauto.
      * destruct Hx as [j ->]. eauto.
Qed.

Lemma payload_unserializable (event : string) (data : pyobj) :
  has_foreign_value data = true →
  ∃ e, json_dumps (payload event data) = Raise e.
Proof.
  intros Hf. pose proof (json_dumps_raises_iff data) as H. rewrite Hf in H.
  destruct H as [e He]. exists e. unfold payload.
  cbn [json_dumps mapM]. rewrite He. reflexivity.
Qed.

Lemma filter_all_rejected (l : list WebSocket) :
  List.filter (fun _ : WebSocket => false) l = [].
Proof. induction l; cbn; auto. Qed.

(** C10.  When the payload holds a value that is neither JSON-native nor a
    UUID, serialisation raises in every attempt: no frame is sent, every
    subscriber of the channel is disconnected and the channel entry is
    removed, and [send_to_company] still returns. *)
Theorem send_to_company_unserializable_empties_channel
    (delivers : WebSocket → bool) (company_id event : string) (data : pyobj)
    (self : NotificationManager) (subscribers : list WebSocket) :
  has_foreign_value data = true →
  active_connections self !! company_id = Some subscribers →
  subscribers ≠ [] →
  (∃ e, json_dumps (payload event data) = Raise e)
  ∧ (∀ ws, ws ∈ subscribers →
       ∃ e, fst (deliver delivers event data ws self) = Raise e)
  ∧ send_to_company delivers company_id event data self
    = (Return tt,
       {| active_connections := delete company_id (active_connections self);
          send_text_calls := send_text_calls self |}).
Proof.
  intros Hf Hl Hne. destruct (payload_unserializable event data Hf) as [e He].
  split; [eauto|]. split.
  - intros ws _. rewrite deliver_eq, He. eauto.
  - rewrite send_to_company_eq, Hl. f_equal.
    assert (Hdel : ∀ ws, delivered delivers event data ws = false)
      by (intros ws; unfold delivered; rewrite He; reflexivity).
    unfold frames. rewrite He, app_nil_r. f_equal.
    pose proof (prune_rejected company_id (delivered delivers event data)
                  (active_connections self) subscribers []
                  ltac:(intros ws Hws; inversion Hws)) as Hp.
    cbn [app] in Hp. rewrite (insert_id _ _ _ Hl) in Hp. rewrite Hp.
    destruct subscribers as [|ws rest]; [contradiction|].
    cbn [List.filter app]. rewrite Hdel. cbn [negb].
    rewrite (List.filter_ext _ (fun _ => false) Hdel), filter_all_rejected.
    reflexivity.
Qed.

Lemma send_to_company_unserializable_empties_channel_witness :
  send_to_company (fun _ => true) "c" "notification" stamped_notification
    three_connections
  = (Return tt,
     {| active_connections := {[ "d" := [3] ]}; send_text_calls := [] |}).
Proof.
  refine (eq_trans (proj2 (proj2
            (send_to_company_unserializable_empties_channel
               (fun _ => true) "c" "notification" stamped_notification
               three_connections [1; 2]
               ltac:(reflexivity) ltac:(vm_compute; reflexivity)
               ltac:(discriminate)))) _).
  vm_compute. reflexivity.
Defined.

(** *** The invariant *)

Lemma shrinks_refl (ac : gmap string (list WebSocket)) : shrinks ac ac.
Proof. intros c l Hl. eauto. Qed.

Lemma shrinks_trans (ac1 ac2 ac3 : gmap string (list WebSocket)) :
  shrinks ac1 ac2 → shrinks ac2 ac3 → shrinks ac1 ac3.
Proof.
  intros H12 H23 c l1 Hl1.
  destruct (H12 c l1 Hl1) as (l2 & Hl2 & Hs12).
  destruct (H23 c l2 Hl2) as (l3 & Hl3 & Hs23).
  exists l3. split; [exact Hl3|]. etransitivity; eassumption.
Qed.

Lemma list_remove_sublist (x : WebSocket) (l : list WebSocket) :
  list_remove x l `sublist_of` l.
Proof.
  induction l as [|y l IH]; cbn; [constructor|].
  destruct (Nat.eqb x y).
  - apply sublist_cons. reflexivity.
  - apply sublist_skip. exact IH.
Qed.

Lemma disconnect_map_shrinks (c : string) (ws : WebSocket)
    (ac : gmap string (list WebSocket)) :
  shrinks (disconnect_map c ws ac) ac.
Proof.
  unfold disconnect_map.
  destruct (ac !! c) as [l|] eqn:Hl; [|apply shrinks_refl].
  destruct (bool_decide (ws ∈ l)); [|apply shrinks_refl].
  destruct (list_remove ws l) as [|w l0] eqn:Hr; intros c' l' Hl'.
  - apply lookup_delete_Some in Hl' as [_ Hl']. eauto.
  - destruct (decide (c = c')) as [<-|Hne].
    + rewrite lookup_insert_eq in Hl'. inversion Hl'; subst l'.
      exists l. split; [exact Hl|]. rewrite <- Hr. apply list_remove_sublist.
    + rewrite lookup_insert_ne in Hl' by exact Hne. eauto.
Qed.

Lemma fold_disconnect_shrinks (c : string) (ds : list WebSocket) :
  ∀ ac, shrinks (fold_left (fun ac ws => disconnect_map c ws ac) ds ac) ac.
Proof.
  induction ds as [|ws ds IH]; intros ac; [apply shrinks_refl|].
  cbn [fold_left]. eapply shrinks_trans; [apply IH|apply disconnect_map_shrinks].
Qed.

Lemma each_handle_once_shrinks (ac ac' : gmap string (list WebSocket)) :
  each_handle_once ac → shrinks ac' ac → each_handle_once ac'.
Proof.
  intros [Hnodup Hone] Hs. split.
  - intros c l' Hl'. destruct (Hs c l' Hl') as (l & Hl & Hsub).
    eapply sublist_NoDup; [eapply Hnodup; exact Hl|exact Hsub].
  - intros c1 c2 l1 l2 ws Hl1 Hl2 Hin1 Hin2.
    destruct (Hs c1 l1 Hl1) as (k1 & Hk1 & Hsub1).
    destruct (Hs c2 l2 Hl2) as (k2 & Hk2 & Hsub2).
    eapply (Hone c1 c2 k1 k2 ws); eauto using elem_of_sublist.
Qed.

Lemma each_handle_once_connect (c : string) (ws : WebSocket)
    (ac : gmap string (list WebSocket)) :
  each_handle_once ac → unregistered ws ac →
  each_handle_once (connect_map c ws ac).
Proof.
  intros [Hnodup Hone] Hfresh. unfold connect_map.
  assert (Hold : ∀ k l, ac !! k = Some l → ws ∉ l)
    by (intros k l Hl; exact (map_Forall_lookup_1 _ _ _ _ Hfresh Hl)).
  assert (Hhere : ∀ x, x ∈ (default [] (ac !! c) ++ [ws])%list →
                       x = ws ∨ ∃ l, ac !! c = Some l ∧ x ∈ l).
  { intros x Hx. apply elem_of_app in Hx as [Hx|Hx].
    - destruct (ac !! c) as [l|]; cbn in Hx; [eauto|inversion Hx].
    - apply list_elem_of_singleton in Hx. auto. }
  split.
  - intros k l Hl. destruct (decide (c = k)) as [<-|Hne].
    + rewrite lookup_insert_eq in Hl. inversion Hl; subst l.
      apply NoDup_app. split; [|split].
      * destruct (ac !! c) as [l|] eqn:Hc; cbn; [eauto|constructor].
      * intros x Hx Hx'. apply list_elem_of_singleton in Hx'. subst x.
        destruct (ac !! c) as [l|] eqn:Hc; cbn in Hx; [|inversion Hx].
        exact (Hold c l Hc Hx).
      * apply NoDup_singleton.
    + rewrite lookup_insert_ne in Hl by exact Hne. eauto.
  - intros c1 c2 l1 l2 x Hl1 Hl2 Hin1 Hin2.
    destruct (decide (c = c1)) as [<-|Hne1];
      destruct (decide (c = c2)) as [<-|Hne2]; [reflexivity| | |].
    + rewrite lookup_insert_eq in Hl1. inversion Hl1; subst l1.
      rewrite lookup_insert_ne in Hl2 by exact Hne2.
      destruct (Hhere x Hin1) as [->|(l & Hl & Hx)].
      * exfalso. exact (Hold c2 l2 Hl2 Hin2).
      * exact (Hone c c2 l l2 x Hl Hl2 Hx Hin2).
    + rewrite lookup_insert_eq in Hl2. inversion Hl2; subst l2.
      rewrite lookup_insert_ne in Hl1 by exact Hne1.
      destruct (Hhere x Hin2) as [->|(l & Hl & Hx)].
      * exfalso. exact (Hold c1 l1 Hl1 Hin1).
      * exact (Hone c1 c l1 l x Hl1 Hl Hin1 Hx).
    + rewrite lookup_insert_ne in Hl1 by exact Hne1.
      rewrite lookup_insert_ne in Hl2 by exact Hne2.
      exact (Hone c1 c2 l1 l2 x Hl1 Hl2 Hin1 Hin2).
Qed.

Lemma each_handle_once_step (c : call) (self : NotificationManager) :
  each_handle_once (active_connections self) →
  connects_fresh_handles [c] self →
  each_handle_once (active_connections (step c self)).
Proof.
  intros Hinv [Hfresh _]. destruct c as [[|] company_id ws|company_id ws|
                                          delivers company_id event data];
    cbn [step].
  - rewrite connect_eq. cbn [snd]. destruct self; cbn in *.
    apply each_handle_once_connect; assumption.
  - rewrite connect_refused. exact Hinv.
  - rewrite disconnect_eq. cbn [snd]. destruct self; cbn in *.
    eapply each_handle_once_shrinks; [exact Hinv|apply disconnect_map_shrinks].
  - rewrite send_to_company_eq. cbn [snd].
    destruct (active_connections self !! company_id); [|exact Hinv].
    cbn [active_connections].
    eapply each_handle_once_shrinks; [exact Hinv|apply fold_disconnect_shrinks].
Qed.

Lemma disconnect_unregistered (company_id : string) (websocket : WebSocket)
    (self : NotificationManager) :
  (∀ l, active_connections self !! company_id = Some l → websocket ∉ l) →
  disconnect company_id websocket self = (Return tt, self).
Proof.
  intros Hout. rewrite disconnect_eq. f_equal.
  rewrite <- (with_connections_id self) at 2. destruct self as [ac log].
  unfold with_connections, disconnect_map. cbn in *. f_equal.
  destruct (ac !! company_id) as [l|]; [|reflexivity].
  rewrite bool_decide_eq_false_2; [reflexivity|]. exact (Hout l eq_refl).
Qed.

(** C8, as stated, fails: [connect] appends without looking, so the same
    handle connected under two companies is in both lists, and connected
    twice under one company is twice in its list. *)
Lemma connect_twice_breaks_each_handle_once :
  ¬ each_handle_once
      (active_connections
         (run [call_connect true "a" 1; call_connect true "b" 1] __init__))
  ∧ ¬ each_handle_once
        (active_connections
           (run [call_connect true "a" 1; call_connect true "a" 1] __init__)).
Proof.
  split; intros [Hnodup Hone].
  - assert (H : "a" = "b"); [|discriminate H].
    apply (Hone "a" "b" [1] [1] 1);
      solve [vm_compute; reflexivity | apply list_elem_of_singleton; reflexivity].
  - specialize (Hnodup "a" [1; 1] ltac:(vm_compute; reflexivity)).
    apply NoDup_cons in Hnodup as [Hnotin _]. apply Hnotin.
    apply list_elem_of_singleton. reflexivity.
Qed.

(** C8, amended.  Along every run of [connect], [disconnect] and
    [send_to_company] in which each [connect] that goes through is made with
    a handle registered nowhere at that moment, every handle stays in at
    most one company's list and at most once in it; and [disconnect] of a
    handle that is not in the list of the given company leaves the manager
    unchanged. *)
Theorem registry_keeps_each_handle_once (calls : list call)
    (self : NotificationManager) (company_id : string) (websocket : WebSocket) :
  (each_handle_once (active_connections self) →
   connects_fresh_handles calls self →
   each_handle_once (active_connections (run calls self)))
  ∧ ((∀ l, active_connections self !! company_id = Some l → websocket ∉ l) →
     disconnect company_id websocket self = (Return tt, self)).
Proof.
  split; [|apply disconnect_unregistered].
  revert self. induction calls as [|c calls IH]; intros self Hinv Hfresh;
    [exact Hinv|].
  destruct Hfresh as [Hc Hrest]. cbn [run fold_left].
  apply IH; [|exact Hrest].
  apply each_handle_once_step; [exact Hinv|]. split; [exact Hc|exact I].
Qed.

Lemma each_handle_once_init : each_handle_once (active_connections __init__).
Proof.
  split.
  - intros c l Hl. cbn in Hl. rewrite lookup_empty in Hl. discriminate.
  - intros c1 c2 l1 l2 ws Hl1. cbn in Hl1. rewrite lookup_empty in Hl1.
    discriminate.
Qed.

Lemma registry_keeps_each_handle_once_witness :
  each_handle_once (active_connections (run session_of_calls __init__))
  ∧ disconnect "c" 1 (run session_of_calls __init__)
    = (Return tt, run session_of_calls __init__).
Proof.
  split.
  - refine (proj1 (registry_keeps_each_handle_once session_of_calls __init__
                     "c" 1) each_handle_once_init _).
    cbn [session_of_calls connects_fresh_handles]. unfold unregistered.
    repeat split; apply (bool_decide_unpack _); vm_compute; reflexivity.
  - refine (proj2 (registry_keeps_each_handle_once session_of_calls
                     (run session_of_calls __init__) "c" 1) _).
    intros l Hl. vm_compute in Hl. inversion Hl; subst.
    intros Hin. apply elem_of_cons in Hin as [Hin|Hin]; [discriminate|].
    inversion Hin.
Defined.

End FanOutFacts.

(* --------------------------------------------------------------------- *)
(** ** More on the two stores                                              *)
(* --------------------------------------------------------------------- *)

Module StoreFacts.

Import RepositoryFacts RegistrationFacts.

Lemma session_eq (a b : Session) :
  employe a = employe b → groupe a = groupe b → entreprise a = entreprise b →
  poste a = poste b → pending_registration a = pending_registration b →
  verification_code a = verification_code b → uuid_supply a = uuid_supply b →
  a = b.
Proof. destruct a, b; cbn; intros; subst; reflexivity. Qed.





Lemma update_pending_registration_eq (db : Session) (email : string)
    (kv : pending_key) :
  update_pending_registration email kv db
  = match pending_registration db !! lower email with
    | None => (Raise (ValueError "Aucune registration en attente"), db)
    | Some p => (Return tt, with_pending (insert (lower email) (set_field kv p)) db)
    end.
Proof.
  unfold update_pending_registration. py_simpl.
  destruct (pending_registration db !! lower email) as [p|]; [|reflexivity].
  destruct kv; reflexivity.
Qed.

(** X3.  [update_pending_registration] raises [ValueError] and changes
    nothing when the email has no row.  When it has one, expired or not,
    the call succeeds, replaces the one named field and keeps the others,
    the expiry included: an update never extends the life of a record. *)
Theorem update_pending_registration_keeps_expiry
    (db : Session) (email : string) (kv : pending_key) :
  let outcome := update_pending_registration email kv db in
  (pending_registration db !! lower email = None →
   (∃ msg, fst outcome = Raise (ValueError msg)) ∧ snd outcome = db)
  ∧ (∀ p, pending_registration db !! lower email = Some p →
       fst outcome = Return tt
       ∧ ∃ p', pending_registration (snd outcome) !! lower email = Some p'
               ∧ pr_expires_at p' = pr_expires_at p
               ∧ match kv with
                 | key_personal_info value =>
                     pr_personal_info_json p' = Some value
                     ∧ pr_company_info_json p' = pr_company_info_json p
                     ∧ pr_role_assigned p' = pr_role_assigned p
                 | key_company_info value =>
                     pr_personal_info_json p' = pr_personal_info_json p
                     ∧ pr_company_info_json p' = Some value
                     ∧ pr_role_assigned p' = pr_role_assigned p
                 | key_role_assigned value =>
                     pr_personal_info_json p' = pr_personal_info_json p
                     ∧ pr_company_info_json p' = pr_company_info_json p
                     ∧ pr_role_assigned p' = Some value
                 end)
  ∧ pr_expires_at <$> pending_registration (snd outcome)
    = pr_expires_at <$> pending_registration db.
Proof.
  cbn zeta. rewrite update_pending_registration_eq. split; [|split].
  - intros ->. cbn. eauto.
  - intros p ->. cbn [fst snd with_pending pending_registration].
    split; [reflexivity|]. exists (set_field kv p).
    rewrite lookup_insert_eq. destruct kv; cbn; auto.
  - destruct (pending_registration db !! lower email) as [p|] eqn:Hl;
      [|reflexivity].
    cbn [snd with_pending pending_registration].
    rewrite fmap_insert. apply insert_id. rewrite lookup_fmap, Hl.
    destruct kv; reflexivity.
Qed.

Lemma update_pending_registration_keeps_expiry_witness :
  fst (update_pending_registration "A@x.com" (key_role_assigned "admin")
         one_code_session) = Return tt
  ∧ (∃ msg, fst (update_pending_registration "b@x.com" (key_role_assigned "admin")
                   one_code_session) = Raise (ValueError msg)).
Proof.
  split.
  - exact (proj1 (proj1 (proj2 (update_pending_registration_keeps_expiry
             one_code_session "A@x.com" (key_role_assigned "admin")))
             (marker 200) ltac:(vm_compute; reflexivity))).
  - exact (proj1 (proj1 (update_pending_registration_keeps_expiry
             one_code_session "b@x.com" (key_role_assigned "admin"))
             ltac:(vm_compute; reflexivity))).
Defined.

Lemma cleanup_lookup_code_later (db : Session) (now t : Z) (email : string) :
  (now ≤ t)%Z →
  fst (get_verification_code t email (snd (cleanup_expired_entries now db)))
  = fst (get_verification_code t email db).
Proof.
  intros Hle. rewrite !get_verification_code_eq. cbn [fst].
  rewrite cleanup_keeps_code.
  destruct (verification_code db !! lower email) as [entry|]; [|reflexivity].
  destruct (vc_expires_at entry <? now)%Z eqn:Hdel; [|reflexivity].
  apply Z.ltb_lt in Hdel.
  destruct (t <? vc_expires_at entry)%Z eqn:Hlive; [|reflexivity].
  apply Z.ltb_lt in Hlive. lia.
Qed.

Lemma cleanup_lookup_pending_later (db : Session) (now t : Z) (email : string) :
  (now ≤ t)%Z →
  fst (get_pending_registration t email (snd (cleanup_expired_entries now db)))
  = fst (get_pending_registration t email db).
Proof.
  intros Hle. rewrite !get_pending_registration_eq. cbn [fst].
  rewrite cleanup_keeps_pending.
  destruct (pending_registration db !! lower email) as [p|]; [|reflexivity].
  destruct (pr_expires_at p <? now)%Z eqn:Hdel; [|reflexivity].
  apply Z.ltb_lt in Hdel.
  destruct (t <? pr_expires_at p)%Z eqn:Hlive; [|reflexivity].
  apply Z.ltb_lt in Hlive. lia.
Qed.

(** X4.  The sweep is invisible to the reads: at the time of the sweep and
    at any later time, [get_verification_code] and
    [get_pending_registration] return what they would have returned without
    it.  The sweep never deletes a row that a read could still return. *)
Theorem cleanup_expired_entries_invisible_to_reads
    (db : Session) (now t : Z) (email : string) :
  (now ≤ t)%Z →
  fst (get_verification_code t email (snd (cleanup_expired_entries now db)))
  = fst (get_verification_code t email db)
  ∧ fst (get_pending_registration t email (snd (cleanup_expired_entries now db)))
    = fst (get_pending_registration t email db).
Proof.
  intros Hle. split;
    [apply cleanup_lookup_code_later|apply cleanup_lookup_pending_later];
    exact Hle.
Qed.

Lemma cleanup_expired_entries_invisible_to_reads_witness :
  fst (get_verification_code 150 "a@x.com"
         (snd (cleanup_expired_entries 150 one_code_session)))
  = fst (get_verification_code 150 "a@x.com" one_code_session)
  ∧ fst (get_pending_registration 150 "a@x.com"
           (snd (cleanup_expired_entries 150 one_code_session)))
    = fst (get_pending_registration 150 "a@x.com" one_code_session).
Proof.
  exact (cleanup_expired_entries_invisible_to_reads one_code_session 150 150
           "a@x.com" ltac:(lia)).
Defined.

(** X5.  Two sweeps amount to one sweep at the later of the two times; in
    particular a sweep repeated at the same time changes nothing more.  A
    sweep touches only the two tables with an expiry. *)
Theorem cleanup_expired_entries_composes (db : Session) (t1 t2 : Z) :
  snd (cleanup_expired_entries t2 (snd (cleanup_expired_entries t1 db)))
  = snd (cleanup_expired_entries (Z.max t1 t2) db)
  ∧ employe (snd (cleanup_expired_entries t1 db)) = employe db
  ∧ entreprise (snd (cleanup_expired_entries t1 db)) = entreprise db
  ∧ poste (snd (cleanup_expired_entries t1 db)) = poste db
  ∧ groupe (snd (cleanup_expired_entries t1 db)) = groupe db.
Proof.
  split; [|repeat split].
  rewrite !cleanup_expired_entries_eq. cbn [snd].
  apply session_eq; try reflexivity.
  - cbn [with_codes with_pending pending_registration].
    rewrite map_filter_filter. apply map_filter_ext.
    intros i x _. cbn. lia.
  - cbn [with_codes with_pending verification_code].
    rewrite map_filter_filter. apply map_filter_ext.
    intros i x _. cbn. lia.
Qed.

End StoreFacts.

(* --------------------------------------------------------------------- *)
(** ** More on the registration steps                                      *)
(* --------------------------------------------------------------------- *)

Module StepFacts.

Import RepositoryFacts RegistrationFacts StoreFacts.

Lemma verify_user_email_eq (db : Session) (now_code now_pending : Z)
    (vd : UserVerification) (entry : VerificationCodeDB)
    (p : PendingRegistrationDB) :
  verification_code db !! lower (uv_email vd) = Some entry →
  (now_code < vc_expires_at entry)%Z →
  vc_code entry = uv_code vd →
  uv_code vd ≠ "" →
  pending_registration db !! lower (uv_email vd) = Some p →
  (now_pending < pr_expires_at p)%Z →
  verify_user_email now_code now_pending vd db
  = (Return {| message :=
                 "Email vérifié, veuillez fournir les informations de l'entreprise.";
               expires_at := Some (pr_expires_at p) |},
     with_pending
       (insert (lower (uv_email vd))
          (set_field (key_personal_info (verified_info p)) p))
       (with_codes (delete (lower (uv_email vd))) db)).
Proof.
  intros Hcode Hlive Heq Hne Hp Hplive.
  unfold verify_user_email, bind at 1.
  rewrite (get_verification_code_unexpired _ _ _ _ Hcode Hlive), Heq.
  destruct (uv_code vd) as [|c s] eqn:Hc; [congruence|].
  cbn [opt_str_truthy str_truthy negb].
  rewrite bool_decide_eq_true_2 by reflexivity. cbn [negb].
  unfold bind at 1. rewrite get_pending_registration_eq, Hp.
  apply Z.ltb_lt in Hplive. rewrite Hplive.
  unfold bind at 1. unfold delete_verification_code at 1, modify at 1.
  unfold bind at 1. rewrite update_pending_registration_eq.
  cbn [with_codes pending_registration]. rewrite Hp. reflexivity.
Qed.

Lemma verify_user_email_no_code (db : Session) (t1 t2 : Z) (vd : UserVerification) :
  (∀ entry, verification_code db !! lower (uv_email vd) = Some entry →
            ¬ (t1 < vc_expires_at entry)%Z) →
  verify_user_email t1 t2 vd db
  = (Raise (HTTPException HTTP_400_BAD_REQUEST "Code introuvable ou expiré"), db).
Proof.
  intros Hnone. unfold verify_user_email, bind at 1.
  rewrite (get_verification_code_expired _ _ _ Hnone). reflexivity.
Qed.

(** X6.  [verify_user_email] with the stored, non-expired code and a live
    pending record sets the status to [email_verified], keeps every other
    key of the personal information, the company information, the role and
    the expiry, and consumes the code: no read returns it any more, and the
    same call made again fails with BadRequest. *)
Theorem verify_user_email_consumes_code
    (db : Session) (now_code now_pending : Z) (vd : UserVerification)
    (entry : VerificationCodeDB) (p : PendingRegistrationDB) :
  verification_code db !! lower (uv_email vd) = Some entry →
  (now_code < vc_expires_at entry)%Z →
  vc_code entry = uv_code vd →
  uv_code vd ≠ "" →
  pending_registration db !! lower (uv_email vd) = Some p →
  (now_pending < pr_expires_at p)%Z →
  let outcome := verify_user_email now_code now_pending vd db in
  (∃ msg, fst outcome = Return msg ∧ expires_at msg = Some (pr_expires_at p))
  ∧ (∃ p' d',
        pending_registration (snd outcome) !! lower (uv_email vd) = Some p'
        ∧ pr_personal_info_json p' = Some d'
        ∧ dict_get d' "status" = JStr "email_verified"
        ∧ (∀ d key, pr_personal_info_json p = Some d → key ≠ "status" →
             dict_get d' key = dict_get d key)
        ∧ pr_company_info_json p' = pr_company_info_json p
        ∧ pr_role_assigned p' = pr_role_assigned p
        ∧ pr_expires_at p' = pr_expires_at p)
  ∧ (∀ t, fst (get_verification_code t (uv_email vd) (snd outcome)) = Return None)
  ∧ (∀ t1 t2, fails_with (fst (verify_user_email t1 t2 vd (snd outcome))) BadRequest
              ∧ snd (verify_user_email t1 t2 vd (snd outcome)) = snd outcome).
Proof.
  intros Hcode Hlive Heq Hne Hp Hplive. cbn zeta.
  rewrite (verify_user_email_eq db now_code now_pending vd entry p
             Hcode Hlive Heq Hne Hp Hplive).
  cbn [fst snd]. split; [eauto|]. split; [|split].
  - exists (set_field (key_personal_info (verified_info p)) p), (verified_info p).
    cbn [with_pending pending_registration]. rewrite lookup_insert_eq.
    split; [reflexivity|]. split; [reflexivity|]. split.
    { unfold dict_get, verified_info. rewrite lookup_insert_eq. reflexivity. }
    split; [|cbn; auto].
    intros d key Hd Hkey. unfold dict_get, verified_info.
    rewrite lookup_insert_ne by congruence. rewrite Hd.
    unfold dict_truthy. destruct (bool_decide (d = ∅)) eqn:He; cbn [negb];
      [|reflexivity].
    apply bool_decide_eq_true_1 in He. subst d. reflexivity.
  - intros t. rewrite get_verification_code_eq.
    cbn [fst with_pending with_codes verification_code].
    rewrite lookup_delete_eq. reflexivity.
  - intros t1 t2. rewrite verify_user_email_no_code.
    + cbn. split; reflexivity.
    + intros e He. cbn [with_pending with_codes verification_code] in He.
      rewrite lookup_delete_eq in He. discriminate.
Qed.

Lemma verify_user_email_consumes_code_witness :
  ∃ msg, fst (verify_user_email 60000000 60000000
                {| uv_email := "a@x.com"; uv_code := "a1b2c3" |} submitted_session)
         = Return msg.
Proof.
  destruct (proj1 (verify_user_email_consumes_code submitted_session
              60000000 60000000 {| uv_email := "a@x.com"; uv_code := "a1b2c3" |}
              {| vc_code := "a1b2c3"; vc_expires_at := minutes 4 |}
              (upserted None (PersonalInfo_model_dump info_a) (minutes 4))
              ltac:(vm_compute; reflexivity) ltac:(vm_compute; reflexivity)
              eq_refl ltac:(discriminate)
              ltac:(vm_compute; reflexivity) ltac:(vm_compute; reflexivity)))
    as (msg & Hmsg & _).
  exists msg. exact Hmsg.
Defined.

(** X7.  The code issued by a successful [process_personal_info] is accepted
    by [verify_user_email] as long as the code (four minutes from the write
    of the code) and the pending record (four minutes from the clock read
    of line 53) are both live, and is refused with BadRequest from the
    moment the code has expired. *)
Theorem issued_code_is_accepted_for_four_minutes
    (db : Session) (now_check now_expiry now_store : Z) (token : string)
    (info : PersonalInfo) (now_code now_pending : Z) :
  no_durable_duplicate db info →
  (∀ entry, verification_code db !! lower (pi_userEmail info) = Some entry →
            ¬ (now_check < vc_expires_at entry)%Z) →
  token ≠ "" →
  let db' := snd (process_personal_info now_check now_expiry now_store token
                    true info db) in
  let vd := {| uv_email := pi_userEmail info; uv_code := token |} in
  ((now_code < now_store + minutes 4)%Z →
   (now_pending < now_expiry + minutes 4)%Z →
   ∃ msg, fst (verify_user_email now_code now_pending vd db') = Return msg
          ∧ expires_at msg = Some (now_expiry + minutes 4)%Z)
  ∧ ((now_store + minutes 4 ≤ now_code)%Z →
     fails_with (fst (verify_user_email now_code now_pending vd db')) BadRequest
     ∧ snd (verify_user_email now_code now_pending vd db') = db').
Proof.
  intros Hfree Hexp Htoken. cbn zeta.
  rewrite (process_personal_info_succeeds_eq db now_check now_expiry now_store
             token true info Hfree Hexp eq_refl).
  cbn [snd]. split.
  - intros Hcode Hpending.
    rewrite (verify_user_email_eq _ now_code now_pending _
               {| vc_code := token; vc_expires_at := (now_store + minutes 4)%Z |}
               (upserted (pending_registration db !! lower (pi_userEmail info))
                  (PersonalInfo_model_dump info) (now_expiry + minutes 4)%Z)).
    + cbn [fst]. eexists. split; reflexivity.
    + cbn [with_pending with_codes verification_code uv_email].
      apply lookup_insert_eq.
    + exact Hcode.
    + reflexivity.
    + exact Htoken.
    + cbn [with_pending with_codes pending_registration uv_email].
      apply lookup_insert_eq.
    + exact Hpending.
  - intros Hlate. rewrite verify_user_email_no_code.
    + cbn. split; reflexivity.
    + intros e He. cbn [with_pending with_codes verification_code uv_email] in He.
      rewrite lookup_insert_eq in He. inversion He; subst e. cbn. lia.
Qed.

Lemma issued_code_is_accepted_for_four_minutes_witness :
  (∃ msg, fst (verify_user_email 239999999 239999999
                 {| uv_email := "A@x.com"; uv_code := "a1b2c3" |}
                 submitted_session) = Return msg)
  ∧ fails_with
      (fst (verify_user_email 240000000 0
              {| uv_email := "A@x.com"; uv_code := "a1b2c3" |} submitted_session))
      BadRequest.
Proof.
  assert (Hfree : no_durable_duplicate empty_session info_a)
    by (intros e Hin; destruct Hin).
  assert (Hexp : ∀ entry,
             verification_code empty_session !! lower (pi_userEmail info_a)
             = Some entry → ¬ (0 < vc_expires_at entry)%Z)
    by (intros entry He; vm_compute in He; discriminate).
  split.
  - destruct (proj1 (issued_code_is_accepted_for_four_minutes empty_session
               0 0 0 "a1b2c3" info_a 239999999 239999999 Hfree Hexp
               ltac:(discriminate))
               ltac:(vm_compute; reflexivity) ltac:(vm_compute; reflexivity))
      as (msg & Hmsg & _).
    exists msg. exact Hmsg.
  - exact (proj1 (proj2 (issued_code_is_accepted_for_four_minutes empty_session
             0 0 0 "a1b2c3" info_a 240000000 0 Hfree Hexp ltac:(discriminate))
             ltac:(vm_compute; discriminate))).
Defined.

(** Closes a goal on the expiries of the pending table after a run of
    repository writes. *)
Ltac expiries_unchanged :=
  cbn [snd with_pending with_codes pending_registration verification_code];
  rewrite ?fmap_insert;
  try reflexivity;
  apply insert_id; rewrite lookup_fmap;
  match goal with
  | H : pending_registration _ !! _ = Some _ |- _ => rewrite H; reflexivity
  end.

Ltac py_steps :=
  repeat (py_simpl;
          cbn [pending_registration with_pending with_codes verification_code
               fst snd negb orb andb] in *;
          try py_branch).

(** X8.  The life of a pending record is fixed when it is written:
    [verify_user_email], [process_company_info] and [verify_company_email]
    leave the expiry of every pending record as it was, whatever their
    arguments and their outcome. *)
Theorem later_steps_never_extend_the_deadline
    (db : Session) (t1 t2 t3 t4 : Z) (token : string) (smtp_accepts : bool)
    (vd : UserVerification) (company_info : CompanyInfo) (user_email : string)
    (cv : CompanyVerification) :
  pr_expires_at <$> pending_registration (snd (verify_user_email t1 t2 vd db))
  = pr_expires_at <$> pending_registration db
  ∧ pr_expires_at <$>
      pending_registration
        (snd (process_company_info t1 t2 t3 t4 token smtp_accepts company_info
                user_email db))
    = pr_expires_at <$> pending_registration db
  ∧ pr_expires_at <$> pending_registration (snd (verify_company_email t1 t2 cv db))
    = pr_expires_at <$> pending_registration db.
Proof.
  split; [|split].
  - unfold verify_user_email, get_verification_code, get_pending_registration,
      delete_verification_code, update_pending_registration.
    py_steps; expiries_unchanged.
  - unfold process_company_info, get_verification_code, get_pending_registration,
      set_verification_code, update_pending_registration, send_email.
    py_steps; expiries_unchanged.
  - unfold verify_company_email, get_verification_code, get_pending_registration,
      delete_verification_code, update_pending_registration.
    py_steps; expiries_unchanged.
Qed.

Lemma status_is_status_tag (p : PendingRegistrationDB) (tag : string) :
  status_is (pr_personal_info_json p) tag = jval_is (status_tag p) tag.
Proof.
  unfold status_tag. destruct (pr_personal_info_json p) as [d|].
  - apply status_is_tag.
  - reflexivity.
Qed.

Section ProcessCompanyInfo.

Variables (db : Session) (now_pending now_check now_expiry now_store : Z)
          (token : string) (smtp_accepts : bool)
          (company_info : CompanyInfo) (user_email : string).

Local Abbreviation outcome :=
  (process_company_info now_pending now_check now_expiry now_store token
     smtp_accepts company_info user_email db).

Lemma process_company_info_absent :
  (∀ p, pending_registration db !! lower user_email = Some p →
        ¬ (now_pending < pr_expires_at p)%Z) →
  outcome = (Raise (HTTPException HTTP_400_BAD_REQUEST "Inscription introuvable"), db).
Proof.
  intros Habs. unfold process_company_info, bind at 1.
  rewrite get_pending_registration_eq.
  destruct (pending_registration db !! lower user_email) as [p|] eqn:Hl;
    [|reflexivity].
  destruct (now_pending <? pr_expires_at p)%Z eqn:Hlt; [|reflexivity].
  apply Z.ltb_lt in Hlt. exfalso. exact (Habs p eq_refl Hlt).
Qed.

Lemma process_company_info_unverified (p : PendingRegistrationDB) :
  pending_registration db !! lower user_email = Some p →
  (now_pending < pr_expires_at p)%Z →
  status_tag p ≠ JStr "email_verified" →
  outcome = (Raise (HTTPException HTTP_400_BAD_REQUEST "Email non vérifié"), db).
Proof.
  intros Hl Hlt Hst. unfold process_company_info, bind at 1.
  rewrite get_pending_registration_eq, Hl.
  apply Z.ltb_lt in Hlt. rewrite Hlt.
  rewrite status_is_status_tag. unfold jval_is.
  rewrite bool_decide_eq_false_2 by exact Hst. reflexivity.
Qed.

Lemma process_company_info_eq (p : PendingRegistrationDB) :
  pending_registration db !! lower user_email = Some p →
  (now_pending < pr_expires_at p)%Z →
  status_tag p = JStr "email_verified" →
  (∀ entry,
     verification_code db !! lower (ci_companyContactEmail company_info)
     = Some entry → ¬ (now_check < vc_expires_at entry)%Z) →
  outcome =
  (if smtp_accepts
   then Return {| message := "Code envoyé à " +:+ ci_companyContactEmail company_info;
                  expires_at := Some (now_expiry + minutes 4)%Z |}
   else Raise (HTTPException HTTP_500_INTERNAL_SERVER_ERROR
                 ("Erreur envoi mail: "
                  +:+ ("Échec de l'envoi de l'e-mail de vérification à "
                       +:+ ci_companyContactEmail company_info))),
   with_codes
     (insert (lower (ci_companyContactEmail company_info))
        {| vc_code := token; vc_expires_at := (now_store + minutes 4)%Z |})
     (with_pending
        (insert (lower user_email)
           (set_field (key_company_info (CompanyInfo_model_dump company_info)) p))
        db)).
Proof.
  intros Hl Hlt Hst Hcode. unfold process_company_info, bind at 1.
  rewrite get_pending_registration_eq, Hl.
  apply Z.ltb_lt in Hlt. rewrite Hlt.
  rewrite status_is_status_tag, Hst. unfold jval_is at 1.
  rewrite bool_decide_eq_true_2 by reflexivity. cbn [negb].
  unfold bind at 1. rewrite (get_verification_code_expired _ _ _ Hcode).
  cbn [opt_str_truthy]. unfold bind at 1.
  rewrite update_pending_registration_eq, Hl.
  unfold set_verification_code, send_email. py_simpl.
  destruct smtp_accepts; reflexivity.
Qed.

End ProcessCompanyInfo.

(** X9.  The company step is strictly after the email step:
    [process_company_info] fails with BadRequest and changes nothing when
    the email has no live pending record, and when the status of the record
    is anything but [email_verified]. *)
Theorem process_company_info_requires_verified_email
    (db : Session) (now_pending now_check now_expiry now_store : Z)
    (token : string) (smtp_accepts : bool) (company_info : CompanyInfo)
    (user_email : string) :
  let outcome :=
    process_company_info now_pending now_check now_expiry now_store token
      smtp_accepts company_info user_email db in
  ((∀ p, pending_registration db !! lower user_email = Some p →
         ¬ (now_pending < pr_expires_at p)%Z) →
   fails_with (fst outcome) BadRequest ∧ snd outcome = db)
  ∧ (∀ p, pending_registration db !! lower user_email = Some p →
          (now_pending < pr_expires_at p)%Z →
          status_tag p ≠ JStr "email_verified" →
          fails_with (fst outcome) BadRequest ∧ snd outcome = db).
Proof.
  cbn zeta. split.
  - intros Habs. rewrite process_company_info_absent by exact Habs.
    cbn. split; reflexivity.
  - intros p Hl Hlt Hst.
    rewrite (process_company_info_unverified _ _ _ _ _ _ _ _ _ p Hl Hlt Hst).
    cbn. split; reflexivity.
Qed.

Lemma process_company_info_requires_verified_email_witness :
  fails_with
    (fst (process_company_info 0 0 0 0 "beef" true acme "a@x.com" submitted_session))
    BadRequest
  ∧ fails_with
      (fst (process_company_info 0 0 0 0 "beef" true acme "b@x.com" submitted_session))
      BadRequest.
Proof.
  split.
  - refine (proj1 (proj2 (process_company_info_requires_verified_email
              submitted_session 0 0 0 0 "beef" true acme "a@x.com")
              (upserted None (PersonalInfo_model_dump info_a) (minutes 4))
              ltac:(vm_compute; reflexivity) ltac:(vm_compute; reflexivity) _)).
    vm_compute. discriminate.
  - refine (proj1 (proj1 (process_company_info_requires_verified_email
              submitted_session 0 0 0 0 "beef" true acme "b@x.com") _)).
    intros p Hp. vm_compute in Hp. discriminate.
Defined.

(** X10.  With a live record in status [email_verified] and no live code
    for the company's contact address, [process_company_info] stores the
    company information and a four-minute code under the contact address
    before it sends the email, and does so whatever the role of the record:
    a record that is already [admin] gets its verified company information
    replaced and stays [admin].  When the email cannot be sent the call
    fails with ServerError and both writes remain. *)
Theorem process_company_info_stores_before_sending
    (db : Session) (now_pending now_check now_expiry now_store : Z)
    (token : string) (smtp_accepts : bool) (company_info : CompanyInfo)
    (user_email : string) (p : PendingRegistrationDB) :
  pending_registration db !! lower user_email = Some p →
  (now_pending < pr_expires_at p)%Z →
  status_tag p = JStr "email_verified" →
  (∀ entry,
     verification_code db !! lower (ci_companyContactEmail company_info)
     = Some entry → ¬ (now_check < vc_expires_at entry)%Z) →
  let outcome :=
    process_company_info now_pending now_check now_expiry now_store token
      smtp_accepts company_info user_email db in
  (if smtp_accepts then ∃ msg, fst outcome = Return msg
   else fails_with (fst outcome) ServerError)
  ∧ (∃ p', pending_registration (snd outcome) !! lower user_email = Some p'
           ∧ pr_company_info_json p' = Some (CompanyInfo_model_dump company_info)
           ∧ pr_role_assigned p' = pr_role_assigned p
           ∧ pr_personal_info_json p' = pr_personal_info_json p)
  ∧ verification_code (snd outcome) !! lower (ci_companyContactEmail company_info)
    = Some {| vc_code := token; vc_expires_at := (now_store + minutes 4)%Z |}.
Proof.
  intros Hl Hlt Hst Hcode. cbn zeta.
  rewrite (process_company_info_eq _ _ _ _ _ _ _ _ _ p Hl Hlt Hst Hcode).
  cbn [fst snd with_pending with_codes pending_registration verification_code].
  rewrite !lookup_insert_eq. split; [|split].
  - destruct smtp_accepts; cbn; eauto.
  - eexists. split; [reflexivity|]. cbn. auto.
  - reflexivity.
Qed.

Lemma process_company_info_stores_before_sending_witness :
  fails_with
    (fst (process_company_info 0 0 0 0 "beef" false acme "a@x.com" admin_session))
    ServerError
  ∧ verification_code
      (snd (process_company_info 0 0 0 0 "beef" false acme "a@x.com" admin_session))
      !! "b@x.com"
    = Some {| vc_code := "beef"; vc_expires_at := minutes 4 |}.
Proof.
  pose proof (process_company_info_stores_before_sending admin_session 0 0 0 0
                "beef" false acme "a@x.com" verified_admin
                ltac:(vm_compute; reflexivity) ltac:(vm_compute; reflexivity)
                ltac:(vm_compute; reflexivity)
                ltac:(intros e He; vm_compute in He; discriminate)) as H.
  cbn zeta in H. exact (conj (proj1 H) (proj2 (proj2 H))).
Defined.

Lemma process_personal_info_dispatch_eq
    (db : Session) (now_check now_expiry now_store : Z) (token : string)
    (smtp_accepts : bool) (info : PersonalInfo) :
  no_durable_duplicate db info →
  (∀ entry, verification_code db !! lower (pi_userEmail info) = Some entry →
            ¬ (now_check < vc_expires_at entry)%Z) →
  process_personal_info now_check now_expiry now_store token smtp_accepts info db
  = (if smtp_accepts
     then Return {| message := "Code envoyé à " +:+ pi_userEmail info;
                    expires_at := Some (now_expiry + minutes 4)%Z |}
     else Raise (HTTPException HTTP_500_INTERNAL_SERVER_ERROR
                   ("Erreur serveur : "
                    +:+ ("Échec de l'envoi de l'e-mail de vérification à "
                         +:+ pi_userEmail info))),
     with_pending
       (insert (lower (pi_userEmail info))
          (upserted (pending_registration db !! lower (pi_userEmail info))
             (PersonalInfo_model_dump info) (now_expiry + minutes 4)%Z))
       (with_codes
          (insert (lower (pi_userEmail info))
             {| vc_code := token; vc_expires_at := (now_store + minutes 4)%Z |})
          db)).
Proof.
  intros Hfree Hexp.
  rewrite (process_personal_info_past_duplicates _ _ _ _ _ _ _ Hfree).
  unfold try_except_reraising_http, bind at 1.
  rewrite (get_verification_code_expired _ _ _ Hexp).
  cbn [opt_str_truthy].
  unfold set_verification_code, add_pending_registration, send_email.
  py_simpl. cbn [pending_registration with_codes].
  destruct (pending_registration db !! lower (pi_userEmail info)) as [existing|];
    destruct smtp_accepts; reflexivity.
Qed.

(** X11.  When the verification email cannot be sent,
    [process_personal_info] fails with ServerError but keeps what it wrote:
    the code and the pending record are stored.  The same submission made
    again before the four minutes of that code have passed is therefore
    refused with RateLimited, although no code ever reached the user. *)
Theorem failed_dispatch_still_blocks_resubmission
    (db : Session) (now_check now_expiry now_store : Z) (token token' : string)
    (info : PersonalInfo) (retry_check retry_expiry retry_store : Z)
    (smtp_accepts' : bool) :
  no_durable_duplicate db info →
  (∀ entry, verification_code db !! lower (pi_userEmail info) = Some entry →
            ¬ (now_check < vc_expires_at entry)%Z) →
  token ≠ "" →
  (retry_check < now_store + minutes 4)%Z →
  let failed :=
    process_personal_info now_check now_expiry now_store token false info db in
  let retried :=
    process_personal_info retry_check retry_expiry retry_store token'
      smtp_accepts' info (snd failed) in
  fails_with (fst failed) ServerError
  ∧ verification_code (snd failed) !! lower (pi_userEmail info)
    = Some {| vc_code := token; vc_expires_at := (now_store + minutes 4)%Z |}
  ∧ (∃ p, pending_registration (snd failed) !! lower (pi_userEmail info) = Some p
          ∧ pr_personal_info_json p = Some (PersonalInfo_model_dump info))
  ∧ fails_with (fst retried) RateLimited
  ∧ snd retried = snd failed.
Proof.
  intros Hfree Hexp Htoken Hretry. cbn zeta.
  rewrite (process_personal_info_dispatch_eq db now_check now_expiry now_store
             token false info Hfree Hexp).
  cbn [fst snd]. split; [reflexivity|]. split.
  { cbn [with_pending with_codes verification_code]. apply lookup_insert_eq. }
  split.
  { cbn [with_pending with_codes pending_registration].
    rewrite lookup_insert_eq. eexists. split; reflexivity. }
  erewrite process_personal_info_rate_limited.
  - cbn. split; reflexivity.
  - intros e Hin. exact (Hfree e Hin).
  - cbn [with_pending with_codes verification_code]. apply lookup_insert_eq.
  - exact Hretry.
  - exact Htoken.
Qed.

Lemma failed_dispatch_still_blocks_resubmission_witness :
  fails_with (fst (process_personal_info 0 0 0 "a1b2c3" false info_a empty_session))
    ServerError
  ∧ fails_with
      (fst (process_personal_info 1 1 1 "d4e5f6" true info_a
              (snd (process_personal_info 0 0 0 "a1b2c3" false info_a
                      empty_session))))
      RateLimited.
Proof.
  pose proof (failed_dispatch_still_blocks_resubmission empty_session 0 0 0
                "a1b2c3" "d4e5f6" info_a 1 1 1 true
                ltac:(intros e Hin; destruct Hin)
                ltac:(intros e He; vm_compute in He; discriminate)
                ltac:(discriminate) ltac:(vm_compute; reflexivity)) as H.
  cbn zeta in H. exact (conj (proj1 H) (proj1 (proj2 (proj2 (proj2 H))))).
Defined.

Lemma dict_truthy_lookup (d : dict) (k : string) (v : jval) :
  d !! k = Some v → dict_truthy d = true.
Proof.
  intros Hk. unfold dict_truthy. rewrite bool_decide_eq_false_2; [reflexivity|].
  intros ->. rewrite lookup_empty in Hk. discriminate.
Qed.

Lemma verify_company_email_eq (db : Session) (now_pending now_code : Z)
    (cv : CompanyVerification) (p : PendingRegistrationDB) (ci : dict)
    (company_email : string) (entry : VerificationCodeDB) :
  pending_registration db !! lower (cv_userEmail cv) = Some p →
  (now_pending < pr_expires_at p)%Z →
  pr_company_info_json p = Some ci →
  ci !! "companyContactEmail" = Some (JStr company_email) →
  verification_code db !! lower company_email = Some entry →
  (now_code < vc_expires_at entry)%Z →
  vc_code entry = cv_companyCode cv →
  cv_companyCode cv ≠ "" →
  verify_company_email now_pending now_code cv db
  = (Return {| message := "Entreprise vérifiée, veuillez finaliser inscription.";
               expires_at := Some (pr_expires_at p) |},
     with_pending
       (insert (lower (cv_userEmail cv))
          (set_field (key_role_assigned "admin") p))
       (with_codes (delete (lower company_email)) db)).
Proof.
  intros Hl Hlt Hci Hmail Hcode Hlive Heq Hne.
  unfold verify_company_email, bind at 1.
  rewrite get_pending_registration_eq, Hl.
  apply Z.ltb_lt in Hlt. rewrite Hlt. rewrite Hci.
  rewrite (dict_truthy_lookup _ _ _ Hmail).
  unfold dict_get. rewrite Hmail.
  unfold bind at 1.
  rewrite (get_verification_code_unexpired _ _ _ _ Hcode Hlive), Heq.
  destruct (cv_companyCode cv) as [|c s] eqn:Hc; [congruence|].
  cbn [opt_str_truthy str_truthy negb].
  rewrite bool_decide_eq_true_2 by reflexivity. cbn [negb].
  unfold bind at 1. unfold delete_verification_code at 1, modify at 1.
  unfold bind at 1. rewrite update_pending_registration_eq.
  cbn [with_codes pending_registration]. rewrite Hl. reflexivity.
Qed.

(** X12.  [verify_company_email] with the code stored for the contact
    address of the record's company information makes the record [admin],
    consumes that code and leaves the rest of the record as it was; for a
    record that holds a personal information whose status is not the
    fingerprint marker, [get_pending_state] reports [final] from then on
    until the record expires. *)
Theorem verify_company_email_makes_admin
    (db : Session) (now_pending now_code : Z)
    (cv : CompanyVerification) (p : PendingRegistrationDB) (ci d : dict)
    (company_email : string) (entry : VerificationCodeDB) :
  pending_registration db !! lower (cv_userEmail cv) = Some p →
  (now_pending < pr_expires_at p)%Z →
  pr_company_info_json p = Some ci →
  ci !! "companyContactEmail" = Some (JStr company_email) →
  verification_code db !! lower company_email = Some entry →
  (now_code < vc_expires_at entry)%Z →
  vc_code entry = cv_companyCode cv →
  cv_companyCode cv ≠ "" →
  pr_personal_info_json p = Some d →
  dict_get d "status" ≠ JStr "pending_fingerprint_validation" →
  let outcome := verify_company_email now_pending now_code cv db in
  (∃ msg, fst outcome = Return msg)
  ∧ (∃ p', pending_registration (snd outcome) !! lower (cv_userEmail cv) = Some p'
           ∧ pr_role_assigned p' = Some "admin"
           ∧ pr_personal_info_json p' = pr_personal_info_json p
           ∧ pr_company_info_json p' = pr_company_info_json p
           ∧ pr_expires_at p' = pr_expires_at p)
  ∧ (∀ t, fst (get_verification_code t company_email (snd outcome)) = Return None)
  ∧ (∀ t, (t < pr_expires_at p)%Z →
          ∃ st, fst (get_pending_state t (cv_userEmail cv) (snd outcome)) = Return st
                ∧ ps_step st = "final").
Proof.
  intros Hl Hlt Hci Hmail Hcode Hlive Heq Hne Hd Hst. cbn zeta.
  rewrite (verify_company_email_eq db now_pending now_code cv p ci company_email
             entry Hl Hlt Hci Hmail Hcode Hlive Heq Hne).
  cbn [fst snd]. split; [eauto|]. split; [|split].
  - eexists. cbn [with_pending pending_registration]. rewrite lookup_insert_eq.
    split; [reflexivity|]. cbn. auto.
  - intros t. rewrite get_verification_code_eq.
    cbn [fst with_pending with_codes verification_code].
    rewrite lookup_delete_eq. reflexivity.
  - intros t Ht.
    rewrite (get_pending_state_present _ t (cv_userEmail cv)
               (set_field (key_role_assigned "admin") p) d).
    + cbn [fst]. eexists. split; [reflexivity|]. cbn [ps_step].
      unfold step_by_priority, status_tag. cbn [set_field pr_personal_info_json
        pr_role_assigned]. rewrite Hd. unfold jval_is at 1.
      rewrite bool_decide_eq_false_2 by exact Hst.
      rewrite bool_decide_eq_true_2 by reflexivity. reflexivity.
    + cbn [with_pending pending_registration]. apply lookup_insert_eq.
    + exact Ht.
    + exact Hd.
Qed.

Lemma verify_company_email_makes_admin_witness :
  ∃ st, fst (get_pending_state 160000000 "a@x.com" company_verified_session)
        = Return st ∧ ps_step st = "final".
Proof.
  refine (proj2 (proj2 (proj2 (verify_company_email_makes_admin
            company_submitted_session 150000000 150000000
            {| cv_userEmail := "a@x.com"; cv_companyCode := "beef" |}
            (set_field (key_company_info (CompanyInfo_model_dump acme))
               (set_field (key_personal_info
                             (verified_info (upserted None
                                (PersonalInfo_model_dump info_a) (minutes 4))))
                  (upserted None (PersonalInfo_model_dump info_a) (minutes 4))))
            (CompanyInfo_model_dump acme)
            (verified_info (upserted None (PersonalInfo_model_dump info_a)
                              (minutes 4)))
            "b@x.com"
            {| vc_code := "beef"; vc_expires_at := 120000000 + minutes 4 |}
            _ _ _ _ _ _ _ _ _ _))) 160000000%Z _);
    try (vm_compute; reflexivity); try (vm_compute; discriminate).
Defined.

End StepFacts.

(* --------------------------------------------------------------------- *)
(** ** Completion, fingerprint validation and stale records                *)
(* --------------------------------------------------------------------- *)

Module CompletionFacts.

Import RepositoryFacts RegistrationFacts StoreFacts StepFacts.

Section CompleteFingerprintValidation.

Variables (db : Session) (now : Z) (user_email : string).

Local Abbreviation outcome := (complete_fingerprint_validation now user_email db).

Lemma complete_fingerprint_validation_absent :
  (∀ p, pending_registration db !! lower user_email = Some p →
        ¬ (now < pr_expires_at p)%Z) →
  outcome = (Raise (HTTPException HTTP_400_BAD_REQUEST "Inscription introuvable"), db).
Proof.
  intros Habs. unfold complete_fingerprint_validation, bind at 1.
  rewrite get_pending_registration_eq.
  destruct (pending_registration db !! lower user_email) as [p|] eqn:Hl;
    [|reflexivity].
  destruct (now <? pr_expires_at p)%Z eqn:Hlt; [|reflexivity].
  apply Z.ltb_lt in Hlt. exfalso. exact (Habs p eq_refl Hlt).
Qed.

Lemma complete_fingerprint_validation_present (p : PendingRegistrationDB) (d : dict) :
  pending_registration db !! lower user_email = Some p →
  (now < pr_expires_at p)%Z →
  pr_personal_info_json p = Some d →
  outcome =
  if jval_is (dict_get d "status") "pending_fingerprint_validation"
  then (Return tt, with_pending (delete (lower user_email)) db)
  else (Raise (HTTPException HTTP_400_BAD_REQUEST
                 "Validation empreinte en attente absente"), db).
Proof.
  intros Hl Hlt Hd. unfold complete_fingerprint_validation, bind at 1.
  rewrite get_pending_registration_eq, Hl.
  apply Z.ltb_lt in Hlt. rewrite Hlt, Hd.
  unfold status_or_fail. py_simpl.
  destruct (jval_is (dict_get d "status") "pending_fingerprint_validation");
    reflexivity.
Qed.

End CompleteFingerprintValidation.

(** X13.  [complete_fingerprint_validation] deletes the pending record
    exactly when it is live and carries the fingerprint marker; after that
    [get_pending_state] fails with BadRequest at any time.  With a live
    record in any other status, or with no live record, it fails with
    BadRequest and deletes nothing. *)
Theorem complete_fingerprint_validation_needs_marker
    (db : Session) (now : Z) (user_email : string) :
  let outcome := complete_fingerprint_validation now user_email db in
  (∀ p d, pending_registration db !! lower user_email = Some p →
          (now < pr_expires_at p)%Z →
          pr_personal_info_json p = Some d →
          dict_get d "status" = JStr "pending_fingerprint_validation" →
          fst outcome = Return tt
          ∧ pending_registration (snd outcome) !! lower user_email = None
          ∧ verification_code (snd outcome) = verification_code db
          ∧ ∀ t, fails_with (fst (get_pending_state t user_email (snd outcome)))
                   BadRequest)
  ∧ (∀ p d, pending_registration db !! lower user_email = Some p →
            (now < pr_expires_at p)%Z →
            pr_personal_info_json p = Some d →
            dict_get d "status" ≠ JStr "pending_fingerprint_validation" →
            fails_with (fst outcome) BadRequest ∧ snd outcome = db)
  ∧ ((∀ p, pending_registration db !! lower user_email = Some p →
           ¬ (now < pr_expires_at p)%Z) →
     fails_with (fst outcome) BadRequest ∧ snd outcome = db).
Proof.
  cbn zeta. split; [|split].
  - intros p d Hl Hlt Hd Hst.
    rewrite (complete_fingerprint_validation_present db now user_email p d Hl Hlt Hd).
    unfold jval_is. rewrite bool_decide_eq_true_2 by exact Hst.
    cbn [fst snd with_pending pending_registration verification_code].
    rewrite lookup_delete_eq. repeat split.
    intros t. rewrite get_pending_state_absent.
    + cbn. reflexivity.
    + intros q Hq. cbn [with_pending pending_registration] in Hq.
      rewrite lookup_delete_eq in Hq. discriminate.
  - intros p d Hl Hlt Hd Hst.
    rewrite (complete_fingerprint_validation_present db now user_email p d Hl Hlt Hd).
    unfold jval_is. rewrite bool_decide_eq_false_2 by exact Hst.
    cbn. split; reflexivity.
  - intros Habs. rewrite complete_fingerprint_validation_absent by exact Habs.
    cbn. split; reflexivity.
Qed.

Lemma complete_fingerprint_validation_needs_marker_witness :
  fst (complete_fingerprint_validation 199 "A@x.com" one_code_session) = Return tt
  ∧ fails_with (fst (complete_fingerprint_validation 0 "a@x.com" submitted_session))
      BadRequest
  ∧ fails_with (fst (complete_fingerprint_validation 200 "a@x.com" one_code_session))
      BadRequest.
Proof.
  split; [|split].
  - exact (proj1 (proj1 (complete_fingerprint_validation_needs_marker
             one_code_session 199 "A@x.com") (marker 200)
             (<["status" := JStr "pending_fingerprint_validation"]> ∅)
             ltac:(vm_compute; reflexivity) ltac:(vm_compute; reflexivity)
             eq_refl ltac:(vm_compute; reflexivity))).
  - exact (proj1 (proj1 (proj2 (complete_fingerprint_validation_needs_marker
             submitted_session 0 "a@x.com"))
             (upserted None (PersonalInfo_model_dump info_a) (minutes 4))
             (PersonalInfo_model_dump info_a)
             ltac:(vm_compute; reflexivity) ltac:(vm_compute; reflexivity)
             eq_refl ltac:(vm_compute; discriminate))).
  - refine (proj1 (proj2 (proj2 (complete_fingerprint_validation_needs_marker
             one_code_session 200 "a@x.com")) _)).
    intros p Hp. vm_compute in Hp. inversion Hp; subst. cbn. lia.
Defined.

Ltac unfold_completion :=
  unfold complete_registration, get_pending_registration, get_groupe_by_id,
    EntrepriseService.create_entreprise, PosteService.create_poste,
    delete_pending_registration, add_pending_registration,
    EmployeResponse_model_validate.

Ltac py_walk :=
  repeat (py_simpl;
          cbn [pending_registration with_pending add_entreprise add_poste
               employe groupe verification_code
               fst snd negb orb andb] in *;
          rewrite ?lookup_delete_eq in *;
          try py_branch).

(** X14.  [complete_registration] never returns a response and never adds
    an employee: whatever the request and the database, the call ends in an
    exception, and the tables of employees, of groups and of verification
    codes are after the call what they were before. *)
Theorem complete_registration_creates_no_employee
    (now_pending now_done : Z) (registration_data : FinalRegistrationData)
    (db : Session) :
  let outcome := complete_registration now_pending now_done registration_data db in
  (∃ e, fst outcome = Raise e)
  ∧ employe (snd outcome) = employe db
  ∧ groupe (snd outcome) = groupe db
  ∧ verification_code (snd outcome) = verification_code db.
Proof.
  cbn zeta. split; [|split; [|split]].
  - pose proof (complete_registration_never_returns now_pending now_done
                  registration_data db) as Hnever.
    destruct (fst (complete_registration now_pending now_done registration_data db))
      as [r|e]; [exfalso; exact (Hnever r eq_refl)|eauto].
  - unfold_completion. py_walk; reflexivity.
  - unfold_completion. py_walk; reflexivity.
  - unfold_completion. py_walk; reflexivity.
Qed.

(** X15.  A call of [complete_registration] that is refused with BadRequest
    or NotFound, or that stops on the missing [PosteService] method, has
    written nothing: the session is unchanged. *)
Theorem complete_registration_refusals_write_nothing
    (now_pending now_done : Z) (registration_data : FinalRegistrationData)
    (db : Session) :
  let outcome := complete_registration now_pending now_done registration_data db in
  (fails_with (fst outcome) BadRequest
   ∨ fails_with (fst outcome) NotFound
   ∨ ∃ msg, fst outcome = Raise (AttributeError msg)) →
  snd outcome = db.
Proof.
  cbn zeta. unfold_completion.
  py_walk; cbn; try reflexivity;
    intros [H|[H|[msg H]]]; try contradiction; try discriminate H;
    try reflexivity.
Qed.

Lemma complete_registration_refusals_write_nothing_witness :
  snd (complete_registration 0 0 acme_registration submitted_session)
  = submitted_session.
Proof.
  apply (complete_registration_refusals_write_nothing 0 0 acme_registration
           submitted_session).
  left. vm_compute. reflexivity.
Defined.

Lemma model_dump_has_no_status (info : PersonalInfo) :
  dict_get (PersonalInfo_model_dump info) "status" = JNone.
Proof.
  unfold dict_get, PersonalInfo_model_dump.
  rewrite !lookup_insert_ne by discriminate. rewrite lookup_empty. reflexivity.
Qed.

(** X16.  A submission made over a row that was never swept inherits it:
    [add_pending_registration] does not look at the expiry of the row it
    finds, so the new record keeps the role and the company information of
    the old one, however long ago that one expired.  When the old role is
    [admin], [get_pending_state] reports [final] right after the submission,
    before any email has been verified.  Once the sweep has removed the old
    row, the same submission starts from the role [employee] and no company
    information. *)
Theorem resubmission_inherits_unswept_record
    (db : Session) (now_check now_expiry now_store : Z) (token : string)
    (info : PersonalInfo) (old : PendingRegistrationDB) (t now_sweep : Z) :
  no_durable_duplicate db info →
  (∀ entry, verification_code db !! lower (pi_userEmail info) = Some entry →
            ¬ (now_check < vc_expires_at entry)%Z) →
  pending_registration db !! lower (pi_userEmail info) = Some old →
  let submit := process_personal_info now_check now_expiry now_store token true info in
  (∃ p, pending_registration (snd (submit db)) !! lower (pi_userEmail info) = Some p
        ∧ pr_role_assigned p = pr_role_assigned old
        ∧ pr_company_info_json p = pr_company_info_json old
        ∧ pr_personal_info_json p = Some (PersonalInfo_model_dump info)
        ∧ pr_expires_at p = (now_expiry + minutes 4)%Z)
  ∧ (pr_role_assigned old = Some "admin" →
     (t < now_expiry + minutes 4)%Z →
     ∃ st, fst (get_pending_state t (pi_userEmail info) (snd (submit db))) = Return st
           ∧ ps_step st = "final")
  ∧ ((pr_expires_at old < now_sweep)%Z →
     ∃ p, pending_registration
            (snd (submit (snd (cleanup_expired_entries now_sweep db))))
            !! lower (pi_userEmail info) = Some p
          ∧ pr_role_assigned p = Some "employee"
          ∧ pr_company_info_json p = None).
Proof.
  intros Hfree Hexp Hold. cbn zeta.
  rewrite (process_personal_info_succeeds_eq db now_check now_expiry now_store
             token true info Hfree Hexp eq_refl).
  cbn [snd]. rewrite Hold. split; [|split].
  - eexists. cbn [with_pending pending_registration]. rewrite lookup_insert_eq.
    split; [reflexivity|]. cbn. auto.
  - intros Hadmin Ht.
    rewrite (get_pending_state_present _ t (pi_userEmail info)
               (upserted (Some old) (PersonalInfo_model_dump info)
                  (now_expiry + minutes 4)%Z)
               (PersonalInfo_model_dump info)).
    + cbn [fst]. eexists. split; [reflexivity|]. cbn [ps_step].
      unfold step_by_priority, status_tag.
      cbn [upserted pr_personal_info_json pr_role_assigned].
      rewrite model_dump_has_no_status, Hadmin. reflexivity.
    + cbn [with_pending pending_registration]. apply lookup_insert_eq.
    + exact Ht.
    + reflexivity.
  - intros Hswept.
    assert (Hgone : pending_registration (snd (cleanup_expired_entries now_sweep db))
                    !! lower (pi_userEmail info) = None).
    { rewrite cleanup_keeps_pending, Hold.
      apply Z.ltb_lt in Hswept. rewrite Hswept. reflexivity. }
    rewrite (process_personal_info_succeeds_eq _ now_check now_expiry now_store
               token true info).
    + cbn [snd]. rewrite Hgone. eexists.
      cbn [with_pending pending_registration]. rewrite lookup_insert_eq.
      split; [reflexivity|]. cbn. auto.
    + exact Hfree.
    + intros entry He. rewrite cleanup_keeps_code in He.
      destruct (verification_code db !! lower (pi_userEmail info)) as [e|] eqn:Hl;
        [|discriminate].
      destruct (vc_expires_at e <? now_sweep)%Z; [discriminate|].
      inversion He; subst. exact (Hexp entry eq_refl).
    + reflexivity.
Qed.

Lemma resubmission_inherits_unswept_record_witness :
  ∃ st, fst (get_pending_state 1000 "A@x.com"
               (snd (process_personal_info 600 600 600 "a1b2c3" true info_a
                       admin_session))) = Return st
        ∧ ps_step st = "final".
Proof.
  exact (proj1 (proj2 (resubmission_inherits_unswept_record admin_session
           600 600 600 "a1b2c3" info_a verified_admin 1000 501
           ltac:(intros e Hin; destruct Hin)
           ltac:(intros e He; vm_compute in He; discriminate)
           ltac:(vm_compute; reflexivity)))
           eq_refl ltac:(vm_compute; reflexivity)).
Defined.

End CompletionFacts.

(* --------------------------------------------------------------------- *)
(** ** The collaborators of the completion step                            *)
(* --------------------------------------------------------------------- *)

Module CollaboratorFacts.

Import RepositoryFacts RegistrationFacts.

Lemma find_by_name_None {A} (name_of : A → string) (nom : string) (l : list A) :
  (∀ x, In x l → name_of x ≠ nom) →
  find (fun x => String.eqb (name_of x) nom) l = None.
Proof.
  intros H. destruct (find _ l) as [x|] eqn:Hf; [|reflexivity].
  apply find_some in Hf as [Hin Heq]. apply String.eqb_eq in Heq.
  exfalso. exact (H x Hin Heq).
Qed.

Section CreateEntreprise.

Variables (db : Session) (nom : string) (adresse contact_email : option string).

Lemma create_entreprise_forbidden (role : string) :
  role ≠ "admin" →
  EntrepriseService.create_entreprise nom adresse contact_email role db
  = (Raise (HTTPException HTTP_403_FORBIDDEN
              "Seul un admin peut créer une entreprise."), db).
Proof.
  intros Hrole. unfold EntrepriseService.create_entreprise.
  apply String.eqb_neq in Hrole. rewrite Hrole. reflexivity.
Qed.

Lemma create_entreprise_duplicate :
  (∃ e, In e (entreprise db) ∧ ent_nom e = nom) →
  ∃ detail,
    EntrepriseService.create_entreprise nom adresse contact_email "admin" db
    = (Raise (HTTPException HTTP_409_CONFLICT detail), db).
Proof.
  intros (e & Hin & Heq). unfold EntrepriseService.create_entreprise.
  cbn [String.eqb Ascii.eqb Bool.eqb negb]. py_simpl.
  destruct (find_is_Some (fun x => String.eqb (ent_nom x) nom) _ e Hin
              ltac:(apply String.eqb_eq; exact Heq)) as [x ->].
  eexists. reflexivity.
Qed.

Lemma create_entreprise_fresh :
  (∀ e, In e (entreprise db) → ent_nom e ≠ nom) →
  EntrepriseService.create_entreprise nom adresse contact_email "admin" db
  = (let row := {| ent_idEntreprise := uuid_supply db; ent_nom := nom;
                   ent_adresse := adresse;
                   ent_contact_email :=
                     if opt_str_truthy contact_email
                     then lower <$> contact_email else None |} in
     (Return row, add_entreprise row db)).
Proof.
  intros Hfree. unfold EntrepriseService.create_entreprise.
  cbn [String.eqb Ascii.eqb Bool.eqb negb]. py_simpl.
  rewrite (find_by_name_None ent_nom nom _ Hfree). reflexivity.
Qed.

End CreateEntreprise.

(** X17.  [create_entreprise] is reserved to the role [admin] (anything
    else is refused with status 403 and nothing is written); it refuses
    with Conflict, writing nothing, a name that a company already bears,
    compared as written; otherwise it appends one company with that name
    and the contact address in lower case.  So it keeps the names of the
    companies pairwise distinct. *)
Theorem create_entreprise_keeps_names_unique
    (db : Session) (nom : string) (adresse contact_email : option string)
    (role : string) :
  let outcome :=
    EntrepriseService.create_entreprise nom adresse contact_email role db in
  (role ≠ "admin" →
   (∃ detail, fst outcome = Raise (HTTPException HTTP_403_FORBIDDEN detail))
   ∧ snd outcome = db)
  ∧ (role = "admin" → (∃ e, In e (entreprise db) ∧ ent_nom e = nom) →
     fails_with (fst outcome) Conflict ∧ snd outcome = db)
  ∧ (role = "admin" → (∀ e, In e (entreprise db) → ent_nom e ≠ nom) →
     ∃ row, fst outcome = Return row
            ∧ ent_nom row = nom
            ∧ ent_contact_email row
              = (if opt_str_truthy contact_email then lower <$> contact_email
                 else None)
            ∧ entreprise (snd outcome) = (entreprise db ++ [row])%list
            ∧ pending_registration (snd outcome) = pending_registration db)
  ∧ (NoDup (map ent_nom (entreprise db)) →
     NoDup (map ent_nom (entreprise (snd outcome)))).
Proof.
  cbn zeta. split; [|split; [|split]].
  - intros Hrole. rewrite create_entreprise_forbidden by exact Hrole.
    cbn. eauto.
  - intros -> Hdup.
    destruct (create_entreprise_duplicate db nom adresse contact_email Hdup)
      as [detail ->].
    cbn. split; reflexivity.
  - intros -> Hfree. rewrite create_entreprise_fresh by exact Hfree.
    cbn. eexists. repeat split.
  - intros Hnodup. destruct (decide (role = "admin")) as [->|Hrole].
    + destruct (find (fun x => String.eqb (ent_nom x) nom) (entreprise db))
        as [x|] eqn:Hfind.
      * apply find_some in Hfind as [Hin Heq]. apply String.eqb_eq in Heq.
        destruct (create_entreprise_duplicate db nom adresse contact_email
                    (ex_intro _ x (conj Hin Heq))) as [detail ->].
        exact Hnodup.
      * assert (Hfree : ∀ e, In e (entreprise db) → ent_nom e ≠ nom).
        { intros e Hin Heq. pose proof (find_none _ _ Hfind e Hin) as Hf.
          cbn beta in Hf. apply String.eqb_neq in Hf. contradiction. }
        rewrite create_entreprise_fresh by exact Hfree.
        cbn [snd add_entreprise entreprise]. rewrite map_app. cbn [map].
        apply NoDup_app. split; [exact Hnodup|]. split; [|apply NoDup_singleton].
        intros name Hname Hname'. apply list_elem_of_singleton in Hname'.
        subst name. apply list_elem_of_In, in_map_iff in Hname
          as (e & Heq & Hin). exact (Hfree e Hin Heq).
    + rewrite create_entreprise_forbidden by exact Hrole. exact Hnodup.
Qed.

Lemma create_entreprise_keeps_names_unique_witness :
  (∃ row, fst (EntrepriseService.create_entreprise "Acme" None (Some "B@X.com")
                 "admin" empty_session) = Return row
          ∧ ent_contact_email row = Some "b@x.com")
  ∧ fails_with
      (fst (EntrepriseService.create_entreprise "Acme" None None "admin"
              (snd (EntrepriseService.create_entreprise "Acme" None
                      (Some "B@X.com") "admin" empty_session))))
      Conflict.
Proof.
  split.
  - destruct (proj1 (proj2 (proj2 (create_entreprise_keeps_names_unique
                empty_session "Acme" None (Some "B@X.com") "admin")))
                eq_refl ltac:(intros e Hin; destruct Hin))
      as (row & Hrow & _ & Hmail & _).
    exists row. split; [exact Hrow|]. rewrite Hmail. reflexivity.
  - refine (proj1 (proj1 (proj2 (create_entreprise_keeps_names_unique
              (snd (EntrepriseService.create_entreprise "Acme" None
                      (Some "B@X.com") "admin" empty_session))
              "Acme" None None "admin")) eq_refl _)).
    eexists. split; [left; reflexivity|reflexivity].
Defined.




End CollaboratorFacts.

(* --------------------------------------------------------------------- *)
(** ** More on the connection registry                                     *)
(* --------------------------------------------------------------------- *)

Module RegistryFacts.

Import FanOutFacts.

Lemma no_empty_channel_disconnect (c : string) (ws : WebSocket)
    (ac : gmap string (list WebSocket)) :
  no_empty_channel ac → no_empty_channel (disconnect_map c ws ac).
Proof.
  intros Hne. unfold disconnect_map.
  destruct (ac !! c) as [l|] eqn:Hl; [|exact Hne].
  destruct (bool_decide (ws ∈ l)); [|exact Hne].
  destruct (list_remove ws l) as [|w l0] eqn:Hr; intros k l' Hl'.
  - apply lookup_delete_Some in Hl' as [_ Hl']. exact (Hne k l' Hl').
  - destruct (decide (c = k)) as [<-|Hck].
    + rewrite lookup_insert_eq in Hl'. inversion Hl'. discriminate.
    + rewrite lookup_insert_ne in Hl' by exact Hck. exact (Hne k l' Hl').
Qed.

Lemma no_empty_channel_fold (c : string) (ds : list WebSocket) :
  ∀ ac, no_empty_channel ac →
        no_empty_channel (fold_left (fun ac ws => disconnect_map c ws ac) ds ac).
Proof.
  induction ds as [|ws ds IH]; intros ac Hne; [exact Hne|].
  cbn [fold_left]. apply IH, no_empty_channel_disconnect, Hne.
Qed.

Lemma no_empty_channel_connect (c : string) (ws : WebSocket)
    (ac : gmap string (list WebSocket)) :
  no_empty_channel ac → no_empty_channel (connect_map c ws ac).
Proof.
  intros Hne k l Hl. unfold connect_map in Hl.
  destruct (decide (c = k)) as [<-|Hck].
  - rewrite lookup_insert_eq in Hl. inversion Hl.
    destruct (default [] (ac !! c)); discriminate.
  - rewrite lookup_insert_ne in Hl by exact Hck. exact (Hne k l Hl).
Qed.

Lemma no_empty_channel_step (c : call) (self : NotificationManager) :
  no_empty_channel (active_connections self) →
  no_empty_channel (active_connections (step c self)).
Proof.
  intros Hne. destruct c as [[|] company_id ws|company_id ws|
                              delivers company_id event data]; cbn [step].
  - rewrite connect_eq. cbn [snd]. destruct self; cbn in *.
    apply no_empty_channel_connect, Hne.
  - rewrite connect_refused. exact Hne.
  - rewrite disconnect_eq. cbn [snd]. destruct self; cbn in *.
    apply no_empty_channel_disconnect, Hne.
  - rewrite send_to_company_eq. cbn [snd].
    destruct (active_connections self !! company_id); [|exact Hne].
    cbn [active_connections]. apply no_empty_channel_fold, Hne.
Qed.

Lemma no_empty_channel_init : no_empty_channel (active_connections __init__).
Proof. intros c l Hl. cbn in Hl. rewrite lookup_empty in Hl. discriminate. Qed.

Lemma no_empty_channel_three_connections :
  no_empty_channel (active_connections three_connections).
Proof.
  unfold three_connections. cbn [run fold_left].
  repeat apply no_empty_channel_step. exact no_empty_channel_init.
Qed.

(** X19.  The manager never keeps an empty channel: along every run of
    [connect], [disconnect] and [send_to_company] that starts from a
    manager without empty lists (a new manager is one), every company that
    is a key of the dictionary has at least one connection. *)
Theorem registry_has_no_empty_channel (calls : list call)
    (self : NotificationManager) :
  no_empty_channel (active_connections __init__)
  ∧ (no_empty_channel (active_connections self) →
     no_empty_channel (active_connections (run calls self))).
Proof.
  split; [exact no_empty_channel_init|].
  revert self. induction calls as [|c calls IH]; intros self Hne; [exact Hne|].
    cbn [run fold_left]. apply IH, no_empty_channel_step, Hne.
Qed.

Lemma registry_has_no_empty_channel_witness :
  no_empty_channel (active_connections (run session_of_calls __init__)).
Proof.
  exact (proj2 (registry_has_no_empty_channel session_of_calls __init__)
           (proj1 (registry_has_no_empty_channel [] __init__))).
Defined.

Lemma list_remove_appended (ws : WebSocket) (l : list WebSocket) :
  ws ∉ l → list_remove ws (l ++ [ws]) = l.
Proof.
  intros Hout. rewrite (list_remove_after_prefix ws l [] Hout).
  apply app_nil_r.
Qed.

(** X20.  Connecting a handle that is not in the company's list and then
    disconnecting it brings the manager back to where it was, provided the
    manager has no empty list: an entry created for the connection is
    removed with it, an existing entry gets its list back. *)
Theorem connect_then_disconnect_restores (self : NotificationManager)
    (company_id : string) (websocket : WebSocket) :
  no_empty_channel (active_connections self) →
  (∀ l, active_connections self !! company_id = Some l → websocket ∉ l) →
  run [call_connect true company_id websocket;
       call_disconnect company_id websocket] self = self.
Proof.
  intros Hne Hout. cbn [run fold_left step].
  rewrite connect_eq. cbn [snd]. rewrite disconnect_eq. cbn [snd].
  destruct self as [ac log]. unfold with_connections. cbn in *. f_equal.
  unfold connect_map, disconnect_map. rewrite lookup_insert_eq.
  rewrite bool_decide_eq_true_2
    by (apply elem_of_app; right; apply list_elem_of_singleton; reflexivity).
  destruct (ac !! company_id) as [l|] eqn:Hl; cbn [from_option id].
  - rewrite (list_remove_appended _ _ (Hout l eq_refl)).
    destruct l as [|w l0]; [exfalso; exact (Hne company_id [] Hl eq_refl)|].
    rewrite insert_insert_eq. apply insert_id. exact Hl.
  - cbn [app list_remove]. rewrite Nat.eqb_refl.
    rewrite delete_insert_eq. apply delete_id. exact Hl.
Qed.

Lemma connect_then_disconnect_restores_witness :
  run [call_connect true "c" 7; call_disconnect "c" 7] three_connections
  = three_connections
  ∧ run [call_connect true "z" 7; call_disconnect "z" 7] three_connections
    = three_connections.
Proof.
  pose proof no_empty_channel_three_connections as Hne.
  split.
  - apply (connect_then_disconnect_restores three_connections "c" 7 Hne).
    intros l Hl. vm_compute in Hl. inversion Hl; subst.
    intros Hin. apply elem_of_cons in Hin as [Hin|Hin]; [discriminate|].
    apply elem_of_cons in Hin as [Hin|Hin]; [discriminate|]. inversion Hin.
  - apply (connect_then_disconnect_restores three_connections "z" 7 Hne).
    intros l Hl. vm_compute in Hl. discriminate.
Defined.

Lemma list_remove_NoDup_gone (ws : WebSocket) (l : list WebSocket) :
  NoDup l → ws ∉ list_remove ws l.
Proof.
  induction l as [|y l IH]; intros Hnd; cbn; [apply not_elem_of_nil|].
  apply NoDup_cons in Hnd as [Hy Hnd].
  destruct (Nat.eqb_spec ws y) as [->|Hne]; [exact Hy|].
  intros Hin. apply elem_of_cons in Hin as [Hin|Hin]; [contradiction|].
  exact (IH Hnd Hin).
Qed.

Lemma frames_handles (event : string) (data : pyobj) (l : list WebSocket)
    (ws : WebSocket) (text : json) :
  (ws, text) ∈ frames event data l → ws ∈ l.
Proof.
  unfold frames. destruct (json_dumps (payload event data)) as [j|e].
  - intros Hin. apply list_elem_of_In, in_map_iff in Hin as (x & Heq & Hx).
    inversion Heq; subst. apply list_elem_of_In. exact Hx.
  - intros Hin. inversion Hin.
Qed.

(** What a pass leaves of the channel it was sent to. *)
Lemma send_to_company_channel (delivers : WebSocket → bool)
    (company_id event : string) (data : pyobj) (self : NotificationManager)
    (l : list WebSocket) :
  active_connections self !! company_id = Some l →
  active_connections (snd (send_to_company delivers company_id event data self))
    !! company_id
  = if forallb (delivered delivers event data) l then Some l
    else match List.filter (delivered delivers event data) l with
         | [] => None
         | remaining => Some remaining
         end.
Proof.
  intros Hl. rewrite send_to_company_eq, Hl. cbn [snd active_connections].
  pose proof (prune_rejected company_id (delivered delivers event data)
                (active_connections self) l []
                ltac:(intros ws Hws; inversion Hws)) as Hp.
  cbn [app] in Hp. rewrite (insert_id _ _ _ Hl) in Hp. rewrite Hp.
  destruct (forallb (delivered delivers event data) l) eqn:Hall.
  - apply filter_none_rejected_forallb in Hall. rewrite Hall. exact Hl.
  - destruct (List.filter (fun ws => negb (delivered delivers event data ws)) l)
      eqn:Hrej.
    { apply filter_none_rejected_forallb in Hrej. congruence. }
    destruct (List.filter (delivered delivers event data) l).
    { apply lookup_delete_eq. }
    { apply lookup_insert_eq. }
Qed.

Lemma send_to_company_new_frames (delivers : WebSocket → bool)
    (company_id event : string) (data : pyobj) (self : NotificationManager) :
  send_text_calls (snd (send_to_company delivers company_id event data self))
  = (send_text_calls self
     ++ match active_connections self !! company_id with
        | Some l => frames event data l
        | None => []
        end)%list.
Proof.
  rewrite send_to_company_eq. cbn [snd].
  destruct (active_connections self !! company_id); cbn [send_text_calls];
    [reflexivity|rewrite app_nil_r; reflexivity].
Qed.

(** X21.  A connection that has left a channel gets no more frames from
    it.  After [disconnect], for a list without repetition, and after a
    pass in which the attempt on the connection failed, for any list, a
    later [send_to_company] to the same channel makes no [send_text] call
    on that connection. *)
Theorem departed_connection_gets_no_frame
    (self : NotificationManager) (company_id : string) (websocket : WebSocket)
    (delivers delivers' : WebSocket → bool) (event event' : string)
    (data data' : pyobj) :
  ((∀ l, active_connections self !! company_id = Some l → NoDup l) →
   let after := snd (disconnect company_id websocket self) in
   ∃ new,
     send_text_calls (snd (send_to_company delivers' company_id event' data' after))
     = (send_text_calls after ++ new)%list
     ∧ ∀ text, (websocket, text) ∉ new)
  ∧ (delivered delivers event data websocket = false →
     let after := snd (send_to_company delivers company_id event data self) in
     ∃ new,
       send_text_calls (snd (send_to_company delivers' company_id event' data' after))
       = (send_text_calls after ++ new)%list
       ∧ ∀ text, (websocket, text) ∉ new).
Proof.
  split.
  - intros Hnd. cbn zeta. rewrite send_to_company_new_frames.
    eexists. split; [reflexivity|]. intros text Hin.
    rewrite disconnect_eq in Hin. cbn [snd] in Hin.
    destruct self as [ac log]. cbn [with_connections active_connections] in *.
    unfold disconnect_map in Hin.
    destruct (ac !! company_id) as [l|] eqn:Hl.
    + destruct (bool_decide (websocket ∈ l)) eqn:Hmem.
      * destruct (list_remove websocket l) as [|w l0] eqn:Hr.
        { rewrite lookup_delete_eq in Hin. inversion Hin. }
        { rewrite lookup_insert_eq in Hin. apply frames_handles in Hin.
          rewrite <- Hr in Hin.
          exact (list_remove_NoDup_gone websocket l (Hnd l eq_refl) Hin). }
      * rewrite Hl in Hin. apply frames_handles in Hin.
        apply bool_decide_eq_false_1 in Hmem. contradiction.
    + rewrite Hl in Hin. inversion Hin.
  - intros Hfail. cbn zeta. rewrite (send_to_company_new_frames delivers').
    eexists. split; [reflexivity|]. intros text Hin.
    destruct (active_connections self !! company_id) as [l|] eqn:Hl.
    + rewrite (send_to_company_channel delivers company_id event data self l Hl)
        in Hin.
      destruct (forallb (delivered delivers event data) l) eqn:Hall.
      * apply frames_handles in Hin.
        apply list_elem_of_In in Hin.
        rewrite forallb_forall in Hall. rewrite (Hall _ Hin) in Hfail.
        discriminate.
      * destruct (List.filter (delivered delivers event data) l) as [|w l0] eqn:Hf;
          [inversion Hin|].
        apply frames_handles in Hin. rewrite <- Hf in Hin.
        apply list_elem_of_In, filter_In in Hin as [_ Hok].
        rewrite Hok in Hfail. discriminate.
    + rewrite send_to_company_eq, Hl in Hin. cbn [snd] in Hin.
      rewrite Hl in Hin. inversion Hin.
Qed.

Lemma departed_connection_gets_no_frame_witness :
  (∃ new,
     send_text_calls
       (snd (send_to_company (fun _ => true) "c" "notification" notification
               (snd (disconnect "c" 1 three_connections))))
     = (send_text_calls (snd (disconnect "c" 1 three_connections)) ++ new)%list
     ∧ ∀ text, (1, text) ∉ new)
  ∧ (∃ new,
       send_text_calls
         (snd (send_to_company (fun _ => true) "c" "notification" notification
                 (snd (send_to_company (fun ws => negb (Nat.eqb ws 2)) "c"
                         "notification" notification three_connections))))
       = (send_text_calls
            (snd (send_to_company (fun ws => negb (Nat.eqb ws 2)) "c"
                    "notification" notification three_connections)) ++ new)%list
       ∧ ∀ text, (2, text) ∉ new).
Proof.
  split.
  - apply (proj1 (departed_connection_gets_no_frame three_connections "c" 1
                    (fun _ => true) (fun _ => true) "notification" "notification"
                    notification notification)).
    intros l Hl. vm_compute in Hl. inversion Hl; subst.
    repeat constructor; intros Hin;
      repeat (apply elem_of_cons in Hin as [Hin|Hin]; [discriminate|]);
      inversion Hin.
  - apply (proj2 (departed_connection_gets_no_frame three_connections "c" 2
                    (fun ws => negb (Nat.eqb ws 2)) (fun _ => true)
                    "notification" "notification" notification notification)).
    vm_compute. reflexivity.
Defined.





End RegistryFacts.

(* --------------------------------------------------------------------- *)
(** ** Publishing a notification to the two managers                       *)
(* --------------------------------------------------------------------- *)

Module NotificationFacts.

Import FanOutFacts RegistryFacts.

(** A pass whose payload does not serialise. *)
Lemma send_to_company_foreign (delivers : WebSocket → bool)
    (company_id event : string) (data : pyobj) (self : NotificationManager) :
  has_foreign_value data = true →
  no_empty_channel (active_connections self) →
  send_to_company delivers company_id event data self
  = (Return tt, with_connections (delete company_id) self).
Proof.
  intros Hf Hne. destruct (payload_unserializable event data Hf) as [e He].
  rewrite send_to_company_eq. f_equal. destruct self as [ac log].
  unfold with_connections. cbn [active_connections send_text_calls] in *.
  destruct (ac !! company_id) as [l|] eqn:Hl.
  - assert (Hdel : ∀ ws, delivered delivers event data ws = false)
      by (intros ws; unfold delivered; rewrite He; reflexivity).
    unfold frames. rewrite He, app_nil_r. f_equal.
    pose proof (prune_rejected company_id (delivered delivers event data)
                  ac l [] ltac:(intros ws Hws; inversion Hws)) as Hp.
    cbn [app] in Hp. rewrite (insert_id _ _ _ Hl) in Hp. rewrite Hp.
    destruct l as [|ws rest]; [exfalso; exact (Hne company_id [] Hl eq_refl)|].
    cbn [List.filter app]. rewrite Hdel. cbn [negb].
    rewrite (List.filter_ext _ (fun _ => false) Hdel), filter_all_rejected.
    reflexivity.
  - rewrite (delete_id _ _ Hl). reflexivity.
Qed.

(** A pass whose payload serialises: the frames it sends. *)
Lemma send_to_company_frames (delivers : WebSocket → bool)
    (company_id event : string) (data : pyobj) (self : NotificationManager)
    (text : json) :
  json_dumps (payload event data) = Return text →
  send_text_calls (snd (send_to_company delivers company_id event data self))
  = (send_text_calls self
     ++ map (fun ws => (ws, text))
          (default [] (active_connections self !! company_id)))%list.
Proof.
  intros Ht. rewrite send_to_company_eq. cbn [snd].
  destruct (active_connections self !! company_id) as [l|];
    cbn [send_text_calls from_option id].
  - unfold frames. rewrite Ht. reflexivity.
  - rewrite app_nil_r. reflexivity.
Qed.

Lemma send_notification_eq (delivers_web delivers_desktop : WebSocket → bool)
    (notif : Notification) (event_type : string) (ms : Managers) :
  EmployeService.send_notification delivers_web delivers_desktop notif
    event_type ms
  = (Return tt,
     if str_truthy (EmployeService.company_id_of notif) then
       {| web_notification_manager :=
            snd (send_to_company delivers_web
                   (EmployeService.company_id_of notif) event_type
                   (PyDict (Notification_model_dump notif))
                   (web_notification_manager ms));
          desktop_notification_manager :=
            snd (send_to_company delivers_desktop
                   (EmployeService.company_id_of notif) event_type
                   (PyDict (Notification_model_dump notif))
                   (desktop_notification_manager ms)) |}
     else ms).
Proof.
  unfold EmployeService.send_notification, EmployeService.try_except_logging.
  destruct (str_truthy (EmployeService.company_id_of notif)); cbn [negb];
    [|reflexivity].
  unfold bind, on_web, on_desktop. rewrite !send_to_company_eq.
  cbn [web_notification_manager desktop_notification_manager snd].
  reflexivity.
Qed.

Lemma model_dump_foreign_iff (notif : Notification) :
  has_foreign_value (PyDict (Notification_model_dump notif))
  = bool_decide (ntf_created_at notif ≠ None).
Proof.
  destruct notif as [i e [n|] [d|] [m|] [c|] [t|]]; reflexivity.
Qed.

Lemma two_managers_have_no_empty_channel :
  no_empty_channel (active_connections (web_notification_manager two_managers))
  ∧ no_empty_channel
      (active_connections (desktop_notification_manager two_managers)).
Proof.
  split; cbn [two_managers web_notification_manager desktop_notification_manager];
    unfold three_connections; cbn [run fold_left];
    repeat apply no_empty_channel_step; exact no_empty_channel_init.
Qed.

(** X23.  [EmployeService.send_notification] returns whatever happens to
    the sends, and a notification without [idEntreprise] is dropped: it
    touches neither manager. *)
Theorem send_notification_returns_and_needs_a_company
    (delivers_web delivers_desktop : WebSocket → bool)
    (notif : Notification) (event_type : string) (ms : Managers) :
  fst (EmployeService.send_notification delivers_web delivers_desktop notif
         event_type ms) = Return tt
  ∧ (ntf_idEntreprise notif = None →
     snd (EmployeService.send_notification delivers_web delivers_desktop notif
            event_type ms) = ms).
Proof.
  rewrite send_notification_eq. split; [reflexivity|].
  intros Hnone. unfold EmployeService.company_id_of. rewrite Hnone.
  reflexivity.
Qed.

Lemma send_notification_returns_and_needs_a_company_witness :
  EmployeService.send_notification (fun _ => true) (fun _ => false) orphan
    "NOTIFICATION_REMOVED" two_managers
  = (Return tt, two_managers).
Proof.
  pose proof (send_notification_returns_and_needs_a_company
                (fun _ => true) (fun _ => false) orphan "NOTIFICATION_REMOVED"
                two_managers) as [Hret Hsame].
  specialize (Hsame eq_refl).
  destruct (EmployeService.send_notification (fun _ => true) (fun _ => false)
              orphan "NOTIFICATION_REMOVED" two_managers) as [r ms].
  cbn [fst snd] in *. rewrite Hret, Hsame. reflexivity.
Defined.

(** X24.  A notification that carries its creation date cannot be
    serialised ([model_dump] keeps the [datetime]): publishing it sends no
    frame and removes the company's channel, with all its connections,
    from both managers. *)
Theorem send_notification_with_date_drops_both_channels
    (delivers_web delivers_desktop : WebSocket → bool)
    (notif : Notification) (event_type : string) (ms : Managers) (created : Z) :
  ntf_created_at notif = Some created →
  str_truthy (EmployeService.company_id_of notif) = true →
  no_empty_channel (active_connections (web_notification_manager ms)) →
  no_empty_channel (active_connections (desktop_notification_manager ms)) →
  EmployeService.send_notification delivers_web delivers_desktop notif
    event_type ms
  = (Return tt,
     {| web_notification_manager :=
          with_connections (delete (EmployeService.company_id_of notif))
            (web_notification_manager ms);
        desktop_notification_manager :=
          with_connections (delete (EmployeService.company_id_of notif))
            (desktop_notification_manager ms) |}).
Proof.
  intros Hdate Hc Hweb Hdesk. rewrite send_notification_eq, Hc.
  assert (Hf : has_foreign_value (PyDict (Notification_model_dump notif)) = true).
  { rewrite model_dump_foreign_iff, Hdate. reflexivity. }
  rewrite (send_to_company_foreign delivers_web _ _ _ _ Hf Hweb).
  rewrite (send_to_company_foreign delivers_desktop _ _ _ _ Hf Hdesk).
  reflexivity.
Qed.

Lemma send_notification_with_date_drops_both_channels_witness :
  EmployeService.send_notification (fun _ => true) (fun _ => true) hired_dated
    "EMPLOYE_CREATED" two_managers
  = (Return tt,
     {| web_notification_manager :=
          {| active_connections := {[ "d" := [3] ]}; send_text_calls := [] |};
        desktop_notification_manager := __init__ |}).
Proof.
  refine (eq_trans
            (send_notification_with_date_drops_both_channels
               (fun _ => true) (fun _ => true) hired_dated "EMPLOYE_CREATED"
               two_managers 10%Z eq_refl eq_refl
               (proj1 two_managers_have_no_empty_channel)
               (proj2 two_managers_have_no_empty_channel)) _).
  vm_compute. reflexivity.
Defined.

(** X25.  A notification without a creation date always serialises: every
    connection registered for the company, in each manager, is sent the
    same text once, in registration order, and nothing is sent elsewhere. *)
Theorem send_notification_without_date_reaches_every_subscriber
    (delivers_web delivers_desktop : WebSocket → bool)
    (notif : Notification) (event_type : string) (ms : Managers) :
  ntf_created_at notif = None →
  str_truthy (EmployeService.company_id_of notif) = true →
  ∃ text,
    json_dumps (payload event_type (PyDict (Notification_model_dump notif)))
    = Return text
    ∧ let after := snd (EmployeService.send_notification delivers_web
                          delivers_desktop notif event_type ms) in
      send_text_calls (web_notification_manager after)
      = (send_text_calls (web_notification_manager ms)
         ++ map (fun ws => (ws, text))
              (default [] (active_connections (web_notification_manager ms)
                             !! EmployeService.company_id_of notif)))%list
      ∧ send_text_calls (desktop_notification_manager after)
        = (send_text_calls (desktop_notification_manager ms)
           ++ map (fun ws => (ws, text))
                (default [] (active_connections (desktop_notification_manager ms)
                               !! EmployeService.company_id_of notif)))%list.
Proof.
  intros Hdate Hc.
  pose proof (json_dumps_raises_iff
                (payload event_type (PyDict (Notification_model_dump notif)))) as H.
  assert (Hf : has_foreign_value
                 (payload event_type (PyDict (Notification_model_dump notif)))
               = false).
  { unfold payload. cbn [has_foreign_value existsb snd orb].
    change (existsb _ (Notification_model_dump notif))
      with (has_foreign_value (PyDict (Notification_model_dump notif))).
    rewrite model_dump_foreign_iff, Hdate. reflexivity. }
  rewrite Hf in H. destruct H as [text Ht]. exists text. split; [exact Ht|].
  cbn zeta. rewrite send_notification_eq, Hc.
  cbn [snd web_notification_manager desktop_notification_manager].
  split; apply send_to_company_frames; exact Ht.
Qed.

Lemma send_notification_without_date_reaches_every_subscriber_witness :
  ∃ text,
    send_text_calls
      (web_notification_manager
         (snd (EmployeService.send_notification (fun _ => true) (fun _ => true)
                 hired "EMPLOYE_CREATED" two_managers)))
    = [(1, text); (2, text)]
    ∧ send_text_calls
        (desktop_notification_manager
           (snd (EmployeService.send_notification (fun _ => true) (fun _ => true)
                   hired "EMPLOYE_CREATED" two_managers)))
      = [(9, text)].
Proof.
  destruct (send_notification_without_date_reaches_every_subscriber
              (fun _ => true) (fun _ => true) hired "EMPLOYE_CREATED"
              two_managers eq_refl eq_refl) as (text & _ & Hweb & Hdesk).
  exists text. split; [exact Hweb|exact Hdesk].
Defined.

Lemma stamped_dump_serialises (now_iso : string) (notification : Notification) :
  has_foreign_value
    (payload "notification"
       (PyDict (dict_setitem "created_at" (PyStr now_iso)
                  (Notification_model_dump notification)))) = false.
Proof.
  destruct notification as [i e [n|] [d|] [m|] [c|] [t|]]; reflexivity.
Qed.

(** X26.  [POST /notify] replaces [created_at] by the ISO text of the
    current time, so its payload serialises whatever the request holds: the
    endpoint answers with its message, never with status 500, and every
    connection registered in either manager under the lowered text of
    [idEntreprise] is sent the same text once. *)
Theorem notify_always_serialises_and_answers (now_iso : string)
    (delivers_web delivers_desktop : WebSocket → bool)
    (notification : Notification) (ms : Managers) :
  ∃ text,
    json_dumps
      (payload "notification"
         (PyDict (dict_setitem "created_at" (PyStr now_iso)
                    (Notification_model_dump notification)))) = Return text
    ∧ let outcome := NotificationController.send_notification now_iso
                       delivers_web delivers_desktop notification ms in
      fst outcome = Return [("message", "Notification envoyée")]
      ∧ send_text_calls (web_notification_manager (snd outcome))
        = (send_text_calls (web_notification_manager ms)
           ++ map (fun ws => (ws, text))
                (default [] (active_connections (web_notification_manager ms)
                               !! NotificationController.company_id_of
                                    notification)))%list
      ∧ send_text_calls (desktop_notification_manager (snd outcome))
        = (send_text_calls (desktop_notification_manager ms)
           ++ map (fun ws => (ws, text))
                (default [] (active_connections (desktop_notification_manager ms)
                               !! NotificationController.company_id_of
                                    notification)))%list.
Proof.
  pose proof (json_dumps_raises_iff
                (payload "notification"
                   (PyDict (dict_setitem "created_at" (PyStr now_iso)
                              (Notification_model_dump notification))))) as H.
  rewrite stamped_dump_serialises in H. destruct H as [text Ht].
  exists text. split; [exact Ht|]. cbn zeta.
  unfold NotificationController.send_notification, bind, ret, on_web, on_desktop.
  pose proof (send_to_company_frames delivers_web
                (NotificationController.company_id_of notification) "notification"
                _ (web_notification_manager ms) text Ht) as Hweb.
  pose proof (send_to_company_frames delivers_desktop
                (NotificationController.company_id_of notification) "notification"
                _ (desktop_notification_manager ms) text Ht) as Hdesk.
  rewrite !send_to_company_eq in *.
  cbn [fst snd web_notification_manager desktop_notification_manager] in *.
  split; [reflexivity|]. split; [exact Hweb|exact Hdesk].
Qed.

End NotificationFacts.

(* --------------------------------------------------------------------- *)
(** ** Fingerprint validation                                              *)
(* --------------------------------------------------------------------- *)

Module FingerprintFacts.

Import RepositoryFacts RegistrationFacts Fingerprint.

Lemma get_status_personal_info (pending : PendingRegistrationDB) (db : Session) :
  get_status pending "personal_info" db = (Return JNone, db).
Proof. reflexivity. Qed.

Lemma validate_fingerprint_eq (now : Z) (scan_request : FingerprintScanRequest)
    (db : Session) :
  validate_fingerprint now scan_request db = (Raise (refusal db scan_request), db).
Proof.
  unfold validate_fingerprint, refusal, get_employe_by_id. py_simpl.
  destruct (find _ (employe db)) as [e|]; [|reflexivity].
  rewrite get_pending_registration_eq. cbn [fst snd].
  destruct (pending_registration db !! lower (emp_email e)) as [p|];
    [|reflexivity].
  destruct (now <? pr_expires_at p)%Z; [|reflexivity].
  rewrite get_status_personal_info. reflexivity.
Qed.

Lemma empreintes_validate_fingerprint_endpoint_eq (now : Z)
    (scan_request : FingerprintScanRequest) (db : Session) :
  empreintes_validate_fingerprint_endpoint now scan_request db
  = (Raise (refusal db scan_request), db).
Proof.
  unfold empreintes_validate_fingerprint_endpoint.
  change (try_except_reraising_http (validate_fingerprint now scan_request)
            (fun e => raise (HTTPException HTTP_500_INTERNAL_SERVER_ERROR
               ("Erreur lors de la validation de l'empreinte: " +:+ exn_str e)))
            db = (Raise (refusal db scan_request), db)).
  unfold try_except_reraising_http. rewrite validate_fingerprint_eq.
  unfold refusal. destruct (find _ (employe db)); reflexivity.
Qed.

Lemma employer_validate_fingerprint_endpoint_eq (now_service now : Z)
    (scan_request : FingerprintScanRequest) (db : Session) :
  employer_validate_fingerprint_endpoint now_service now scan_request db
  = (Raise (refusal db scan_request), db).
Proof.
  unfold employer_validate_fingerprint_endpoint, try_except_reraising_http.
  unfold bind at 1. rewrite validate_fingerprint_eq.
  unfold refusal. destruct (find _ (employe db)); reflexivity.
Qed.

(** X27.  [EmpreinteService.validate_fingerprint] never stores a
    fingerprint and never returns: the record it inspects has no key
    [personal_info], so the guard fails for every pending registration.
    It raises 404 when the employee is unknown and 400 otherwise, and
    leaves the session as it was. *)
Theorem validate_fingerprint_always_refuses (now : Z)
    (scan_request : FingerprintScanRequest) (db : Session) :
  ∃ detail,
    validate_fingerprint now scan_request db
    = (Raise (HTTPException
                match find (fun e => Pos.eqb (emp_idEmploye e)
                                       (fsr_idEmploye scan_request))
                           (employe db) with
                | Some _ => HTTP_400_BAD_REQUEST
                | None => HTTP_404_NOT_FOUND
                end detail), db).
Proof.
  rewrite validate_fingerprint_eq. unfold refusal.
  destruct (find _ (employe db)); eexists; reflexivity.
Qed.

(** X28.  Neither [/validate-fingerprint] endpoint can finalise a
    registration.  Even in a session where the employee exists and
    [complete_fingerprint_validation] would accept and remove the pending
    record, both endpoints answer 400 and the record stays. *)
Theorem fingerprint_endpoints_refuse_what_the_service_accepts
    (now_service now : Z) (scan_request : FingerprintScanRequest)
    (db db' : Session) (employe : EmployeDB) :
  find (fun e => Pos.eqb (emp_idEmploye e) (fsr_idEmploye scan_request))
       (Models.employe db) = Some employe →
  complete_fingerprint_validation now (emp_email employe) db = (Return tt, db') →
  pending_registration db' !! lower (emp_email employe) = None
  ∧ (∃ detail,
       empreintes_validate_fingerprint_endpoint now scan_request db
       = (Raise (HTTPException HTTP_400_BAD_REQUEST detail), db))
  ∧ (∃ detail,
       employer_validate_fingerprint_endpoint now_service now scan_request db
       = (Raise (HTTPException HTTP_400_BAD_REQUEST detail), db))
  ∧ is_Some (pending_registration db !! lower (emp_email employe)).
Proof.
  intros Hfind Hdone.
  rewrite empreintes_validate_fingerprint_endpoint_eq,
    employer_validate_fingerprint_endpoint_eq.
  unfold refusal. rewrite Hfind.
  unfold complete_fingerprint_validation in Hdone. py_simpl.
  rewrite get_pending_registration_eq in Hdone. cbn [fst snd] in Hdone.
  destruct (pending_registration db !! lower (emp_email employe)) as [p|] eqn:Hp;
    [|discriminate].
  destruct (now <? pr_expires_at p)%Z; [|discriminate].
  unfold status_or_fail in Hdone. py_simpl.
  destruct (pr_personal_info_json p) as [d|]; [|discriminate].
  cbn [fst snd] in Hdone.
  destruct (jval_is (dict_get d "status") "pending_fingerprint_validation");
    [|discriminate].
  cbn [negb] in Hdone. unfold delete_pending_registration in Hdone. py_simpl.
  inversion Hdone; subst db'. repeat split; eauto.
  cbn. apply lookup_delete_eq.
Qed.

Lemma fingerprint_endpoints_refuse_what_the_service_accepts_witness :
  complete_fingerprint_validation 10 "ada@x.com" awaiting_fingerprint
  = (Return tt, with_pending (delete "ada@x.com") awaiting_fingerprint)
  ∧ (∃ detail,
       empreintes_validate_fingerprint_endpoint 10 scan_of_ada awaiting_fingerprint
       = (Raise (HTTPException HTTP_400_BAD_REQUEST detail), awaiting_fingerprint)).
Proof.
  assert (Hdone : complete_fingerprint_validation 10 (emp_email ada)
                    awaiting_fingerprint
                  = (Return tt,
                     with_pending (delete "ada@x.com") awaiting_fingerprint))
    by (vm_compute; reflexivity).
  split; [exact Hdone|].
  exact (proj1 (proj2 (fingerprint_endpoints_refuse_what_the_service_accepts
                         10 10 scan_of_ada awaiting_fingerprint _ ada
                         eq_refl Hdone))).
Defined.

End FingerprintFacts.
